(** * Mistral agents demo: response normalisation, local tools and history

    A shallow embedding of the logic of the Streamlit pages
    [function_calls.py], [agent_orchestration.py], [web_search.py],
    [image_generation.py] and [code_interpreter.py]: the loops that walk a
    loosely typed response payload, the two local tool executors and the
    per-feature conversation history; and of the session defaults of
    [utils.py].

    Conventions of the embedding.
    - Python values are terms of [pyval].  A [dict] is an association list
      in insertion order.  Objects are attribute tables in which an
      attribute either holds a value or raises when it is read; reading the
      same attribute twice gives the same outcome.
    - Python exceptions are values of [exn]; fallible code lives in the
      [result] monad, code that also talks to the hosted service in the
      state-and-exception monad [M], whose state holds the service, the log
      of the requests sent, what was shown on screen and the session.
    - A conversation response is typed as the client library types it (a
      conversation id and a list of outputs); the outputs and everything
      below them are probed at run time, as the pages do.
    - Python [int] is [Z].  Python [float] is IEEE 754 binary64 as the
      Standard Library specifies it in [SpecFloat]: every operation is
      rounded to the nearest float, ties to even, with infinities, signed
      zeros and NaN; an integer beyond the range of floats raises
      [OverflowError] where it meets a float.  Python has complex numbers,
      [pyval] has not: see [float_pow].
    - Strings are byte strings; [str.lower] is modelled on ASCII letters.
    - What the repository does not define ([json.loads], [json.dumps], the
      clock, [pow] of the C library, the text of a float, the hosted
      service) is a parameter, gathered in the class [Platform]. *)

From Stdlib Require Import String Ascii List ZArith QArith Bool Lia.
From Stdlib Require Import DecimalString Floats.SpecFloat.
Import ListNotations.

Local Open Scope string_scope.
Local Open Scope Z_scope.

(** ** Exceptions and the result monad *)

Inductive exn_class : Type :=
| AttributeError
| TypeError
| ZeroDivisionError
| OverflowError
| ValueError
| RuntimeError
| SDKError.

(** An exception: its class and the text [str(e)] gives. *)
Record exn : Type := Exn { exn_cls : exn_class; exn_msg : string }.

Definition exn_class_eqb (a b : exn_class) : bool :=
  match a, b with
  | AttributeError, AttributeError
  | TypeError, TypeError
  | ZeroDivisionError, ZeroDivisionError
  | OverflowError, OverflowError
  | ValueError, ValueError
  | RuntimeError, RuntimeError
  | SDKError, SDKError => true
  | _, _ => false
  end.

Inductive result (A : Type) : Type :=
| Ok (a : A)
| Raise (e : exn).

Arguments Ok {A} a.
Arguments Raise {A} e.

Definition bind {A B : Type} (m : result A) (k : A -> result B) : result B :=
  match m with
  | Ok a => k a
  | Raise e => Raise e
  end.

Declare Scope py_scope.
Delimit Scope py_scope with py.
Notation "x <- m ;; k" := (bind m (fun x => k))
  (at level 100, m at next level, right associativity) : py_scope.
Local Open Scope py_scope.

(** [for x in xs: acc = body x acc], stopping at the first exception. *)
Fixpoint for_each {A S : Type} (xs : list A) (body : A -> S -> result S) (acc : S)
  : result S :=
  match xs with
  | [] => Ok acc
  | x :: rest => acc' <- body x acc ;; for_each rest body acc'
  end.

(** ** Python values *)

#[local] Set Warnings "-register-all".

Inductive pyval : Type :=
| VNone
| VBool (b : bool)
| VInt (z : Z)
| VFloat (x : spec_float)
| VStr (s : string)
| VBytes (b : string)
| VList (xs : list pyval)
| VDict (kvs : list (string * pyval))
| VObj (attrs : list (string * result pyval)).

Fixpoint lookup {A : Type} (k : string) (kvs : list (string * A)) : option A :=
  match kvs with
  | [] => None
  | (k', v) :: rest => if String.eqb k k' then Some v else lookup k rest
  end.

Definition keys {A : Type} (kvs : list (string * A)) : list string :=
  map fst kvs.

Definition attribute_error (name : string) : exn :=
  Exn AttributeError ("object has no attribute '" ++ name ++ "'").

Definition type_error (msg : string) : exn := Exn TypeError msg.

(** The instance dictionary of an object: its plain attributes. *)
Fixpoint instance_dict (attrs : list (string * result pyval)) : list (string * pyval) :=
  match attrs with
  | [] => []
  | (k, Ok v) :: rest => (k, v) :: instance_dict rest
  | (_, Raise _) :: rest => instance_dict rest
  end.

(** [o.name].  Built-in values carry none of the data attributes the pages
    read; an object has [__dict__] unless its table says otherwise. *)
Definition getattr (o : pyval) (name : string) : result pyval :=
  match o with
  | VObj attrs =>
      match lookup name attrs with
      | Some r => r
      | None =>
          if String.eqb name "__dict__" then Ok (VDict (instance_dict attrs))
          else Raise (attribute_error name)
      end
  | _ => Raise (attribute_error name)
  end.

(** [hasattr(o, name)]: reads the attribute; only [AttributeError] means
    absent, any other exception propagates.  A [dict] has the method
    [get]. *)
Definition hasattr (o : pyval) (name : string) : result bool :=
  match o with
  | VDict _ => Ok (String.eqb name "get")
  | _ =>
      match getattr o name with
      | Ok _ => Ok true
      | Raise e =>
          if exn_class_eqb (exn_cls e) AttributeError then Ok false else Raise e
      end
  end.

(** [o.get(key, default)]. *)
Definition method_get (o : pyval) (key : string) (default : pyval) : result pyval :=
  match o with
  | VDict kvs =>
      match lookup key kvs with
      | Some v => Ok v
      | None => Ok default
      end
  | _ =>
      match getattr o "get" with
      | Ok _ => Raise (type_error "object is not callable")
      | Raise e => Raise e
      end
  end.

(** [v == s] for a string literal [s]. *)
Definition eq_str (v : pyval) (s : string) : bool :=
  match v with
  | VStr s' => String.eqb s' s
  | _ => false
  end.

(** Truth value of [v] in a condition. *)
Definition truthy (v : pyval) : bool :=
  match v with
  | VNone => false
  | VBool b => b
  | VInt z => negb (z =? 0)
  | VFloat x => match x with S754_zero _ => false | _ => true end
  | VStr s => negb (String.eqb s "")
  | VBytes s => negb (String.eqb s "")
  | VList xs => match xs with [] => false | _ => true end
  | VDict kvs => match kvs with [] => false | _ => true end
  | VObj _ => true
  end.

(** [acc += v] on a [str] accumulator. *)
Definition str_iadd (acc : string) (v : pyval) : result string :=
  match v with
  | VStr s => Ok (acc ++ s)
  | _ => Raise (type_error "can only concatenate str to str")
  end.

Fixpoint chars (s : string) : list pyval :=
  match s with
  | EmptyString => []
  | String c rest => VStr (String c EmptyString) :: chars rest
  end.

Fixpoint byte_values (s : string) : list pyval :=
  match s with
  | EmptyString => []
  | String c rest => VInt (Z.of_nat (nat_of_ascii c)) :: byte_values rest
  end.

(** The items a [for] loop over [v] visits. *)
Definition py_iter (v : pyval) : result (list pyval) :=
  match v with
  | VList xs => Ok xs
  | VStr s => Ok (chars s)
  | VBytes b => Ok (byte_values b)
  | VDict kvs => Ok (map VStr (keys kvs))
  | _ => Raise (type_error "object is not iterable")
  end.

(** [s.lower()] on ASCII letters. *)
Definition lower_ascii (c : ascii) : ascii :=
  let n := nat_of_ascii c in
  if (65 <=? n)%nat && (n <=? 90)%nat then ascii_of_nat (n + 32) else c.

Fixpoint lower (s : string) : string :=
  match s with
  | EmptyString => EmptyString
  | String c rest => String (lower_ascii c) (lower rest)
  end.

(** ** Numbers

    [int] and [bool] are integers.  [float] is IEEE 754 binary64 as the
    Standard Library specifies it in [SpecFloat]: 53 bits of precision,
    exponents up to 1024, every operation rounded to the nearest float,
    ties to even.  The operations return floats in the canonical form of
    [SpecFloat]; the comparisons with integers below go by the size of a
    float, whatever its form. *)

Definition fadd : spec_float -> spec_float -> spec_float := SFadd 53 1024.
Definition fsub : spec_float -> spec_float -> spec_float := SFsub 53 1024.
Definition fmul : spec_float -> spec_float -> spec_float := SFmul 53 1024.
Definition fdiv : spec_float -> spec_float -> spec_float := SFdiv 53 1024.

Inductive num : Type :=
| NInt (z : Z)
| NFloat (x : spec_float).

Definition as_num (v : pyval) : option num :=
  match v with
  | VInt z => Some (NInt z)
  | VBool b => Some (NInt (if b then 1 else 0))
  | VFloat x => Some (NFloat x)
  | _ => None
  end.

Definition is_zero (x : spec_float) : bool :=
  match x with S754_zero _ => true | _ => false end.

Definition is_infinite (x : spec_float) : bool :=
  match x with S754_infinity _ => true | _ => false end.

Definition is_nan (x : spec_float) : bool :=
  match x with S754_nan => true | _ => false end.

(** The float nearest to an integer; infinite when the integer is beyond
    the range of floats. *)
Definition float_of_Z (z : Z) : spec_float := binary_normalize 53 1024 z 0 false.

(** The float nearest to the quotient of two integers, [b] not zero. *)
Definition float_of_ratio (a b : Z) : spec_float :=
  match a with
  | 0 => S754_zero (b <? 0)
  | _ => fdiv (S754_finite (a <? 0) (Z.to_pos (Z.abs a)) 0)
              (S754_finite (b <? 0) (Z.to_pos (Z.abs b)) 0)
  end.

(** How a float compares with an integer, exactly; [None] for NaN. *)
Definition float_compare_Z (x : spec_float) (z : Z) : option comparison :=
  match x with
  | S754_nan => None
  | S754_infinity s => Some (if s then Lt else Gt)
  | S754_zero _ => Some (0 ?= z)
  | S754_finite s m e =>
      let v := if s then Z.neg m else Z.pos m in
      Some (if 0 <=? e then v * 2 ^ e ?= z else v ?= z * 2 ^ (- e))
  end.

Definition float_eq_Z (x : spec_float) (z : Z) : bool :=
  match float_compare_Z x z with Some Eq => true | _ => false end.

Definition float_lt_Z (x : spec_float) (z : Z) : bool :=
  match float_compare_Z x z with Some Lt => true | _ => false end.

Definition float_gt_Z (x : spec_float) (z : Z) : bool :=
  match float_compare_Z x z with Some Gt => true | _ => false end.

Definition overflow_error (msg : string) : exn := Exn OverflowError msg.

Definition float_one : spec_float := float_of_Z 1.

(** A number as an operand of float arithmetic: an integer beyond the
    range of floats raises. *)
Definition to_float (n : num) : result spec_float :=
  match n with
  | NFloat x => Ok x
  | NInt z =>
      if is_infinite (float_of_Z z)
      then Raise (overflow_error "int too large to convert to float")
      else Ok (float_of_Z z)
  end.

Definition unsupported_operand (op : string) : exn :=
  type_error ("unsupported operand type(s) for " ++ op).

(** [a / b]: true division, always a float.  Two integers are divided
    exactly and the quotient rounded once; otherwise both operands are
    taken as floats first. *)
Definition num_truediv (x y : num) : result pyval :=
  match x, y with
  | NInt a, NInt b =>
      if b =? 0 then Raise (Exn ZeroDivisionError "division by zero")
      else if is_infinite (float_of_ratio a b)
      then Raise (overflow_error "integer division result too large for a float")
      else Ok (VFloat (float_of_ratio a b))
  | _, _ =>
      fx <- to_float x ;;
      fy <- to_float y ;;
      if is_zero fy then Raise (Exn ZeroDivisionError "float division by zero")
      else Ok (VFloat (fdiv fx fy))
  end.

Definition py_truediv (a b : pyval) : result pyval :=
  match as_num a, as_num b with
  | Some x, Some y => num_truediv x y
  | _, _ => Raise (unsupported_operand "/")
  end.

(** [a * b], [a + b], [a - b] on numbers: an integer when both operands
    are, a float otherwise.  A sequence is repeated by [*] and two
    sequences of a kind are joined by [+]. *)
Definition num_arith (fz : Z -> Z -> Z) (ff : spec_float -> spec_float -> spec_float)
  (x y : num) : result pyval :=
  match x, y with
  | NInt a, NInt b => Ok (VInt (fz a b))
  | _, _ => fx <- to_float x ;; fy <- to_float y ;; Ok (VFloat (ff fx fy))
  end.

Fixpoint repeat_string (n : nat) (s : string) : string :=
  match n with
  | O => EmptyString
  | S n' => s ++ repeat_string n' s
  end.

Fixpoint repeat_list {A : Type} (n : nat) (xs : list A) : list A :=
  match n with
  | O => []
  | S n' => xs ++ repeat_list n' xs
  end.

(** [s * n] for a sequence [s]: [n] copies, none for [n <= 0]; the count
    has to fit a machine index.  (Memory is not bounded.) *)
Definition py_repeat (s : pyval) (n : Z) : result pyval :=
  if (n <? - 2 ^ 63) || (2 ^ 63 <=? n)
  then Raise (overflow_error "cannot fit 'int' into an index-sized integer")
  else
    match s with
    | VStr t => Ok (VStr (repeat_string (Z.to_nat n) t))
    | VBytes t => Ok (VBytes (repeat_string (Z.to_nat n) t))
    | VList xs => Ok (VList (repeat_list (Z.to_nat n) xs))
    | _ => Raise (unsupported_operand "*")
    end.

Definition is_sequence (v : pyval) : bool :=
  match v with
  | VStr _ | VBytes _ | VList _ => true
  | _ => false
  end.

Definition py_mul (a b : pyval) : result pyval :=
  match as_num a, as_num b with
  | Some x, Some y => num_arith Z.mul fmul x y
  | None, Some (NInt n) => if is_sequence a then py_repeat a n else Raise (unsupported_operand "*")
  | Some (NInt n), None => if is_sequence b then py_repeat b n else Raise (unsupported_operand "*")
  | _, _ =>
      if is_sequence a || is_sequence b
      then Raise (type_error "can't multiply sequence by non-int")
      else Raise (unsupported_operand "*")
  end.

Definition py_add (a b : pyval) : result pyval :=
  match a, b with
  | VStr s, VStr t => Ok (VStr (s ++ t))
  | VBytes s, VBytes t => Ok (VBytes (s ++ t))
  | VList xs, VList ys => Ok (VList (xs ++ ys))
  | _, _ =>
      match as_num a, as_num b with
      | Some x, Some y => num_arith Z.add fadd x y
      | _, _ => Raise (unsupported_operand "+")
      end
  end.

Definition py_sub (a b : pyval) : result pyval :=
  match as_num a, as_num b with
  | Some x, Some y => num_arith Z.sub fsub x y
  | _, _ => Raise (unsupported_operand "-")
  end.

(** [a == b] between numbers, exact also between an integer and a float;
    a number never equals a value that is not a number. *)
Definition py_num_eq (a b : pyval) : bool :=
  match as_num a, as_num b with
  | Some (NInt x), Some (NInt y) => x =? y
  | Some (NFloat x), Some (NInt y) => float_eq_Z x y
  | Some (NInt x), Some (NFloat y) => float_eq_Z y x
  | Some (NFloat x), Some (NFloat y) => SFeqb x y
  | _, _ => false
  end.

(** The integer nearest to [n / d] for [d > 0], ties to the even one. *)
Definition round_half_even (n d : Z) : Z :=
  let q := n / d in
  match 2 * (n mod d) ?= d with
  | Lt => q
  | Gt => q + 1
  | Eq => if Z.even q then q else q + 1
  end.

(** [round(x, 2)] on a float: the exact value of [x] is rounded to a whole
    number of hundredths, ties to even, and the result is the float nearest
    to that decimal; the sign is kept, also on zero.  Infinities and NaN
    are returned as they are. *)
Definition round2 (x : spec_float) : spec_float :=
  match x with
  | S754_finite s m e =>
      let k := if 0 <=? e then Z.pos m * 100 * 2 ^ e
               else round_half_even (Z.pos m * 100) (2 ^ (- e)) in
      match k with
      | Z.pos p => fdiv (S754_finite s p 0) (S754_finite false 100 0)
      | _ => S754_zero s
      end
  | _ => x
  end.

(** [round(v, 2)]: a float is rounded to hundredths, an integer is
    returned as it is. *)
Definition py_round2 (v : pyval) : result pyval :=
  match as_num v with
  | Some (NInt z) => Ok (VInt z)
  | Some (NFloat x) => Ok (VFloat (round2 x))
  | None => Raise (type_error "type doesn't define __round__ method")
  end.

(** Whether a float is a whole number, and an odd one. *)
Definition is_integer (x : spec_float) : bool :=
  match x with
  | S754_zero _ | S754_infinity _ => true
  | S754_nan => false
  | S754_finite _ m e => (0 <=? e) || (Z.pos m mod 2 ^ (- e) =? 0)
  end.

Definition is_odd_integer (x : spec_float) : bool :=
  match x with
  | S754_finite _ m e =>
      if 0 <? e then false
      else (Z.pos m mod 2 ^ (- e) =? 0) && Z.odd (Z.pos m / 2 ^ (- e))
  | _ => false
  end.

(** *** Text of numbers *)

Definition int_str (z : Z) : string := NilZero.string_of_int (Z.to_int z).

Definition digit_str (d : Z) : string :=
  String (ascii_of_nat (48 + Z.to_nat d)) EmptyString.

(** Digits after the decimal point of [r / d], at most [fuel] of them. *)
Fixpoint frac_digits (fuel : nat) (r d : Z) : string :=
  match fuel with
  | O => EmptyString
  | S fuel' =>
      if r =? 0 then EmptyString
      else digit_str (r * 10 / d) ++ frac_digits fuel' (r * 10 mod d) d
  end.

(** [repr] of a float that is written as the short decimal [q]: integer
    part, point, and at least one digit.  (Exponent notation and the
    shortest-round-trip rule for long expansions are not modelled.) *)
Definition float_repr (q : Q) : string :=
  let n := Qnum q in
  let d := Z.pos (Qden q) in
  let a := Z.abs n in
  let frac := frac_digits 17 (a mod d) d in
  (if n <? 0 then "-" else "") ++ int_str (a / d) ++ "." ++
  (if String.eqb frac "" then "0" else frac).

(** ** The hosted service and the page state *)

(** A conversation response as the client library types it: the outputs
    are entries the pages probe at run time. *)
Record response : Type := {
  conversation_id : pyval;
  outputs : list pyval
}.

(** The requests the pages send. *)
Inductive request : Type :=
| AgentsCreate (model name : string) (tools : list string)
| AgentsUpdate (agent_id : string) (handoffs : list string)
| ConversationsStart (agent_id : string) (inputs : string)
    (handoff_execution : option string)
| ConversationsContinued (conv_id tool_call_id : pyval) (result_json : string)
| FilesDownload (file_id : pyval).

(** The client of the hosted service over some state [World] of the
    network and the service: every operation answers or raises. *)
Record Remote (World : Type) : Type := {
  agents_create : string -> string -> list string -> World -> result string * World;
  agents_update : string -> list string -> World -> result unit * World;
  conversations_start :
    string -> string -> option string -> World -> result response * World;
  conversations_continued :
    pyval -> pyval -> string -> World -> result response * World;
  files_download : pyval -> World -> result string * World
}.

Arguments agents_create {World}.
Arguments agents_update {World}.
Arguments conversations_start {World}.
Arguments conversations_continued {World}.
Arguments files_download {World}.

Inductive ui_event : Type :=
| StWarning (msg : string)
| StError (msg : string).

(** [st.session_state]: the key and one history per feature. *)
Record session_state : Type := {
  api_key : string;
  function_calls_history : list pyval;
  web_search_history : list pyval;
  orchestration_history : list pyval;
  image_generation_history : list pyval
}.

Definition set_function_calls_history (h : list pyval) (s : session_state) :=
  {| api_key := api_key s;
     function_calls_history := h;
     web_search_history := web_search_history s;
     orchestration_history := orchestration_history s;
     image_generation_history := image_generation_history s |}.

Definition set_web_search_history (h : list pyval) (s : session_state) :=
  {| api_key := api_key s;
     function_calls_history := function_calls_history s;
     web_search_history := h;
     orchestration_history := orchestration_history s;
     image_generation_history := image_generation_history s |}.

Definition set_orchestration_history (h : list pyval) (s : session_state) :=
  {| api_key := api_key s;
     function_calls_history := function_calls_history s;
     web_search_history := web_search_history s;
     orchestration_history := h;
     image_generation_history := image_generation_history s |}.

Definition set_image_generation_history (h : list pyval) (s : session_state) :=
  {| api_key := api_key s;
     function_calls_history := function_calls_history s;
     web_search_history := web_search_history s;
     orchestration_history := orchestration_history s;
     image_generation_history := h |}.

(** What the service answered to a request. *)
Inductive reply : Type :=
| RAgent (id : string)
| RDone
| RResponse (r : response)
| RFile (data : string).

(** What a page run can change: the service, the log of requests sent with
    what came back (an answer or the exception raised), what was shown on
    screen, and the session. *)
Record state (World : Type) : Type := {
  world : World;
  calls : list (request * result reply);
  ui : list ui_event;
  session : session_state
}.

Arguments world {World}.
Arguments calls {World}.
Arguments ui {World}.
Arguments session {World}.

Definition map_result {A B : Type} (f : A -> B) (r : result A) : result B :=
  match r with
  | Ok a => Ok (f a)
  | Raise e => Raise e
  end.

(** A scripted service, for running the pages on concrete exchanges: the
    state is the list of outcomes still to come, one per request in the
    order the requests arrive. *)
Definition script_exhausted : exn := Exn SDKError "no answer".

Definition next_answer {A : Type} (pick : reply -> option A)
  (w : list (result reply)) : result A * list (result reply) :=
  match w with
  | [] => (Raise script_exhausted, [])
  | Raise e :: rest => (Raise e, rest)
  | Ok a :: rest =>
      match pick a with
      | Some x => (Ok x, rest)
      | None => (Raise script_exhausted, rest)
      end
  end.

Definition scripted : Remote (list (result reply)) := {|
  agents_create := fun _ _ _ =>
    next_answer (fun a => match a with RAgent id => Some id | _ => None end);
  agents_update := fun _ _ =>
    next_answer (fun a => match a with RDone => Some tt | _ => None end);
  conversations_start := fun _ _ _ =>
    next_answer (fun a => match a with RResponse r => Some r | _ => None end);
  conversations_continued := fun _ _ _ =>
    next_answer (fun a => match a with RResponse r => Some r | _ => None end);
  files_download := fun _ =>
    next_answer (fun a => match a with RFile d => Some d | _ => None end)
|}.

(** ** The platform

    What the pages run on and this repository does not define: [pow] of the
    C library, which reports an overflow by an infinite result; the text
    [str] gives a float; [json.loads], [json.dumps], the date
    [datetime.now().strftime("%Y-%m-%d")] gives, and the hosted service
    with its state. *)
Class Platform : Type := {
  libm_pow : spec_float -> spec_float -> spec_float;
  float_str : spec_float -> string;
  json_loads : string -> result pyval;
  json_dumps : pyval -> result string;
  today : string;
  World : Type;
  remote : Remote World
}.

Section Program.

Context {platform : Platform}.

(** ** Local tool executors ([function_calls.py]) *)

(** [x ** y] on floats.  The special cases are decided before the library
    is asked: it only sees a finite positive base other than 1 and a finite
    exponent other than 0, and an infinite answer is an overflow.

    A negative base with a fractional exponent gives Python a complex
    number.  [pyval] has none: whatever the loan calculator does with one
    is complex again or raises, and the [round] at its end raises
    [TypeError]; here that [TypeError] is raised at the power. *)
Definition float_pow (x y : spec_float) : result pyval :=
  if float_eq_Z y 0 then Ok (VFloat float_one)
  else if is_nan x then Ok (VFloat x)
  else if is_nan y then Ok (VFloat (if float_eq_Z x 1 then float_one else y))
  else if is_infinite y then
    if float_eq_Z (SFabs x) 1 then Ok (VFloat float_one)
    else if Bool.eqb (float_gt_Z y 0) (float_gt_Z (SFabs x) 1) then Ok (VFloat (SFabs y))
    else Ok (VFloat (S754_zero false))
  else if is_infinite x then
    if float_gt_Z y 0 then Ok (VFloat (if is_odd_integer y then x else SFabs x))
    else Ok (VFloat (if is_odd_integer y then S754_zero (float_lt_Z x 0) else S754_zero false))
  else if float_eq_Z x 0 then
    if float_lt_Z y 0
    then Raise (Exn ZeroDivisionError "0.0 cannot be raised to a negative power")
    else Ok (VFloat (if is_odd_integer y then x else S754_zero false))
  else if float_lt_Z x 0 && negb (is_integer y) then
    Raise (type_error "type complex doesn't define __round__ method")
  else
    let negate := float_lt_Z x 0 && is_odd_integer y in
    let x := SFabs x in
    if float_eq_Z x 1 then Ok (VFloat (if negate then SFopp float_one else float_one))
    else
      let r := libm_pow x y in
      if is_infinite r
      then Raise (overflow_error "(34, 'Numerical result out of range')")
      else Ok (VFloat (if negate then SFopp r else r)).

Definition py_pow (a b : pyval) : result pyval :=
  match as_num a, as_num b with
  | Some (NInt x), Some (NInt y) =>
      if 0 <=? y then Ok (VInt (x ^ y))
      else fx <- to_float (NInt x) ;; fy <- to_float (NInt y) ;; float_pow fx fy
  | Some x, Some y => fx <- to_float x ;; fy <- to_float y ;; float_pow fx fy
  | _, _ => Raise (unsupported_operand "**")
  end.

(** The text an f-string gives a number. *)
Definition num_str (v : pyval) : string :=
  match v with
  | VInt z => int_str z
  | VFloat x => float_str x
  | VBool b => if b then "True" else "False"
  | _ => ""
  end.

Record rate_entry : Type := {
  rate : Q;
  name : string;
  last_updated : string
}.

Definition rates : list (string * rate_entry) :=
  [ ("us", {| rate := 5.5; name := "Federal Reserve"; last_updated := "2023-12-13" |});
    ("ecb", {| rate := 4.0; name := "European Central Bank"; last_updated := "2023-12-14" |});
    ("uk", {| rate := 5.25; name := "Bank of England"; last_updated := "2023-12-15" |});
    ("japan", {| rate := -0.1; name := "Bank of Japan"; last_updated := "2023-12-10" |});
    ("australia", {| rate := 4.35; name := "Reserve Bank of Australia"; last_updated := "2023-12-05" |});
    ("canada", {| rate := 5.0; name := "Bank of Canada"; last_updated := "2023-12-06" |}) ].

Definition get_interest_rate (region date : pyval) : result pyval :=
  let date := if negb (truthy date) then VStr today else date in
  match region with
  | VStr r =>
      let region_lower := lower r in
      match lookup region_lower rates with
      | Some entry =>
          Ok (VDict [ ("region", region);
                      ("date", date);
                      ("interest_rate", VStr (float_repr (rate entry) ++ "%"));
                      ("central_bank", VStr (name entry));
                      ("last_updated", VStr (last_updated entry)) ])
      | None =>
          Ok (VDict [ ("error", VStr ("No interest rate data available for " ++ r));
                      ("available_regions", VList (map VStr (keys rates))) ])
      end
  | _ => Raise (attribute_error "lower")
  end.

Definition calculate_loan_payment (principal annual_interest_rate term_years : pyval)
  : result pyval :=
  r100 <- py_truediv annual_interest_rate (VInt 100) ;;
  monthly_rate <- py_truediv r100 (VInt 12) ;;
  payments <- py_mul term_years (VInt 12) ;;
  monthly_payment <-
    (if py_num_eq monthly_rate (VInt 0) then py_truediv principal payments
     else
       base <- py_add (VInt 1) monthly_rate ;;
       growth <- py_pow base payments ;;
       factor <- py_mul monthly_rate growth ;;
       numerator <- py_mul principal factor ;;
       base' <- py_add (VInt 1) monthly_rate ;;
       growth' <- py_pow base' payments ;;
       denominator <- py_sub growth' (VInt 1) ;;
       py_truediv numerator denominator) ;;
  total_payment <- py_mul monthly_payment payments ;;
  total_interest <- py_sub total_payment principal ;;
  monthly_payment_2 <- py_round2 monthly_payment ;;
  total_payment_2 <- py_round2 total_payment ;;
  total_interest_2 <- py_round2 total_interest ;;
  Ok (VDict [ ("principal", principal);
              ("annual_interest_rate", VStr (num_str annual_interest_rate ++ "%"));
              ("term_years", term_years);
              ("monthly_payment", monthly_payment_2);
              ("total_payment", total_payment_2);
              ("total_interest", total_interest_2);
              ("number_of_payments", payments) ]).

(** ** The page monad: state and exceptions *)

Definition M (A : Type) : Type := state World -> result A * state World.

Definition ret {A : Type} (a : A) : M A := fun st => (Ok a, st).

Definition bindM {A B : Type} (m : M A) (k : A -> M B) : M B :=
  fun st =>
    match m st with
    | (Ok a, st') => k a st'
    | (Raise e, st') => (Raise e, st')
    end.

Notation "x <~ m ;; k" := (bindM m (fun x => k))
  (at level 100, m at next level, right associativity) : py_scope.
Notation "m >> k" := (bindM m (fun _ => k))
  (at level 100, right associativity) : py_scope.

(** A pure step inside a page. *)
Definition lift {A : Type} (r : result A) : M A := fun st => (r, st).

(** [try: m  except Exception as e: handler e]; what [m] did before it
    raised stays done. *)
Definition try_except {A : Type} (m : M A) (handler : exn -> M A) : M A :=
  fun st =>
    match m st with
    | (Ok a, st') => (Ok a, st')
    | (Raise e, st') => handler e st'
    end.

Fixpoint for_eachM {A S : Type} (xs : list A) (body : A -> S -> M S) (acc : S) : M S :=
  match xs with
  | [] => ret acc
  | x :: rest => acc' <~ body x acc ;; for_eachM rest body acc'
  end.

(** One request to the service, logged with its outcome. *)
Definition call {A : Type} (req : request) (wrap : A -> reply)
  (op : World -> result A * World) : M A :=
  fun st =>
    let (r, w) := op (world st) in
    (r, {| world := w;
           calls := calls st ++ [(req, map_result wrap r)];
           ui := ui st;
           session := session st |}).

Definition show (ev : ui_event) : M unit :=
  fun st =>
    (Ok tt, {| world := world st;
               calls := calls st;
               ui := ui st ++ [ev];
               session := session st |}).

Definition st_warning (msg : string) : M unit := show (StWarning msg).
Definition st_error (msg : string) : M unit := show (StError msg).

Definition get_session : M session_state := fun st => (Ok (session st), st).

Definition modify_session (f : session_state -> session_state) : M unit :=
  fun st =>
    (Ok tt, {| world := world st;
               calls := calls st;
               ui := ui st;
               session := f (session st) |}).

Definition user_turn (user_prompt : string) : pyval :=
  VDict [ ("role", VStr "user"); ("content", VStr user_prompt) ].

(** ** Text of a message output

    The branch for [message.output] entries, written the same way in
    [function_calls.py] (initial response) and [agent_orchestration.py]. *)

(** [hasattr(output, 'type') and output.type == t]. *)
Definition output_type_is (output : pyval) (t : string) : result bool :=
  has_type <- hasattr output "type" ;;
  if has_type : bool then
    ty <- getattr output "type" ;; Ok (eq_str ty t)
  else Ok false.

Definition add_text_item (content_item : pyval) (text : string) : result string :=
  has_get <- hasattr content_item "get" ;;
  if has_get : bool then
    ty <- method_get content_item "type" VNone ;;
    if eq_str ty "text" then
      t <- method_get content_item "text" (VStr "") ;;
      str_iadd text t
    else Ok text
  else
    has_type <- hasattr content_item "type" ;;
    if has_type : bool then
      ty <- getattr content_item "type" ;;
      if eq_str ty "text" then
        has_text <- hasattr content_item "text" ;;
        if has_text : bool then
          t <- getattr content_item "text" ;;
          str_iadd text t
        else Ok text
      else Ok text
    else Ok text.

Definition add_message_output (output : pyval) (text : string) : result string :=
  content <- getattr output "content" ;;
  match content with
  | VStr _ => str_iadd text content
  | VList items => for_each items add_text_item text
  | _ => Ok text
  end.

(** ** Function calls page ([function_calls.py]) *)

(** [client.beta.agents.create(...).id]. *)
Definition create_agent (model name : string) (tools : list string) : M string :=
  call (AgentsCreate model name tools) RAgent (agents_create remote model name tools).

(** [client.beta.conversations.start(agent_id=..., inputs=...)]. *)
Definition start_conversation (agent inputs : string) (handoff_execution : option string)
  : M response :=
  call (ConversationsStart agent inputs handoff_execution) RResponse
       (conversations_start remote agent inputs handoff_execution).

Definition create_function_call_agent : M (option string) :=
  try_except
    (agent <~ create_agent "mistral-medium-latest" "Function Call Agent"
                ["get_interest_rate"; "calculate_loan_payment"] ;;
     ret (Some agent))
    (fun e =>
       st_error ("Failed to create function call agent: " ++ exn_msg e) >>
       ret None).

Record function_call : Type := {
  tool_call_id : pyval;
  function_name : pyval;
  arguments : pyval
}.

Definition function_call_dict (fc : function_call) : pyval :=
  VDict [ ("tool_call_id", tool_call_id fc);
          ("function_name", function_name fc);
          ("arguments", arguments fc) ].

(** [json.loads(v)]: text is parsed, anything else is a [TypeError]. *)
Definition loads (v : pyval) : result pyval :=
  match v with
  | VStr s => json_loads s
  | VBytes s => json_loads s
  | _ => Raise (type_error "the JSON object must be str, bytes or bytearray")
  end.

(** The body of [for tool_call in output.tool_calls]. *)
Definition add_tool_call (tool_call : pyval) (function_calls : list function_call)
  : result (list function_call) :=
  has_function <- hasattr tool_call "function" ;;
  if has_function : bool then
    function <- getattr tool_call "function" ;;
    if truthy function then
      has_id <- hasattr tool_call "id" ;;
      tool_call_id <- (if has_id : bool then getattr tool_call "id" else Ok (VStr "")) ;;
      has_name <- hasattr function "name" ;;
      function_name <- (if has_name : bool then getattr function "name" else Ok (VStr "")) ;;
      has_arguments <- hasattr function "arguments" ;;
      function_args <-
        (if has_arguments : bool then
           match (raw <- getattr function "arguments" ;; loads raw) with
           | Ok parsed => Ok parsed
           | Raise _ =>
               raw <- getattr function "arguments" ;;
               Ok (VDict [ ("raw_args", raw) ])
           end
         else Ok (VDict [])) ;;
      Ok (function_calls ++
            [ {| tool_call_id := tool_call_id;
                 function_name := function_name;
                 arguments := function_args |} ])%list
    else Ok function_calls
  else Ok function_calls.

(** The body of the first loop, [for output in response.outputs]. *)
Definition process_initial_output (output : pyval)
  (acc : string * list function_call) : result (string * list function_call) :=
  let (current_response, function_calls) := acc in
  is_message <- output_type_is output "message.output" ;;
  if is_message : bool then
    text <- add_message_output output current_response ;;
    Ok (text, function_calls)
  else
    is_tool_calls <- output_type_is output "tool.calls" ;;
    if is_tool_calls : bool then
      has_tool_calls <- hasattr output "tool_calls" ;;
      if has_tool_calls : bool then
        tool_calls <- getattr output "tool_calls" ;;
        items <- py_iter tool_calls ;;
        calls' <- for_each items add_tool_call function_calls ;;
        Ok (current_response, calls')
      else Ok acc
    else Ok acc.

Definition process_initial_response (r : response)
  : result (string * list function_call) :=
  for_each (outputs r) process_initial_output ("", []).

(** Running the matching local function on the arguments of a call;
    [None] is a name no executor answers to. *)
Definition execute_function (function_name args : pyval) : result (option pyval) :=
  if eq_str function_name "get_interest_rate" then
    region <- method_get args "region" (VStr "") ;;
    date <- method_get args "date" VNone ;;
    result <- get_interest_rate region date ;;
    Ok (Some result)
  else if eq_str function_name "calculate_loan_payment" then
    principal <- method_get args "principal" (VInt 0) ;;
    annual_interest_rate <- method_get args "annual_interest_rate" (VInt 0) ;;
    term_years <- method_get args "term_years" (VInt 0) ;;
    result <- calculate_loan_payment principal annual_interest_rate term_years ;;
    Ok (Some result)
  else Ok None.

(** Text of a continuation response: entries and items are read without
    the probes of the first loop. *)
Definition add_continue_item (content_item : pyval) (text : string) : result string :=
  ty <- method_get content_item "type" VNone ;;
  if eq_str ty "text" then
    t <- method_get content_item "text" (VStr "") ;;
    str_iadd text t
  else Ok text.

Definition add_continue_output (output : pyval) (text : string) : result string :=
  ty <- getattr output "type" ;;
  if eq_str ty "message.output" then
    content <- getattr output "content" ;;
    match content with
    | VStr _ => str_iadd text content
    | VList items => for_each items add_continue_item text
    | _ => Ok text
    end
  else Ok text.

Definition function_result_dict (fc : function_call) (result : pyval) : pyval :=
  VDict [ ("tool_call_id", tool_call_id fc);
          ("function_name", function_name fc);
          ("result", result) ].

(** The body of the second loop, [for function_call in function_calls]. *)
Definition answer_function_call (conv_id : pyval) (fc : function_call)
  (acc : list pyval * string) : M (list pyval * string) :=
  let (function_results, final_response) := acc in
  result <~ lift (execute_function (function_name fc) (arguments fc)) ;;
  match result with
  | Some result =>
      if truthy result then
        let function_results := (function_results ++ [function_result_dict fc result])%list in
        result_json <~ lift (json_dumps result) ;;
        continue_response <~
          call (ConversationsContinued conv_id (tool_call_id fc) result_json) RResponse
               (conversations_continued remote conv_id (tool_call_id fc) result_json) ;;
        text <~ lift (for_each (outputs continue_response) add_continue_output
                        final_response) ;;
        ret (function_results, text)
      else ret acc
  | None => ret acc
  end.

Definition assistant_turn_fc (content : string) (function_calls : list function_call)
  (function_results : list pyval) : pyval :=
  VDict [ ("role", VStr "assistant");
          ("content", VStr content);
          ("function_calls", VList (map function_call_dict function_calls));
          ("function_results", VList function_results) ].

Definition append_function_calls_history (turn : pyval) : M unit :=
  modify_session
    (fun s => set_function_calls_history (function_calls_history s ++ [turn])%list s).

(** The [try] block of the submit handler: the assistant turn it builds. *)
Definition function_calls_exchange (agent user_prompt : string) : M pyval :=
  response <~ start_conversation agent user_prompt None ;;
  let conv_id := conversation_id response in
  initial <~ lift (process_initial_response response) ;;
  let (current_response, function_calls) := initial : string * list function_call in
  answered <~ for_eachM function_calls (answer_function_call conv_id) ([], "") ;;
  let (function_results, final_response) := answered : list pyval * string in
  let final_response :=
    match function_calls with
    | [] => current_response
    | _ => final_response
    end in
  ret (assistant_turn_fc final_response function_calls function_results).

Definition error_turn_fc (e : exn) : pyval :=
  VDict [ ("role", VStr "assistant");
          ("content", VStr ("Error: " ++ exn_msg e));
          ("function_calls", VList []);
          ("function_results", VList []) ].

(** What pressing the submit button does. *)
Definition function_calls_submit (user_prompt : string) : M bool :=
  if String.eqb user_prompt "" then st_warning "Please enter a prompt." >> ret true
  else
    agent <~ create_function_call_agent ;;
    match agent with
    | None => ret true
    | Some agent =>
        append_function_calls_history (user_turn user_prompt) >>
        try_except
          (turn <~ function_calls_exchange agent user_prompt ;;
           append_function_calls_history turn)
          (fun e =>
             st_error ("Error: " ++ exn_msg e) >>
             append_function_calls_history (error_turn_fc e)) >>
        ret false
    end.

(** One run of a page: the key check, the submit handler when its button
    was pressed, then the clear button, which is only there while the
    history is not empty.  A submit handler answers [true] when it ends
    the page run with [return].  Rendering the history is left out. *)
Definition run_page (submit_handler : M bool) (submit clear : bool)
  (history : session_state -> list pyval)
  (set_history : list pyval -> session_state -> session_state) : M unit :=
  s <~ get_session ;;
  if String.eqb (api_key s) "" then
    st_warning "Please enter your Mistral API Key in the sidebar to use this feature."
  else
    returned <~ (if submit then submit_handler else ret false) ;;
    if returned : bool then ret tt
    else
      s' <~ get_session ;;
      match history s' with
      | [] => ret tt
      | _ => if clear then modify_session (set_history []) else ret tt
      end.

Definition display_function_calls_page (user_prompt : string) (submit clear : bool)
  : M unit :=
  run_page (function_calls_submit user_prompt) submit clear
    function_calls_history set_function_calls_history.

(** ** Agent orchestration page ([agent_orchestration.py]) *)

(** The primary agent and the registry of agent ids by name. *)
Definition create_orchestration_agents : M (option (string * list (string * string))) :=
  try_except
    (finance <~ create_agent "mistral-large-latest" "Finance Agent" [] ;;
     web_search <~ create_agent "mistral-medium-latest" "Web Search Agent" ["web_search"] ;;
     calculator <~
       create_agent "mistral-medium-latest" "Calculator Agent" ["code_interpreter"] ;;
     graph <~ create_agent "mistral-medium-latest" "Graph Agent" ["code_interpreter"] ;;
     call (AgentsUpdate finance [web_search; calculator; graph]) (fun _ => RDone)
          (agents_update remote finance [web_search; calculator; graph]) >>
     call (AgentsUpdate web_search [calculator; graph]) (fun _ => RDone)
          (agents_update remote web_search [calculator; graph]) >>
     call (AgentsUpdate calculator [graph]) (fun _ => RDone)
          (agents_update remote calculator [graph]) >>
     ret (Some (finance,
                [ ("finance", finance); ("web_search", web_search);
                  ("calculator", calculator); ("graph", graph) ])))
    (fun e =>
       st_error ("Failed to create orchestration agents: " ++ exn_msg e) >>
       ret None).

(** [next((name for name, id in agent_ids.items() if id == handoff_agent_id),
    "Unknown Agent")]. *)
Fixpoint handoff_agent_name (agent_ids : list (string * string))
  (handoff_agent_id : pyval) : string :=
  match agent_ids with
  | [] => "Unknown Agent"
  | (name, id) :: rest =>
      if eq_str handoff_agent_id id then name
      else handoff_agent_name rest handoff_agent_id
  end.

Definition handoff_dict (agent_ids : list (string * string))
  (handoff_agent_id handoff_inputs : pyval) : pyval :=
  VDict [ ("agent_name", VStr (handoff_agent_name agent_ids handoff_agent_id));
          ("agent_id", handoff_agent_id);
          ("inputs", handoff_inputs) ].

(** The branch for [handoff.execution] entries. *)
Definition add_handoff (agent_ids : list (string * string)) (output : pyval)
  (handoffs : list pyval) : result (list pyval) :=
  has_agent_id <- hasattr output "agent_id" ;;
  handoff_agent_id <-
    (if has_agent_id : bool then getattr output "agent_id" else Ok (VStr "")) ;;
  has_inputs <- hasattr output "inputs" ;;
  handoff_inputs <-
    (if has_inputs : bool then getattr output "inputs" else Ok (VStr "")) ;;
  Ok (handoffs ++ [handoff_dict agent_ids handoff_agent_id handoff_inputs])%list.

Definition tool_execution_dict (tool_name tool_info : pyval) : pyval :=
  VDict [ ("tool_name", tool_name); ("info", tool_info) ].

(** The branch for [tool.execution] entries.  The [try] covers only the
    read of [output.info.__dict__]; the probes before it are outside. *)
Definition add_tool_execution (output : pyval) (tool_executions : list pyval)
  : result (list pyval) :=
  has_name <- hasattr output "name" ;;
  tool_name <- (if has_name : bool then getattr output "name" else Ok (VStr "")) ;;
  has_info <- hasattr output "info" ;;
  tool_info <-
    (if has_info : bool then
       info <- getattr output "info" ;;
       has_dict <- hasattr info "__dict__" ;;
       if has_dict : bool then
         match (info' <- getattr output "info" ;; getattr info' "__dict__") with
         | Ok d => Ok d
         | Raise _ => Ok (VDict [])
         end
       else getattr output "info"
     else Ok (VDict [])) ;;
  Ok (tool_executions ++ [tool_execution_dict tool_name tool_info])%list.

Record orchestration_turn : Type := {
  primary_response : string;
  handoffs : list pyval;
  tool_executions : list pyval
}.

(** The body of [for output in response.outputs]. *)
Definition process_orchestration_output (agent_ids : list (string * string))
  (output : pyval) (acc : orchestration_turn) : result orchestration_turn :=
  is_message <- output_type_is output "message.output" ;;
  if is_message : bool then
    text <- add_message_output output (primary_response acc) ;;
    Ok {| primary_response := text;
          handoffs := handoffs acc;
          tool_executions := tool_executions acc |}
  else
    is_handoff <- output_type_is output "handoff.execution" ;;
    if is_handoff : bool then
      hs <- add_handoff agent_ids output (handoffs acc) ;;
      Ok {| primary_response := primary_response acc;
            handoffs := hs;
            tool_executions := tool_executions acc |}
    else
      is_tool <- output_type_is output "tool.execution" ;;
      if is_tool : bool then
        ts <- add_tool_execution output (tool_executions acc) ;;
        Ok {| primary_response := primary_response acc;
              handoffs := handoffs acc;
              tool_executions := ts |}
      else Ok acc.

Definition process_orchestration_response (agent_ids : list (string * string))
  (r : response) : result orchestration_turn :=
  for_each (outputs r) (process_orchestration_output agent_ids)
    {| primary_response := ""; handoffs := []; tool_executions := [] |}.

Definition assistant_turn_orch (t : orchestration_turn) : pyval :=
  VDict [ ("role", VStr "assistant");
          ("content", VStr (primary_response t));
          ("handoffs", VList (handoffs t));
          ("tool_executions", VList (tool_executions t)) ].

Definition error_turn_orch (e : exn) : pyval :=
  VDict [ ("role", VStr "assistant");
          ("content", VStr ("Error: " ++ exn_msg e));
          ("handoffs", VList []);
          ("tool_executions", VList []) ].

Definition append_orchestration_history (turn : pyval) : M unit :=
  modify_session
    (fun s => set_orchestration_history (orchestration_history s ++ [turn])%list s).

(** The [try] block of the submit handler. *)
Definition orchestration_exchange (finance_agent : string)
  (agent_ids : list (string * string)) (user_prompt handoff_mode : string) : M pyval :=
  response <~ start_conversation finance_agent user_prompt (Some handoff_mode) ;;
  turn <~ lift (process_orchestration_response agent_ids response) ;;
  ret (assistant_turn_orch turn).

(** What pressing "Start Orchestration" does. *)
Definition orchestration_submit (user_prompt handoff_mode : string) : M bool :=
  if String.eqb user_prompt "" then st_warning "Please enter a prompt." >> ret true
  else
    created <~ create_orchestration_agents ;;
    match created with
    | None => ret true
    | Some (finance_agent, agent_ids) =>
        append_orchestration_history (user_turn user_prompt) >>
        try_except
          (turn <~ orchestration_exchange finance_agent agent_ids user_prompt
                     handoff_mode ;;
           append_orchestration_history turn)
          (fun e =>
             st_error ("Error: " ++ exn_msg e) >>
             append_orchestration_history (error_turn_orch e)) >>
        ret false
    end.

Definition display_agent_orchestration_page (user_prompt handoff_mode : string)
  (submit clear : bool) : M unit :=
  run_page (orchestration_submit user_prompt handoff_mode) submit clear
    orchestration_history set_orchestration_history.

(** ** Web search page ([web_search.py]) *)

Definition create_web_search_agent (premium : bool) : M (option string) :=
  try_except
    (let tool_type := if premium then "web_search_premium" else "web_search" in
     agent <~ create_agent "mistral-medium-latest" "Web Search Agent" [tool_type] ;;
     ret (Some agent))
    (fun e =>
       st_error ("Failed to create web search agent: " ++ exn_msg e) >>
       ret None).

Definition is_web_search_tool (tool : pyval) : bool :=
  eq_str tool "web_search" || eq_str tool "web_search_premium".

Definition source_dict (title url source : pyval) : pyval :=
  VDict [ ("title", title); ("url", url); ("source", source) ].

(** [o.name if hasattr(o, name) else ""]. *)
Definition attr_or_empty (o : pyval) (name : string) : result pyval :=
  has <- hasattr o name ;;
  if has : bool then getattr o name else Ok (VStr "").

Definition add_search_item (content_item : pyval) (acc : string * list pyval)
  : result (string * list pyval) :=
  let (response_text, sources) := acc in
  has_get <- hasattr content_item "get" ;;
  if has_get : bool then
    ty <- method_get content_item "type" VNone ;;
    if eq_str ty "text" then
      t <- method_get content_item "text" (VStr "") ;;
      text <- str_iadd response_text t ;;
      Ok (text, sources)
    else
      ty' <- method_get content_item "type" VNone ;;
      if eq_str ty' "tool_reference" then
        tool <- method_get content_item "tool" VNone ;;
        if is_web_search_tool tool then
          title <- method_get content_item "title" (VStr "") ;;
          url <- method_get content_item "url" (VStr "") ;;
          source <- method_get content_item "source" (VStr "") ;;
          Ok (response_text, (sources ++ [source_dict title url source])%list)
        else Ok acc
      else Ok acc
  else
    has_type <- hasattr content_item "type" ;;
    if has_type : bool then
      ty <- getattr content_item "type" ;;
      has_text <- (if eq_str ty "text" then hasattr content_item "text" else Ok false) ;;
      if has_text : bool then
        t <- getattr content_item "text" ;;
        text <- str_iadd response_text t ;;
        Ok (text, sources)
      else
        ty' <- getattr content_item "type" ;;
        has_tool <-
          (if eq_str ty' "tool_reference" then hasattr content_item "tool" else Ok false) ;;
        if has_tool : bool then
          has_tool' <- hasattr content_item "tool" ;;
          is_search <-
            (if has_tool' : bool then
               tool <- getattr content_item "tool" ;; Ok (is_web_search_tool tool)
             else Ok false) ;;
          if is_search : bool then
            title <- attr_or_empty content_item "title" ;;
            url <- attr_or_empty content_item "url" ;;
            source <- attr_or_empty content_item "source" ;;
            Ok (response_text, (sources ++ [source_dict title url source])%list)
          else Ok acc
        else Ok acc
    else Ok acc.

Definition process_search_output (output : pyval) (acc : string * list pyval)
  : result (string * list pyval) :=
  is_message <- output_type_is output "message.output" ;;
  if is_message : bool then
    content <- getattr output "content" ;;
    match content with
    | VStr _ => text <- str_iadd (fst acc) content ;; Ok (text, snd acc)
    | VList items => for_each items add_search_item acc
    | _ => Ok acc
    end
  else Ok acc.

Definition assistant_turn_ws (content : string) (sources : list pyval) : pyval :=
  VDict [ ("role", VStr "assistant");
          ("content", VStr content);
          ("sources", VList sources) ].

Definition error_turn_ws (e : exn) : pyval :=
  VDict [ ("role", VStr "assistant");
          ("content", VStr ("Error: " ++ exn_msg e));
          ("sources", VList []) ].

Definition append_web_search_history (turn : pyval) : M unit :=
  modify_session
    (fun s => set_web_search_history (web_search_history s ++ [turn])%list s).

(** The [try] block of the submit handler. *)
Definition web_search_exchange (agent user_prompt : string) : M pyval :=
  response <~ start_conversation agent user_prompt None ;;
  found <~ lift (for_each (outputs response) process_search_output ("", [])) ;;
  ret (assistant_turn_ws (fst found) (snd found)).

(** What pressing "Search Web" does. *)
Definition web_search_submit (user_prompt : string) (premium : bool) : M bool :=
  if String.eqb user_prompt "" then st_warning "Please enter a prompt." >> ret true
  else
    agent <~ create_web_search_agent premium ;;
    match agent with
    | None => ret true
    | Some agent =>
        append_web_search_history (user_turn user_prompt) >>
        try_except
          (turn <~ web_search_exchange agent user_prompt ;;
           append_web_search_history turn)
          (fun e =>
             st_error ("Error: " ++ exn_msg e) >>
             append_web_search_history (error_turn_ws e)) >>
        ret false
    end.

Definition display_web_search_page (user_prompt : string) (premium submit clear : bool)
  : M unit :=
  run_page (web_search_submit user_prompt premium) submit clear
    web_search_history set_web_search_history.

(** ** Image generation page ([image_generation.py]) *)

Definition create_image_agent : M (option string) :=
  try_except
    (agent <~ create_agent "mistral-medium-latest" "Image Generation Agent"
                ["image_generation"] ;;
     ret (Some agent))
    (fun e =>
       st_error ("Failed to create image generation agent: " ++ exn_msg e) >>
       ret None).

(** What the loop over one response collects. *)
Record image_result : Type := {
  response_text : string;
  image_file_id : pyval;
  image_file_name : pyval;
  image_file_type : pyval
}.

Definition with_text (text : string) (acc : image_result) : image_result :=
  {| response_text := text;
     image_file_id := image_file_id acc;
     image_file_name := image_file_name acc;
     image_file_type := image_file_type acc |}.

(** [o.name if hasattr(o, name) else current]. *)
Definition attr_or (o : pyval) (name : string) (current : pyval) : result pyval :=
  has <- hasattr o name ;;
  if has : bool then getattr o name else Ok current.

Definition add_image_item (content_item : pyval) (acc : image_result)
  : result image_result :=
  has_get <- hasattr content_item "get" ;;
  if has_get : bool then
    ty <- method_get content_item "type" VNone ;;
    if eq_str ty "text" then
      t <- method_get content_item "text" (VStr "") ;;
      text <- str_iadd (response_text acc) t ;;
      Ok (with_text text acc)
    else
      ty' <- method_get content_item "type" VNone ;;
      if eq_str ty' "tool_file" then
        tool <- method_get content_item "tool" VNone ;;
        if eq_str tool "image_generation" then
          file_id <- method_get content_item "file_id" VNone ;;
          file_name <- method_get content_item "file_name" VNone ;;
          file_type <- method_get content_item "file_type" VNone ;;
          Ok {| response_text := response_text acc;
                image_file_id := file_id;
                image_file_name := file_name;
                image_file_type := file_type |}
        else Ok acc
      else Ok acc
  else
    has_type <- hasattr content_item "type" ;;
    if has_type : bool then
      ty <- getattr content_item "type" ;;
      has_text <- (if eq_str ty "text" then hasattr content_item "text" else Ok false) ;;
      if has_text : bool then
        t <- getattr content_item "text" ;;
        text <- str_iadd (response_text acc) t ;;
        Ok (with_text text acc)
      else
        ty' <- getattr content_item "type" ;;
        has_tool <-
          (if eq_str ty' "tool_file" then hasattr content_item "tool" else Ok false) ;;
        if has_tool : bool then
          tool <- getattr content_item "tool" ;;
          if eq_str tool "image_generation" then
            file_id <- attr_or content_item "file_id" (image_file_id acc) ;;
            file_name <- attr_or content_item "file_name" (image_file_name acc) ;;
            file_type <- attr_or content_item "file_type" (image_file_type acc) ;;
            Ok {| response_text := response_text acc;
                  image_file_id := file_id;
                  image_file_name := file_name;
                  image_file_type := file_type |}
          else Ok acc
        else Ok acc
    else Ok acc.

Definition process_image_output (output : pyval) (acc : image_result)
  : result image_result :=
  is_message <- output_type_is output "message.output" ;;
  if is_message : bool then
    content <- getattr output "content" ;;
    match content with
    | VStr _ => text <- str_iadd (response_text acc) content ;; Ok (with_text text acc)
    | VList items => for_each items add_image_item acc
    | _ => Ok acc
    end
  else Ok acc.

Definition num_images_to_generate : Z := 2.

(** [range(n)] for the small counts the pages use. *)
Definition range (n : Z) : list Z := map Z.of_nat (seq 0 (Z.to_nat n)).

(** The [{i+1}] of the messages. *)
Definition image_number (i : Z) : string := int_str (i + 1).

Definition assistant_turn_img (i : Z) (r : image_result) (image_data : pyval) : pyval :=
  VDict [ ("role", VStr "assistant");
          ("content",
           VStr (if String.eqb (response_text r) ""
                 then "Here is generated image " ++ image_number i
                 else response_text r));
          ("image_data", image_data);
          ("image_file_name", image_file_name r);
          ("image_file_type", image_file_type r) ].

Definition error_turn_img (i : Z) (e : exn) : pyval :=
  VDict [ ("role", VStr "assistant");
          ("content",
           VStr ("Error generating image " ++ image_number i ++ ": " ++ exn_msg e));
          ("image_data", VNone) ].

Definition append_image_generation_history (turn : pyval) : M unit :=
  modify_session
    (fun s =>
       set_image_generation_history (image_generation_history s ++ [turn])%list s).

(** The [try] block of one pass of the loop. *)
Definition image_exchange (agent user_prompt : string) (i : Z) : M pyval :=
  response <~ start_conversation agent user_prompt None ;;
  found <~ lift (for_each (outputs response) process_image_output
                   {| response_text := "";
                      image_file_id := VNone;
                      image_file_name := VNone;
                      image_file_type := VNone |}) ;;
  image_data <~
    (if truthy (image_file_id found) then
       try_except
         (data <~ call (FilesDownload (image_file_id found)) RFile
                       (files_download remote (image_file_id found)) ;;
          ret (VBytes data))
         (fun e =>
            st_error ("Failed to download image " ++ image_number i ++ "/" ++
                      int_str num_images_to_generate ++ ": " ++ exn_msg e) >>
            ret VNone)
     else ret VNone) ;;
  ret (assistant_turn_img i found image_data).

(** One pass of [for i in range(num_images_to_generate)]. *)
Definition generate_image (agent user_prompt : string) (i : Z) (_ : unit) : M unit :=
  try_except
    (turn <~ image_exchange agent user_prompt i ;;
     append_image_generation_history turn)
    (fun e =>
       st_error ("Error generating image " ++ image_number i ++ ": " ++ exn_msg e) >>
       append_image_generation_history (error_turn_img i e)).

(** What pressing "Generate Image" does. *)
Definition image_generation_submit (user_prompt : string) : M bool :=
  if String.eqb user_prompt "" then st_warning "Please enter a prompt." >> ret true
  else
    agent <~ create_image_agent ;;
    match agent with
    | None => ret true
    | Some agent =>
        append_image_generation_history (user_turn user_prompt) >>
        for_eachM (range num_images_to_generate) (generate_image agent user_prompt) tt >>
        ret false
    end.

Definition display_image_generation_page (user_prompt : string) (submit clear : bool)
  : M unit :=
  run_page (image_generation_submit user_prompt) submit clear
    image_generation_history set_image_generation_history.

(** ** Code interpreter page ([code_interpreter.py])

    The exchange of the page: the request that starts the conversation,
    the loop over the response and the assistant turn it builds. *)

(** The body of [for content_item in output.content]. *)
Definition add_code_text_item (content_item : pyval) (text : string) : result string :=
  has_get <- hasattr content_item "get" ;;
  if has_get : bool then
    ty <- method_get content_item "type" VNone ;;
    if eq_str ty "text" then
      t <- method_get content_item "text" (VStr "") ;;
      str_iadd text t
    else Ok text
  else
    is_text <- output_type_is content_item "text" ;;
    if is_text : bool then
      has_text <- hasattr content_item "text" ;;
      if has_text : bool then
        t <- getattr content_item "text" ;;
        str_iadd text t
      else Ok text
    else Ok text.

(** [code] and [code_output] of a tool info: the attribute when there is
    one; otherwise, for a value with [get], the entry when it is truthy;
    otherwise the empty text. *)
Definition info_field (info : pyval) (name : string) : result pyval :=
  has <- hasattr info name ;;
  if has : bool then getattr info name
  else
    has_get <- hasattr info "get" ;;
    if has_get : bool then
      v <- method_get info name VNone ;;
      if truthy v then method_get info name VNone else Ok (VStr "")
    else Ok (VStr "").

Definition code_block_dict (code code_output : pyval) : pyval :=
  VDict [ ("code", code); ("output", code_output) ].

(** The branch for [tool.execution] entries. *)
Definition add_code_block (output : pyval) (code_blocks : list pyval)
  : result (list pyval) :=
  has_name <- hasattr output "name" ;;
  is_interpreter <-
    (if has_name : bool then
       name <- getattr output "name" ;; Ok (eq_str name "code_interpreter")
     else Ok false) ;;
  if is_interpreter : bool then
    has_info <- hasattr output "info" ;;
    if has_info : bool then
      info <- getattr output "info" ;;
      code <- info_field info "code" ;;
      code_output <- info_field info "code_output" ;;
      Ok (code_blocks ++ [code_block_dict code code_output])%list
    else Ok code_blocks
  else Ok code_blocks.

(** The body of [for output in response.outputs]. *)
Definition process_code_output (output : pyval) (acc : string * list pyval)
  : result (string * list pyval) :=
  let (final_text, code_blocks) := acc in
  is_message <- output_type_is output "message.output" ;;
  if is_message : bool then
    content <- getattr output "content" ;;
    match content with
    | VStr _ => text <- str_iadd final_text content ;; Ok (text, code_blocks)
    | VList items =>
        text <- for_each items add_code_text_item final_text ;; Ok (text, code_blocks)
    | _ => Ok acc
    end
  else
    is_tool <- output_type_is output "tool.execution" ;;
    if is_tool : bool then
      blocks <- add_code_block output code_blocks ;; Ok (final_text, blocks)
    else Ok acc.

Definition assistant_turn_code (content : string) (code_blocks : list pyval) : pyval :=
  VDict [ ("role", VStr "assistant");
          ("content", VStr content);
          ("code_blocks", VList code_blocks) ].

(** The [try] block of the submit handler: the assistant turn it builds. *)
Definition code_interpreter_exchange (agent user_prompt : string) : M pyval :=
  response <~ start_conversation agent user_prompt None ;;
  found <~ lift (for_each (outputs response) process_code_output ("", [])) ;;
  ret (assistant_turn_code (fst found) (snd found)).

(** ** Session defaults ([utils.py])

    [init_session_state] sees [st.session_state] as the keys set so far,
    whatever they hold.  [getenv_api_key] is the outcome of loading the
    [.env] file and reading [MISTRAL_API_KEY] from the environment. *)

(** [if key not in st.session_state: st.session_state[key] = default]. *)
Definition set_if_missing (key : string) (default : pyval) (s : list (string * pyval))
  : list (string * pyval) :=
  match lookup key s with
  | Some _ => s
  | None => (s ++ [(key, default)])%list
  end.

Definition init_session_state (getenv_api_key : result string)
  (s : list (string * pyval)) : list (string * pyval) :=
  let s := set_if_missing "messages" (VList []) s in
  let s := set_if_missing "current_tab" (VStr "Home") s in
  let s := set_if_missing "code_interpreter_history" (VList []) s in
  let s := set_if_missing "image_generation_history" (VList []) s in
  let s := set_if_missing "web_search_history" (VList []) s in
  let s := set_if_missing "orchestration_history" (VList []) s in
  let s := set_if_missing "function_calls_history" (VList []) s in
  match lookup "api_key" s with
  | Some _ => s
  | None =>
      match getenv_api_key with
      | Ok api_key => (s ++ [("api_key", VStr api_key)])%list
      | Raise _ => (s ++ [("api_key", VStr "")])%list
      end
  end.

End Program.

(** * Notions the properties are stated with *)

Section Notions.

Context {platform : Platform}.

(** ** What the spec says a response holds

    The records of the spec, read off a payload without running the loops:
    an attribute that cannot be read counts as absent. *)

(** The value of an attribute, [default] when there is none. *)
Definition attr_value (o : pyval) (name : string) (default : pyval) : pyval :=
  match getattr o name with
  | Ok v => v
  | Raise _ => default
  end.

(** The discriminant of an output entry. *)
Definition has_type (o : pyval) (t : string) : bool :=
  match getattr o "type" with
  | Ok ty => eq_str ty t
  | Raise _ => false
  end.

(** One handoff record per handoff-execution entry, in payload order. *)
Definition handoff_records (agent_ids : list (string * string)) (outs : list pyval)
  : list pyval :=
  flat_map
    (fun o =>
       if has_type o "handoff.execution" then
         [handoff_dict agent_ids (attr_value o "agent_id" (VStr ""))
            (attr_value o "inputs" (VStr ""))]
       else [])
    outs.

(** A field of a content item, by key for a mapping and by attribute for
    an object. *)
Definition item_field (item : pyval) (name : string) : option pyval :=
  match item with
  | VDict kvs => lookup name kvs
  | _ =>
      match getattr item name with
      | Ok v => Some v
      | Raise _ => None
      end
  end.

Definition is_text_item (item : pyval) : bool :=
  match item_field item "type" with
  | Some ty => eq_str ty "text"
  | None => false
  end.

(** The text field of an item; an item without one contributes nothing. *)
Definition text_fragment (item : pyval) : string :=
  match item_field item "text" with
  | Some (VStr s) => s
  | _ => ""
  end.

(** The text fragments of one message-output entry: its content when that
    is a string, the text fields of its text-typed items when it is a
    list. *)
Definition text_fragments (o : pyval) : list string :=
  match getattr o "content" with
  | Ok (VStr s) => [s]
  | Ok (VList items) => map text_fragment (filter is_text_item items)
  | _ => []
  end.

Definition join (fragments : list string) : string :=
  fold_right append "" fragments.

(** The text of a normalized turn: every fragment of every message-output
    entry, in payload order. *)
Definition normalized_text (outs : list pyval) : string :=
  join (flat_map text_fragments
          (filter (fun o => has_type o "message.output") outs)).

(** What one content item adds to the text. *)
Definition item_text (item : pyval) : string :=
  if is_text_item item then text_fragment item else "".

(** ** Payloads the loops walk without an exception *)

(** No attribute of [v], or of anything inside it, raises when read. *)
Fixpoint plain (v : pyval) : bool :=
  match v with
  | VList xs => forallb plain xs
  | VDict kvs => forallb (fun kv => plain (snd kv)) kvs
  | VObj attrs =>
      forallb (fun kv => match snd kv with Ok v' => plain v' | Raise _ => false end)
        attrs
  | _ => true
  end.

(** An object that stores something under the name [get]. *)
Definition has_data_get (item : pyval) : bool :=
  match item with
  | VObj attrs => match lookup "get" attrs with Some _ => true | None => false end
  | _ => false
  end.

(** A text-typed item holds a string, if it holds a text at all. *)
Definition text_item_ok (item : pyval) : bool :=
  negb (has_data_get item) &&
  (if is_text_item item then
     match item_field item "text" with
     | Some (VStr _) | None => true
     | Some _ => false
     end
   else true).

(** A message-output entry has a content, whose items are as above. *)
Definition message_ok (o : pyval) : bool :=
  if has_type o "message.output" then
    match getattr o "content" with
    | Ok (VList items) => forallb text_item_ok items
    | Ok _ => true
    | Raise _ => false
    end
  else true.

(** The tool calls of a tool-call entry can be iterated. *)
Definition tool_calls_ok (o : pyval) : bool :=
  if has_type o "tool.calls" then
    match getattr o "tool_calls" with
    | Ok (VList _) | Ok (VStr _) | Ok (VBytes _) | Ok (VDict _) => true
    | Ok _ => false
    | Raise _ => true
    end
  else true.

Definition well_formed_output (o : pyval) : bool :=
  plain o && message_ok o && tool_calls_ok o.

(** ** Function calls and the local tools *)

(** [r] is an exception of class [cls], whatever its text. *)
Definition raises {A : Type} (cls : exn_class) (r : result A) : Prop :=
  exists msg, r = Raise (Exn cls msg).

(** The arguments a pending call records for the argument value [raw]. *)
Definition parsed_arguments (raw : pyval) : pyval :=
  match loads raw with
  | Ok parsed => parsed
  | Raise _ => VDict [ ("raw_args", raw) ]
  end.

(** *** The loan calculator in float arithmetic *)

(** The float a number is where it meets a float. *)
Definition float_of (n : num) : spec_float :=
  match n with
  | NInt z => float_of_Z z
  | NFloat x => x
  end.

(** The numbers that can meet a float: every float, and the integers in
    the range of floats. *)
Definition in_range (n : num) : bool :=
  match n with
  | NInt z => negb (is_infinite (float_of_Z z))
  | NFloat _ => true
  end.

(** [a / b] for [b] other than zero: two integers are divided exactly and
    the quotient is rounded once. *)
Definition quotient (a b : num) : spec_float :=
  match a, b with
  | NInt x, NInt y => float_of_ratio x y
  | _, _ => fdiv (float_of a) (float_of b)
  end.

(** [a / b] does not overflow: the quotient of two integers is in the
    range of floats, and so is an integer divided by or dividing a
    float. *)
Definition can_divide (a b : num) : bool :=
  match a, b with
  | NInt x, NInt y => negb (is_infinite (float_of_ratio x y))
  | _, _ => in_range a && in_range b
  end.

Definition is_finite (x : spec_float) : bool :=
  match x with
  | S754_zero _ | S754_finite _ _ _ => true
  | _ => false
  end.

(** A value that is a number and can meet a float. *)
Definition float_operand (v : pyval) : bool :=
  match as_num v with
  | Some n => in_range n
  | None => false
  end.

(** A value that is a number and can be divided by 100. *)
Definition percentage (v : pyval) : bool :=
  match as_num v with
  | Some n => can_divide n (NInt 100)
  | None => false
  end.

(** A value that is the number zero: [0], [False], [0.0] or [-0.0]. *)
Definition zero_number (v : pyval) : bool :=
  match as_num v with
  | Some (NInt z) => z =? 0
  | Some (NFloat x) => is_zero x
  | None => false
  end.

(** [annual_interest_rate / 100 / 12]. *)
Definition monthly_rate_of (nr : num) : spec_float :=
  fdiv (quotient nr (NInt 100)) (float_of_Z 12).

(** [term_years * 12]. *)
Definition payments_of (nt : num) : num :=
  match nt with
  | NInt z => NInt (z * 12)
  | NFloat x => NFloat (fmul x (float_of_Z 12))
  end.

Definition number (n : num) : pyval :=
  match n with
  | NInt z => VInt z
  | NFloat x => VFloat x
  end.

(** The float nearest to [k / 100], with the sign [s]. *)
Definition hundredths (s : bool) (k : Z) : spec_float :=
  match k with
  | Z.pos p => SFdiv 53 1024 (S754_finite s p 0) (S754_finite false 100 0)
  | _ => S754_zero s
  end.

(** [y] is [x] rounded to 2 decimal places.  For a finite [x] of size
    [m * 2 ^ e], there is a whole number [k] of hundredths nearest to
    [100 * m * 2 ^ e], the even one when two are equally near, and [y] is
    the float nearest to [k / 100] with the sign of [x]; an infinity, a
    zero and NaN are left as they are.  (With [n / d] for
    [100 * m * 2 ^ e], [d] a power of 2.) *)
Definition rounded_to_cents (x y : spec_float) : Prop :=
  match x with
  | S754_finite s m e =>
      let n := Z.pos m * 100 * 2 ^ Z.max e 0 in
      let d := 2 ^ Z.max (- e) 0 in
      exists k : Z,
        2 * Z.abs (n - k * d) <= d /\
        (2 * Z.abs (n - k * d) = d -> Z.even k = true) /\
        y = hundredths s k
  | _ => y = x
  end.

(** The record of the calculator. *)
Definition loan_record (principal rate term : pyval)
  (monthly total interest : spec_float) (payments : num) : pyval :=
  VDict [ ("principal", principal);
          ("annual_interest_rate", VStr (num_str rate ++ "%"));
          ("term_years", term);
          ("monthly_payment", VFloat monthly);
          ("total_payment", VFloat total);
          ("total_interest", VFloat interest);
          ("number_of_payments", number payments) ].

(** The calculator returns the record for the unrounded monthly payment
    [mp]: the payment, the payment times the number of payments, and that
    less the principal, each rounded to 2 decimal places; the number of
    payments, the principal and the term as they are, and the rate as its
    text followed by a percent sign. *)
Definition loan_payment_is (principal rate term : pyval) (np nt : num)
  (mp : spec_float) : Prop :=
  let n := float_of (payments_of nt) in
  exists monthly total interest : spec_float,
    calculate_loan_payment principal rate term =
    Ok (loan_record principal rate term monthly total interest (payments_of nt)) /\
    rounded_to_cents mp monthly /\
    rounded_to_cents (fmul mp n) total /\
    rounded_to_cents (fsub (fmul mp n) (float_of np)) interest.

(** The calculator in two halves, once the rate and the term are known to
    be the numbers [nr] and [nt]: the monthly payment, and the record made
    from it. *)
Definition monthly_payment_of (principal : pyval) (nr nt : num) : result pyval :=
  if float_eq_Z (monthly_rate_of nr) 0
  then py_truediv principal (number (payments_of nt))
  else
    growth <- (fy <- to_float (payments_of nt) ;;
               float_pow (fadd float_one (monthly_rate_of nr)) fy) ;;
    factor <- py_mul (VFloat (monthly_rate_of nr)) growth ;;
    numerator <- py_mul principal factor ;;
    growth' <- (fy <- to_float (payments_of nt) ;;
                float_pow (fadd float_one (monthly_rate_of nr)) fy) ;;
    denominator <- py_sub growth' (VInt 1) ;;
    py_truediv numerator denominator.

Definition loan_figures (principal rate term : pyval) (nt : num)
  (monthly_payment : pyval) : result pyval :=
  total_payment <- py_mul monthly_payment (number (payments_of nt)) ;;
  total_interest <- py_sub total_payment principal ;;
  monthly_payment_2 <- py_round2 monthly_payment ;;
  total_payment_2 <- py_round2 total_payment ;;
  total_interest_2 <- py_round2 total_interest ;;
  Ok (VDict [ ("principal", principal);
              ("annual_interest_rate", VStr (num_str rate ++ "%"));
              ("term_years", term);
              ("monthly_payment", monthly_payment_2);
              ("total_payment", total_payment_2);
              ("total_interest", total_interest_2);
              ("number_of_payments", number (payments_of nt)) ]).

(** A string of ASCII characters only: on these [lower] is [str.lower]. *)
Fixpoint is_ascii (s : string) : bool :=
  match s with
  | EmptyString => true
  | String c rest => (nat_of_ascii c <? 128)%nat && is_ascii rest
  end.

(** The date of a record: today's when none is given. *)
Definition effective_date (date : pyval) : pyval :=
  if negb (truthy date) then VStr today else date.

(** The fields of a rate record after [region]. *)
Definition rate_fields (date : pyval) (entry : rate_entry) : list (string * pyval) :=
  [ ("date", effective_date date);
    ("interest_rate", VStr (float_repr (rate entry) ++ "%"));
    ("central_bank", VStr (name entry));
    ("last_updated", VStr (last_updated entry)) ].

(** The record for a region the table does not have. *)
Definition no_rate_record (region : string) : pyval :=
  VDict [ ("error", VStr ("No interest rate data available for " ++ region));
          ("available_regions",
           VList [ VStr "us"; VStr "ecb"; VStr "uk"; VStr "japan"; VStr "australia";
                   VStr "canada" ]) ].

(** ** Page runs: the log, the screen and the history *)

(** The failures a log records. *)
Definition failed (log : list (request * result reply)) (e : exn) : Prop :=
  exists req, In (req, Raise e) log.

(** A computation that leaves the session and the screen alone, only adds
    to the log, and raises whatever failure it logs. *)
Definition faithful {A : Type} (m : M A) : Prop :=
  forall st,
    session (snd (m st)) = session st /\
    ui (snd (m st)) = ui st /\
    exists delta,
      calls (snd (m st)) = (calls st ++ delta)%list /\
      forall e, failed delta e -> fst (m st) = Raise e.

(** The states a run goes through: after a request ... *)
Definition logged (st : state World) (w : World) (entry : request * result reply)
  : state World :=
  {| world := w; calls := calls st ++ [entry]; ui := ui st; session := session st |}.

(** ... after showing [ev] on screen ... *)
Definition shown (st : state World) (ev : ui_event) : state World :=
  {| world := world st; calls := calls st; ui := ui st ++ [ev]; session := session st |}.

(** ... and after a change of the session. *)
Definition with_session (st : state World) (f : session_state -> session_state)
  : state World :=
  {| world := world st; calls := calls st; ui := ui st; session := f (session st) |}.

(** Appending a turn to the history of a feature. *)
Definition push_function_calls (turn : pyval) (s : session_state) : session_state :=
  set_function_calls_history (function_calls_history s ++ [turn]) s.

Definition push_web_search (turn : pyval) (s : session_state) : session_state :=
  set_web_search_history (web_search_history s ++ [turn]) s.

Definition push_image_generation (turn : pyval) (s : session_state) : session_state :=
  set_image_generation_history (image_generation_history s ++ [turn]) s.

(** The requests that create the agent of a page. *)
Definition create_function_call_request : request :=
  AgentsCreate "mistral-medium-latest" "Function Call Agent"
    ["get_interest_rate"; "calculate_loan_payment"].

Definition create_web_search_request (premium : bool) : request :=
  AgentsCreate "mistral-medium-latest" "Web Search Agent"
    [if premium then "web_search_premium" else "web_search"].

Definition create_image_request : request :=
  AgentsCreate "mistral-medium-latest" "Image Generation Agent" ["image_generation"].

(** How a page records failures: [submit] never raises;
    when the agent cannot be created the failure is shown on screen and
    the history is left as it was; otherwise the history gains the user
    turn and one assistant turn, which is the error turn of any failure
    the conversation requests logged. *)
Definition conversation_failures_recorded (submit : M bool)
  (history : session_state -> list pyval) (create_request : request)
  (creation_failure : string) (user_prompt : string) (error_turn : exn -> pyval)
  : Prop :=
  forall st,
    (exists returned, fst (submit st) = Ok returned) /\
    ((exists e,
         calls (snd (submit st)) = (calls st ++ [(create_request, Raise e)])%list /\
         history (session (snd (submit st))) = history (session st) /\
         ui (snd (submit st)) = (ui st ++ [StError (creation_failure ++ exn_msg e)])%list)
     \/
     (exists agent conversation turn,
         calls (snd (submit st)) =
           (calls st ++ (create_request, Ok (RAgent agent)) :: conversation)%list /\
         history (session (snd (submit st))) =
           (history (session st) ++ [user_turn user_prompt; turn])%list /\
         forall e, failed conversation e ->
           turn = error_turn e /\
           ui (snd (submit st)) = (ui st ++ [StError ("Error: " ++ exn_msg e)])%list)).

(** The responses a log records, in order. *)
Fixpoint responses_of (log : list (request * result reply)) : list response :=
  match log with
  | [] => []
  | (_, Ok (RResponse r)) :: rest => r :: responses_of rest
  | _ :: rest => responses_of rest
  end.

(** The text of the continuation responses a log records. *)
Definition continuation_text (log : list (request * result reply)) : string :=
  join (map (fun r => normalized_text (outputs r)) (responses_of log)).

(** The content of a turn of a history. *)
Definition turn_content (turn : pyval) : option pyval :=
  match turn with
  | VDict kvs => lookup "content" kvs
  | _ => None
  end.

(** A request that starts a conversation. *)
Definition is_start (entry : request * result reply) : bool :=
  match fst entry with
  | ConversationsStart _ _ _ => true
  | _ => false
  end.

(** The number of conversations a log starts. *)
Definition starts (log : list (request * result reply)) : nat :=
  length (filter is_start log).

(** The turn one pass of the loop appends. *)
Definition image_turn (i : Z) (r : result pyval) : pyval :=
  match r with
  | Ok turn => turn
  | Raise e => error_turn_img i e
  end.

(** The state in which the first pass of the loop starts. *)
Definition image_loop_start (st : state World) (w : World) (agent user_prompt : string)
  : state World :=
  with_session (logged st w (create_image_request, Ok (RAgent agent)))
    (push_image_generation (user_turn user_prompt)).

(** The state in which the second pass starts. *)
Definition image_second_start (st : state World) (w : World)
  (agent user_prompt : string) : state World :=
  snd (generate_image agent user_prompt 0 tt (image_loop_start st w agent user_prompt)).

(** ** Pending calls, their results and the requests that answer them *)

(** The arguments recorded for a function object [f]. *)
Definition call_arguments (f : pyval) : pyval :=
  match getattr f "arguments" with
  | Ok raw => parsed_arguments raw
  | Raise _ => VDict []
  end.

(** The record of one tool call: none when it has no function. *)
Definition call_records (tool_call : pyval) : list function_call :=
  match getattr tool_call "function" with
  | Ok f =>
      if truthy f then
        [ {| tool_call_id := attr_value tool_call "id" (VStr "");
             function_name := attr_value f "name" (VStr "");
             arguments := call_arguments f |} ]
      else []
  | Raise _ => []
  end.

(** The tool calls a tool-call entry lists. *)
Definition tool_calls_of (o : pyval) : list pyval :=
  match getattr o "tool_calls" with
  | Ok v => match py_iter v with Ok items => items | Raise _ => [] end
  | Raise _ => []
  end.

(** The pending calls of a payload, in payload order. *)
Definition pending_calls (outs : list pyval) : list function_call :=
  flat_map
    (fun o => if has_type o "tool.calls" then flat_map call_records (tool_calls_of o)
              else [])
    outs.

(** The names the dispatcher answers to. *)
Definition known_function (function_name : pyval) : bool :=
  eq_str function_name "get_interest_rate" ||
  eq_str function_name "calculate_loan_payment".

(** The result the second loop records for a pending call, if any. *)
Definition local_result (fc : function_call) : option pyval :=
  match execute_function (function_name fc) (arguments fc) with
  | Ok (Some result) => if truthy result then Some result else None
  | _ => None
  end.

Definition recorded_results (fcs : list function_call) : list pyval :=
  flat_map
    (fun fc =>
       match local_result fc with
       | Some result => [function_result_dict fc result]
       | None => []
       end)
    fcs.

(** The request that hands the result of a call back to the conversation. *)
Definition continuation_requests (conv_id : pyval) (fcs : list function_call)
  : list request :=
  flat_map
    (fun fc =>
       match local_result fc with
       | Some result =>
           match json_dumps result with
           | Ok result_json =>
               [ConversationsContinued conv_id (tool_call_id fc) result_json]
           | Raise _ => []
           end
       | None => []
       end)
    fcs.

(** A field of a turn of a history. *)
Definition turn_field (turn : pyval) (name : string) : option pyval :=
  match turn with
  | VDict kvs => lookup name kvs
  | _ => None
  end.

(** A value [json.loads] can give that is not a string. *)
Definition json_non_string (v : pyval) : bool :=
  match v with
  | VNone | VBool _ | VInt _ | VFloat _ | VList _ | VDict _ => true
  | _ => false
  end.

(** ** Tool executions, sources, images and code blocks *)

(** The record of one tool execution: the instance dictionary of an info
    object, the info itself when it has none. *)
Definition tool_record (o : pyval) : pyval :=
  tool_execution_dict (attr_value o "name" (VStr ""))
    match getattr o "info" with
    | Ok info =>
        match getattr info "__dict__" with
        | Ok d => d
        | Raise _ => info
        end
    | Raise _ => VDict []
    end.

Definition tool_records (outs : list pyval) : list pyval :=
  flat_map (fun o => if has_type o "tool.execution" then [tool_record o] else []) outs.

(** An item that cites a web search result. *)
Definition is_source_item (item : pyval) : bool :=
  match item_field item "type", item_field item "tool" with
  | Some ty, Some tool => eq_str ty "tool_reference" && is_web_search_tool tool
  | _, _ => false
  end.

Definition field_or_empty (item : pyval) (name : string) : pyval :=
  match item_field item name with
  | Some v => v
  | None => VStr ""
  end.

Definition source_record (item : pyval) : pyval :=
  source_dict (field_or_empty item "title") (field_or_empty item "url")
    (field_or_empty item "source").

(** The items of a message-output entry whose content is a list. *)
Definition content_items (o : pyval) : list pyval :=
  if has_type o "message.output" then
    match getattr o "content" with
    | Ok (VList items) => items
    | _ => []
    end
  else [].

(** The sources of a payload, in payload order. *)
Definition source_records (outs : list pyval) : list pyval :=
  map source_record (filter is_source_item (flat_map content_items outs)).

(** An item that names a generated image. *)
Definition is_image_file (item : pyval) : bool :=
  match item_field item "type", item_field item "tool" with
  | Some ty, Some tool => eq_str ty "tool_file" && eq_str tool "image_generation"
  | _, _ => false
  end.

(** What the image loop starts from. *)
Definition no_image : image_result :=
  {| response_text := "";
     image_file_id := VNone;
     image_file_name := VNone;
     image_file_type := VNone |}.

(** A field of a tool info as the code interpreter page reads it. *)
Definition code_field (info : pyval) (name : string) : pyval :=
  match info with
  | VDict kvs =>
      match lookup name kvs with
      | Some v => if truthy v then v else VStr ""
      | None => VStr ""
      end
  | _ => attr_value info name (VStr "")
  end.

(** The code block of an entry: one for an execution of the code
    interpreter that carries an info, none otherwise. *)
Definition code_records (o : pyval) : list pyval :=
  if has_type o "tool.execution" then
    match getattr o "name", getattr o "info" with
    | Ok name, Ok info =>
        if eq_str name "code_interpreter" then
          [code_block_dict (code_field info "code") (code_field info "code_output")]
        else []
    | _, _ => []
    end
  else [].

(** ** Setting up the orchestration agents *)

(** The requests that create the four agents and wire their handoffs. *)
Definition setup_requests (finance web_search calculator graph : string) : list request :=
  [ AgentsCreate "mistral-large-latest" "Finance Agent" [];
    AgentsCreate "mistral-medium-latest" "Web Search Agent" ["web_search"];
    AgentsCreate "mistral-medium-latest" "Calculator Agent" ["code_interpreter"];
    AgentsCreate "mistral-medium-latest" "Graph Agent" ["code_interpreter"];
    AgentsUpdate finance [web_search; calculator; graph];
    AgentsUpdate web_search [calculator; graph];
    AgentsUpdate calculator [graph] ].

Definition registry (finance web_search calculator graph : string)
  : list (string * string) :=
  [ ("finance", finance); ("web_search", web_search); ("calculator", calculator);
    ("graph", graph) ].

(** Every request of a log was answered. *)
Definition all_answered (log : list (request * result reply)) : bool :=
  forallb (fun entry => match snd entry with Ok _ => true | Raise _ => false end) log.

(** The log of a setup in which the service answered every request, the
    creations with the ids given. *)
Definition setup_log (finance web_search calculator graph : string)
  : list (request * result reply) :=
  combine (setup_requests finance web_search calculator graph)
    [ Ok (RAgent finance); Ok (RAgent web_search); Ok (RAgent calculator);
      Ok (RAgent graph); Ok RDone; Ok RDone; Ok RDone ].

(** A log that ends with the failure [e], every request before it
    answered. *)
Definition stopped_at (log : list (request * result reply)) (e : exn) : Prop :=
  exists answered req,
    log = (answered ++ [(req, Raise e)])%list /\ all_answered answered = true.

Definition push_orchestration (turn : pyval) (s : session_state) : session_state :=
  set_orchestration_history (orchestration_history s ++ [turn]) s.

(** The turn the orchestration page records for the outcome [r] of the
    request that starts the conversation. *)
Definition orchestration_outcome (agent_ids : list (string * string))
  (r : result response) : pyval :=
  match (response <- r ;; process_orchestration_response agent_ids response) with
  | Ok turn => assistant_turn_orch turn
  | Raise e => error_turn_orch e
  end.

(** ** What a page run leaves alone *)

(** The features that keep a history in the session. *)
Inductive feature : Type :=
| FunctionCalls
| WebSearch
| Orchestration
| ImageGeneration.

Definition history_of (f : feature) (s : session_state) : list pyval :=
  match f with
  | FunctionCalls => function_calls_history s
  | WebSearch => web_search_history s
  | Orchestration => orchestration_history s
  | ImageGeneration => image_generation_history s
  end.

Definition set_history_of (f : feature) (h : list pyval) (s : session_state)
  : session_state :=
  match f with
  | FunctionCalls => set_function_calls_history h s
  | WebSearch => set_web_search_history h s
  | Orchestration => set_orchestration_history h s
  | ImageGeneration => set_image_generation_history h s
  end.

(** From [s] to [s'] nothing changed but, at most, the history of [f]. *)
Definition untouched_elsewhere (f : feature) (s s' : session_state) : Prop :=
  api_key s' = api_key s /\
  forall g, g <> f -> history_of g s' = history_of g s.

(** One run of the page of a feature, with what the user entered. *)
(** The handoff mode the orchestration page derives from its radio
    button. *)
Definition handoff_mode_of (server_side : bool) : string :=
  if server_side then "server" else "client".

(** One run of the page of a feature, with what the user entered;
    [choice] is the radio button of the page, if it has one: premium
    search on the web search page, server-side handoffs on the
    orchestration page. *)
Definition page_run (f : feature) (user_prompt : string) (choice submit clear : bool)
  : M unit :=
  match f with
  | FunctionCalls => display_function_calls_page user_prompt submit clear
  | WebSearch => display_web_search_page user_prompt choice submit clear
  | Orchestration =>
      display_agent_orchestration_page user_prompt (handoff_mode_of choice) submit clear
  | ImageGeneration => display_image_generation_page user_prompt submit clear
  end.

(** The submit handler of the page of a feature. *)
Definition submit_run (f : feature) (user_prompt : string) (choice : bool) : M bool :=
  match f with
  | FunctionCalls => function_calls_submit user_prompt
  | WebSearch => web_search_submit user_prompt choice
  | Orchestration => orchestration_submit user_prompt (handoff_mode_of choice)
  | ImageGeneration => image_generation_submit user_prompt
  end.

(** Appending turns to the history of a feature, one after the other. *)
Definition push_turns (f : feature) (turns : list pyval) (s : session_state)
  : session_state :=
  fold_left (fun s turn => set_history_of f (history_of f s ++ [turn]) s) turns s.

(** ** The defaults of the session *)

(** The key [init_session_state] takes from the environment. *)
Definition environment_key (getenv_api_key : result string) : string :=
  match getenv_api_key with
  | Ok api_key => api_key
  | Raise _ => ""
  end.

(** The keys [init_session_state] sets, each with its default. *)
Definition session_defaults (getenv_api_key : result string) : list (string * pyval) :=
  [ ("messages", VList []);
    ("current_tab", VStr "Home");
    ("code_interpreter_history", VList []);
    ("image_generation_history", VList []);
    ("web_search_history", VList []);
    ("orchestration_history", VList []);
    ("function_calls_history", VList []);
    ("api_key", VStr (environment_key getenv_api_key)) ].

(** Setting each of [defaults] where it is missing, one after the other. *)
Definition set_missing (defaults s : list (string * pyval)) : list (string * pyval) :=
  fold_left (fun s kv => set_if_missing (fst kv) (snd kv) s) defaults s.

End Notions.

(** * Concrete exchanges *)

(** A platform for running the pages on concrete exchanges: a parser for
    the few JSON texts the examples use, a printer that does not look at
    its argument, a [pow] for whole numbers of payments, and the text of
    the floats with a short exact decimal expansion. *)
Definition quoted (s : string) : string :=
  String (ascii_of_nat 34) s ++ String (ascii_of_nat 34) EmptyString.

Definition region_us_json : string :=
  "{" ++ quoted "region" ++ ": " ++ quoted "US" ++ "}".

Definition loan_without_term_json : string :=
  "{" ++ quoted "principal" ++ ": 1000, " ++ quoted "annual_interest_rate" ++ ": 5}".

Definition sample_loads (s : string) : result pyval :=
  if String.eqb s "{}" then Ok (VDict [])
  else if String.eqb s loan_without_term_json then
    Ok (VDict [ ("principal", VInt 1000); ("annual_interest_rate", VInt 5) ])
  else if String.eqb s region_us_json then Ok (VDict [ ("region", VStr "US") ])
  else Raise (Exn ValueError "Expecting value").

Definition sample_dumps (_ : pyval) : result string := Ok "{...}".

(** The floats 5.5 and 1e-14. *)
Definition float_5_5 : spec_float := S754_finite false 6192449487634432 (-50).

Definition float_1e_14 : spec_float := S754_finite false 6338253001141147 (-99).

(** The whole number a float is, when it is one. *)
Definition whole (x : spec_float) : option Z :=
  match x with
  | S754_zero _ => Some 0
  | S754_finite s m e =>
      if 0 <=? e then Some ((if s then Z.neg m else Z.pos m) * 2 ^ e)
      else if Z.pos m mod 2 ^ (- e) =? 0
      then Some ((if s then Z.neg m else Z.pos m) / 2 ^ (- e))
      else None
  | _ => None
  end.

(** A float to a positive whole power, by repeated squaring in float
    arithmetic. *)
Fixpoint float_power (x : spec_float) (n : positive) : spec_float :=
  match n with
  | xH => x
  | xO n' => let y := float_power x n' in fmul y y
  | xI n' => let y := float_power x n' in fmul x (fmul y y)
  end.

(** A [pow] for whole exponents above zero. *)
Definition sample_pow (x y : spec_float) : spec_float :=
  match whole y with
  | Some (Z.pos n) => float_power x n
  | _ => S754_nan
  end.

(** The exact decimal expansion of a float, cut after 17 decimals. *)
Definition sample_float_str (x : spec_float) : string :=
  match x with
  | S754_zero s => if s then "-0.0" else "0.0"
  | S754_infinity s => if s then "-inf" else "inf"
  | S754_nan => "nan"
  | S754_finite s m e =>
      float_repr
        (if 0 <=? e then inject_Z ((if s then Z.neg m else Z.pos m) * 2 ^ e)
         else Qmake (if s then Z.neg m else Z.pos m) (Z.to_pos (2 ^ (- e))))
  end.

Definition fresh_session (key : string) : session_state :=
  {| api_key := key;
     function_calls_history := [];
     web_search_history := [];
     orchestration_history := [];
     image_generation_history := [] |}.

(** The state a page run starts from, with a scripted service. *)
Definition start_state (script : list (result reply)) (s : session_state)
  : state (list (result reply)) :=
  {| world := script; calls := []; ui := []; session := s |}.

(** Payload entries as the client library hands them over. *)
Definition message_output (content : pyval) : pyval :=
  VObj [ ("type", Ok (VStr "message.output")); ("content", Ok content) ].

Definition text_mapping (text : string) : pyval :=
  VDict [ ("type", VStr "text"); ("text", VStr text) ].

Definition text_object (text : string) : pyval :=
  VObj [ ("type", Ok (VStr "text")); ("text", Ok (VStr text)) ].

Definition tool_file (file_id : string) : pyval :=
  VObj [ ("type", Ok (VStr "tool_file"));
         ("tool", Ok (VStr "image_generation"));
         ("file_id", Ok (VStr file_id));
         ("file_name", Ok (VStr "image"));
         ("file_type", Ok (VStr "png")) ].

Definition tool_reference (title url : string) : pyval :=
  VDict [ ("type", VStr "tool_reference");
          ("tool", VStr "web_search");
          ("title", VStr title);
          ("url", VStr url) ].

Definition tool_call (id function_name : string) (arguments : pyval) : pyval :=
  VObj [ ("id", Ok (VStr id));
         ("function",
          Ok (VObj [ ("name", Ok (VStr function_name));
                     ("arguments", Ok arguments) ])) ].

Definition tool_calls_entry (tool_calls : list pyval) : pyval :=
  VObj [ ("type", Ok (VStr "tool.calls")); ("tool_calls", Ok (VList tool_calls)) ].

Definition tool_execution (tool_name : string) (info : pyval) : pyval :=
  VObj [ ("type", Ok (VStr "tool.execution"));
         ("name", Ok (VStr tool_name));
         ("info", Ok info) ].

Definition handoff_execution (agent_id inputs : string) : pyval :=
  VObj [ ("type", Ok (VStr "handoff.execution"));
         ("agent_id", Ok (VStr agent_id));
         ("inputs", Ok (VStr inputs)) ].

(** An info object that raises [e] when its [__dict__] is read. *)
Definition raising_info (e : exn) : pyval := VObj [ ("__dict__", Raise e) ].

Definition respond (outs : list pyval) : response :=
  {| conversation_id := VStr "conv-1"; outputs := outs |}.

(** A response mixing the shapes of content. *)
Definition mixed_response : response :=
  respond
    [ message_output (VStr "Hello ");
      tool_execution "web_search" (VDict [ ("query", VStr "rates") ]);
      message_output
        (VList [ text_mapping "A";
                 tool_reference "Rates" "https://example.org/rates";
                 text_object "B";
                 tool_file "file-1" ]);
      message_output VNone ].

(** A response asking for the rate of a region, with some text before. *)
Definition rate_request_response : response :=
  respond
    [ message_output (VStr "Let me look that up.");
      tool_calls_entry [ tool_call "call-1" "get_interest_rate" (VStr region_us_json) ] ].

(** A response asking for a loan payment without saying the term. *)
Definition loan_request_response : response :=
  respond
    [ tool_calls_entry
        [ tool_call "call-1" "calculate_loan_payment" (VStr loan_without_term_json) ] ].

Definition handoff_response : response :=
  respond
    [ handoff_execution "ag-c" "compute the payment";
      message_output (VStr "Done.");
      handoff_execution "ag-x" "plot it" ].

Definition sample_registry : list (string * string) :=
  [ ("finance", "ag-f"); ("web_search", "ag-w"); ("calculator", "ag-c");
    ("graph", "ag-g") ].

(** A well-formed tool execution followed by one whose info raises. *)
Definition info_unavailable : exn := Exn RuntimeError "info unavailable".

Definition malformed_info_response : response :=
  respond
    [ tool_execution "code_interpreter"
        (VDict [ ("code", VStr "print(1)"); ("code_output", VStr "1") ]);
      tool_execution "web_search" (raising_info info_unavailable) ].

(** The service creating the four agents of the orchestration page, wiring
    their handoffs, and answering with [r]. *)
Definition orchestration_script (r : response) : list (result reply) :=
  [ Ok (RAgent "ag-f"); Ok (RAgent "ag-w"); Ok (RAgent "ag-c"); Ok (RAgent "ag-g");
    Ok RDone; Ok RDone; Ok RDone; Ok (RResponse r) ].

Definition unauthorized : exn := Exn SDKError "401 Unauthorized".

Definition unavailable : exn := Exn SDKError "503 Service Unavailable".

(** The sample platform over the scripted service. *)
Definition sample_platform : Platform := {|
  libm_pow := sample_pow;
  float_str := sample_float_str;
  json_loads := sample_loads;
  json_dumps := sample_dumps;
  today := "2024-01-01";
  World := list (result reply);
  remote := scripted
|}.

(** One run of the orchestration page on the scripted service. *)
Definition orchestration_run (r : response) : result unit * state (list (result reply)) :=
  display_agent_orchestration_page (platform := sample_platform)
    "Compare the rates" "server" true false
    (start_state (orchestration_script r) (fresh_session "key")).

(** One run of the function calls page on the scripted service. *)
Definition function_calls_run (script : list (result reply))
  : result unit * state (list (result reply)) :=
  display_function_calls_page (platform := sample_platform)
    "What is the rate in the US?" true false
    (start_state script (fresh_session "key")).

(** The image page when the first image arrives and the second
    conversation cannot be started. *)
Definition image_script : list (result reply) :=
  [ Ok (RAgent "ag-i");
    Ok (RResponse (respond [ message_output (VList [ tool_file "file-1" ]) ]));
    Ok (RFile "PNG...");
    Raise unavailable ].

(** The exchange of the function calls page when the initial response has
    text and a call, and the continuation answers with its own text. *)
Definition exchange_start : state (list (result reply)) :=
  start_state
    [ Ok (RResponse rate_request_response);
      Ok (RResponse (respond [ message_output (VStr "The rate is 5.5%.") ])) ]
    (fresh_session "key").

Definition exchange_run : result pyval * state (list (result reply)) :=
  function_calls_exchange (platform := sample_platform)
    "ag-1" "What is the rate in the US?" exchange_start.

Definition exchange_turn : pyval :=
  match fst exchange_run with
  | Ok turn => turn
  | Raise _ => VNone
  end.

(** A request for a loan payment that leaves the term out. *)
Definition loan_request_run : result bool * state (list (result reply)) :=
  function_calls_submit (platform := sample_platform) "Monthly payment?"
    (start_state [ Ok (RAgent "ag-1"); Ok (RResponse loan_request_response) ]
       (fresh_session "key")).

(** A response asking for a function the page has no executor for. *)
Definition weather_request_response : response :=
  respond
    [ message_output (VStr "Let me check.");
      tool_calls_entry [ tool_call "call-9" "get_weather" (VStr "{}") ] ].

Definition weather_call : function_call :=
  {| tool_call_id := VStr "call-9";
     function_name := VStr "get_weather";
     arguments := VDict [] |}.

Definition weather_start : state (list (result reply)) :=
  start_state [ Ok (RResponse weather_request_response) ] (fresh_session "key").

(** A response of the code interpreter agent: text, an execution of the
    interpreter and an execution of another tool. *)
Definition code_response : response :=
  respond
    [ message_output (VList [ text_object "Here "; text_mapping "you go." ]);
      tool_execution "code_interpreter"
        (VObj [ ("code", Ok (VStr "print(1)")); ("code_output", Ok (VStr "1")) ]);
      tool_execution "web_search" (VDict [ ("query", VStr "rates") ]);
      tool_execution "code_interpreter" (VDict [ ("code", VStr "x = 2") ]) ].

Definition code_exchange_start : state (list (result reply)) :=
  start_state [ Ok (RResponse code_response) ] (fresh_session "key").

Definition code_exchange_run : result pyval * state (list (result reply)) :=
  code_interpreter_exchange (platform := sample_platform) "ag-c" "Print one"
    code_exchange_start.

Definition code_exchange_turn : pyval :=
  match fst code_exchange_run with
  | Ok turn => turn
  | Raise _ => VNone
  end.

(** The image page when the image is generated and its download fails. *)
Definition image_file_response : response :=
  respond [ message_output (VList [ text_mapping "A red cat."; tool_file "file-1" ]) ].

Definition download_failure_start : state (list (result reply)) :=
  start_state [ Ok (RResponse image_file_response); Raise unavailable ]
    (fresh_session "key").

(** The image loop on that response. *)
Definition image_file_found : image_result :=
  {| response_text := "A red cat.";
     image_file_id := VStr "file-1";
     image_file_name := VStr "image";
     image_file_type := VStr "png" |}.

(** A session in which the user typed a key and asked one question. *)
Definition typed_session : list (string * pyval) :=
  [ ("api_key", VStr "sk-typed");
    ("function_calls_history", VList [ user_turn "What is the rate in the US?" ]) ].

(** * Properties *)

Section Properties.

Context {platform : Platform}.

(** ** Basic facts *)

Lemma bind_ok {A B : Type} (m : result A) (k : A -> result B) (b : B) :
  bind m k = Ok b -> exists a, m = Ok a /\ k a = Ok b.
Proof. destruct m as [a | e]; simpl; intros H; [eauto | discriminate]. Qed.

Ltac inv_bind H :=
  let a := fresh "v" in
  let Ha := fresh "Hv" in
  apply bind_ok in H; destruct H as (a & Ha & H).

Lemma eq_str_true (v : pyval) (s : string) : eq_str v s = true -> v = VStr s.
Proof.
  destruct v; simpl; try discriminate.
  intros H. apply String.eqb_eq in H. now subst.
Qed.

Lemma hasattr_false_getattr (o : pyval) (name : string) :
  hasattr o name = Ok false -> exists e, getattr o name = Raise e.
Proof.
  destruct o; simpl; intros H; try (eexists; reflexivity).
  destruct (lookup name attrs) as [[v | e] | ]; try discriminate; eauto.
  destruct (String.eqb name "__dict__"); [discriminate | eauto].
Qed.

Lemma hasattr_true_getattr (o : pyval) (name : string) :
  hasattr o name = Ok true -> String.eqb name "get" = false ->
  exists v, getattr o name = Ok v.
Proof.
  destruct o; simpl; intros H Hn; try discriminate.
  - congruence.
  - destruct (lookup name attrs) as [[v | e] | ]; eauto.
    + destruct (exn_class_eqb (exn_cls e) AttributeError); discriminate.
    + destruct (String.eqb name "__dict__"); [eauto | discriminate].
Qed.

(** A guarded read, [o.name if hasattr(o, name) else default], yields the
    value of the attribute when there is one. *)
Lemma guarded_read (o : pyval) (name : string) (default v : pyval) :
  String.eqb name "get" = false ->
  (has <- hasattr o name ;; if has : bool then getattr o name else Ok default) = Ok v ->
  v = attr_value o name default.
Proof.
  intros Hn H. inv_bind H. unfold attr_value. destruct v0.
  - now rewrite H.
  - destruct (hasattr_false_getattr _ _ Hv) as (e & He). rewrite He. congruence.
Qed.

Lemma output_type_is_ok (o : pyval) (t : string) (b : bool) :
  output_type_is o t = Ok b -> b = has_type o t.
Proof.
  unfold output_type_is, has_type. intros H. inv_bind H. destruct v.
  - inv_bind H. rewrite Hv0. congruence.
  - destruct (hasattr_false_getattr _ _ Hv) as (e & He). rewrite He. congruence.
Qed.

Lemma has_type_exclusive (o : pyval) (t t' : string) :
  has_type o t = true -> String.eqb t t' = false -> has_type o t' = false.
Proof.
  unfold has_type. destruct (getattr o "type") as [ty | e]; [ | discriminate].
  intros H Hne. apply eq_str_true in H. subst ty. simpl. exact Hne.
Qed.

Lemma for_each_app {A S : Type} (body : A -> S -> result S) (xs ys : list A) (acc : S) :
  for_each (xs ++ ys) body acc = (mid <- for_each xs body acc ;; for_each ys body mid).
Proof.
  revert acc. induction xs as [ | x xs IH]; intros acc; simpl.
  - reflexivity.
  - destruct (body x acc) as [acc' | e]; simpl; [apply IH | reflexivity].
Qed.

(** ** Handoffs ([agent_orchestration.py]) *)

Lemma handoff_agent_name_find (agent_ids : list (string * string)) (id : string) :
  handoff_agent_name agent_ids (VStr id) =
  match find (fun entry => String.eqb (snd entry) id) agent_ids with
  | Some entry => fst entry
  | None => "Unknown Agent"
  end.
Proof.
  induction agent_ids as [ | [name id'] rest IH]; simpl.
  - reflexivity.
  - rewrite String.eqb_sym. destruct (String.eqb id' id); [reflexivity | exact IH].
Qed.

Lemma add_handoff_ok (agent_ids : list (string * string)) (o : pyval)
  (hs hs' : list pyval) :
  add_handoff agent_ids o hs = Ok hs' ->
  hs' = (hs ++ [handoff_dict agent_ids (attr_value o "agent_id" (VStr ""))
                  (attr_value o "inputs" (VStr ""))])%list.
Proof.
  unfold add_handoff. intros H.
  inv_bind H. inv_bind H. inv_bind H. inv_bind H.
  assert (Hid : v0 = attr_value o "agent_id" (VStr "")).
  { apply guarded_read; [reflexivity | ]. rewrite Hv. exact Hv0. }
  assert (Hin : v2 = attr_value o "inputs" (VStr "")).
  { apply guarded_read; [reflexivity | ]. rewrite Hv1. exact Hv2. }
  subst. congruence.
Qed.

Lemma add_tool_execution_handoffs (o : pyval) (ts ts' : list pyval) :
  add_tool_execution o ts = Ok ts' -> exists t, ts' = (ts ++ [t])%list.
Proof.
  unfold add_tool_execution. intros H.
  inv_bind H. inv_bind H. inv_bind H. inv_bind H.
  injection H as <-. eauto.
Qed.

Lemma process_orchestration_output_handoffs (agent_ids : list (string * string))
  (o : pyval) (acc acc' : orchestration_turn) :
  process_orchestration_output agent_ids o acc = Ok acc' ->
  handoffs acc' = (handoffs acc ++ handoff_records agent_ids [o])%list.
Proof.
  unfold process_orchestration_output, handoff_records. simpl.
  intros H. inv_bind H. apply output_type_is_ok in Hv. destruct v.
  - inv_bind H. injection H as <-. simpl.
    rewrite (has_type_exclusive o "message.output" "handoff.execution");
      [now rewrite app_nil_r | now symmetry | reflexivity].
  - inv_bind H. apply output_type_is_ok in Hv0. destruct v.
    + inv_bind H. injection H as <-. simpl. rewrite <- Hv0. simpl.
      now apply add_handoff_ok.
    + rewrite <- Hv0. inv_bind H. destruct v.
      * inv_bind H. injection H as <-. simpl. now rewrite app_nil_r.
      * injection H as <-. now rewrite app_nil_r.
Qed.

Lemma handoff_records_app (agent_ids : list (string * string)) (xs ys : list pyval) :
  handoff_records agent_ids (xs ++ ys) =
  (handoff_records agent_ids xs ++ handoff_records agent_ids ys)%list.
Proof. unfold handoff_records. apply flat_map_app. Qed.

Lemma for_each_orchestration_handoffs (agent_ids : list (string * string))
  (outs : list pyval) (acc t : orchestration_turn) :
  for_each outs (process_orchestration_output agent_ids) acc = Ok t ->
  handoffs t = (handoffs acc ++ handoff_records agent_ids outs)%list.
Proof.
  revert acc. induction outs as [ | o outs IH]; intros acc H; simpl in H.
  - injection H as <-. unfold handoff_records. simpl. now rewrite app_nil_r.
  - inv_bind H. apply process_orchestration_output_handoffs in Hv.
    apply IH in H. rewrite H, Hv.
    change (o :: outs) with ([o] ++ outs)%list.
    rewrite handoff_records_app. now rewrite app_assoc.
Qed.

(** ** Text of a response *)

Lemma append_assoc (a b c : string) : (a ++ b) ++ c = a ++ (b ++ c).
Proof. induction a as [ | ch a IH]; simpl; [reflexivity | now rewrite IH]. Qed.

Lemma append_empty_r (a : string) : a ++ "" = a.
Proof. induction a as [ | ch a IH]; simpl; [reflexivity | now rewrite IH]. Qed.

Lemma join_app (xs ys : list string) : join (xs ++ ys) = join xs ++ join ys.
Proof.
  induction xs as [ | x xs IH]; simpl; [reflexivity | ].
  now rewrite IH, append_assoc.
Qed.

Lemma join_item_texts (items : list pyval) :
  join (map text_fragment (filter is_text_item items)) = join (map item_text items).
Proof.
  induction items as [ | item items IH]; simpl; [reflexivity | ].
  unfold item_text at 1. destruct (is_text_item item); simpl; now rewrite IH.
Qed.

Lemma str_iadd_ok (text text' : string) (v : pyval) :
  str_iadd text v = Ok text' -> exists s, v = VStr s /\ text' = text ++ s.
Proof. destruct v; simpl; intros H; try discriminate. injection H as <-. eauto. Qed.

Lemma hasattr_get_false_not_dict (item : pyval) :
  hasattr item "get" = Ok false -> item_field item = fun name =>
    match getattr item name with Ok v => Some v | Raise _ => None end.
Proof. destruct item; simpl; intros H; try reflexivity. discriminate. Qed.

Lemma add_text_item_ok (item : pyval) (text text' : string) :
  add_text_item item text = Ok text' -> text' = text ++ item_text item.
Proof.
  unfold add_text_item, item_text, is_text_item, text_fragment.
  intros H. inv_bind H. destruct v.
  - (* key/value access *)
    destruct item; simpl in Hv; try discriminate.
    + simpl in H. simpl.
      destruct (lookup "type" kvs) as [ty | ]; simpl in H.
      * destruct (eq_str ty "text").
        -- destruct (lookup "text" kvs) as [t | ]; simpl in H.
           ++ apply str_iadd_ok in H. destruct H as (s & -> & ->). reflexivity.
           ++ injection H as <-. reflexivity.
        -- injection H as <-. now rewrite append_empty_r.
      * injection H as <-. now rewrite append_empty_r.
    + unfold method_get in H.
      destruct (getattr (VObj attrs) "get") as [g | e] eqn:Hg; simpl in H.
      * discriminate.
      * simpl in Hg, Hv. rewrite Hg in Hv.
        destruct (exn_class_eqb (exn_cls e) AttributeError); discriminate.
  - (* attribute access *)
    rewrite (hasattr_get_false_not_dict _ Hv).
    inv_bind H. destruct v.
    + inv_bind H. rewrite Hv1. destruct (eq_str v "text").
      * inv_bind H. destruct v0.
        -- inv_bind H. rewrite Hv3. apply str_iadd_ok in H.
           destruct H as (s & -> & ->). reflexivity.
        -- destruct (hasattr_false_getattr _ _ Hv2) as (e & ->).
           injection H as <-. now rewrite append_empty_r.
      * injection H as <-. now rewrite append_empty_r.
    + destruct (hasattr_false_getattr _ _ Hv0) as (e & ->).
      injection H as <-. now rewrite append_empty_r.
Qed.

Lemma for_each_text_items_ok (items : list pyval) (text text' : string) :
  for_each items add_text_item text = Ok text' ->
  text' = text ++ join (map item_text items).
Proof.
  revert text. induction items as [ | item items IH]; intros text H; simpl in H.
  - injection H as <-. simpl. now rewrite append_empty_r.
  - inv_bind H. apply add_text_item_ok in Hv. apply IH in H.
    subst. simpl. now rewrite append_assoc.
Qed.

Lemma add_message_output_ok (o : pyval) (text text' : string) :
  add_message_output o text = Ok text' -> text' = text ++ join (text_fragments o).
Proof.
  unfold add_message_output, text_fragments. intros H. inv_bind H. rewrite Hv.
  destruct v; simpl in H;
    try (injection H as <-; simpl; now rewrite append_empty_r).
  apply for_each_text_items_ok in H. now rewrite join_item_texts.
Qed.

Lemma normalized_text_cons (o : pyval) (outs : list pyval) :
  normalized_text (o :: outs) =
  (if has_type o "message.output" then join (text_fragments o) else "") ++
  normalized_text outs.
Proof.
  unfold normalized_text. simpl. destruct (has_type o "message.output"); simpl.
  - now rewrite join_app.
  - reflexivity.
Qed.

Lemma process_initial_output_text (o : pyval) (text text' : string)
  (fcs fcs' : list function_call) :
  process_initial_output o (text, fcs) = Ok (text', fcs') ->
  text' = text ++ (if has_type o "message.output" then join (text_fragments o) else "").
Proof.
  unfold process_initial_output. intros H.
  inv_bind H. apply output_type_is_ok in Hv. rewrite <- Hv. destruct v.
  - inv_bind H. injection H as <- <-. now apply add_message_output_ok.
  - rewrite append_empty_r. inv_bind H. destruct v.
    + inv_bind H. destruct v.
      * inv_bind H. inv_bind H. inv_bind H. now injection H as <- <-.
      * now injection H as <- <-.
    + now injection H as <- <-.
Qed.

Lemma for_each_initial_text (outs : list pyval) (text text' : string)
  (fcs fcs' : list function_call) :
  for_each outs process_initial_output (text, fcs) = Ok (text', fcs') ->
  text' = text ++ normalized_text outs.
Proof.
  revert text fcs. induction outs as [ | o outs IH]; intros text fcs H; simpl in H.
  - injection H as <- <-. unfold normalized_text. simpl. now rewrite append_empty_r.
  - inv_bind H. destruct v as [text1 fcs1].
    apply process_initial_output_text in Hv. apply IH in H.
    rewrite normalized_text_cons. subst. now rewrite append_assoc.
Qed.

(** ** Well-formed payloads are walked to the end *)

Lemma lookup_forallb {A : Type} (g : A -> bool) (kvs : list (string * A))
  (name : string) (x : A) :
  forallb (fun kv => g (snd kv)) kvs = true -> lookup name kvs = Some x -> g x = true.
Proof.
  induction kvs as [ | [k v] kvs IH]; simpl; [discriminate | ].
  intros H Hl. apply andb_prop in H. destruct H as [Hv Hrest].
  destruct (String.eqb name k); [injection Hl as <-; exact Hv | now apply IH].
Qed.

Lemma plain_instance_dict (attrs : list (string * result pyval)) :
  plain (VObj attrs) = true -> plain (VDict (instance_dict attrs)) = true.
Proof.
  simpl. induction attrs as [ | [k [v | e]] attrs IH]; simpl; intros H.
  - reflexivity.
  - apply andb_prop in H. destruct H as [Hv Hrest]. now rewrite Hv, IH.
  - discriminate.
Qed.

Lemma plain_getattr (o : pyval) (name : string) (v : pyval) :
  plain o = true -> getattr o name = Ok v -> plain v = true.
Proof.
  destruct o; simpl; try discriminate. intros Hp H.
  destruct (lookup name attrs) as [r | ] eqn:Hl.
  - subst r.
    exact (lookup_forallb
             (fun r => match r with Ok v' => plain v' | Raise _ => false end)
             attrs name (Ok v) Hp Hl).
  - destruct (String.eqb name "__dict__"); [ | discriminate].
    injection H as <-. now apply (plain_instance_dict attrs).
Qed.

(** On a plain value a probe never raises, and says whether the read
    succeeds. *)
Lemma plain_hasattr (o : pyval) (name : string) :
  plain o = true -> String.eqb name "get" = false ->
  hasattr o name = Ok (match getattr o name with Ok _ => true | Raise _ => false end).
Proof.
  destruct o; simpl; intros Hp Hn; try reflexivity.
  - now rewrite Hn.
  - destruct (lookup name attrs) as [[v | e] | ] eqn:Hl; try reflexivity.
    + pose proof (lookup_forallb
                    (fun r => match r with Ok v' => plain v' | Raise _ => false end)
                    attrs name (Raise e) Hp Hl) as Hf.
      discriminate.
    + destruct (String.eqb name "__dict__"); reflexivity.
Qed.

Lemma output_type_is_plain (o : pyval) (t : string) :
  plain o = true -> output_type_is o t = Ok (has_type o t).
Proof.
  intros Hp. unfold output_type_is, has_type.
  rewrite plain_hasattr by (assumption || reflexivity).
  destruct (getattr o "type") as [ty | e]; reflexivity.
Qed.

(** A guarded read of a plain value succeeds. *)
Lemma guarded_read_plain (o : pyval) (name : string) (default : pyval) :
  plain o = true -> String.eqb name "get" = false ->
  (has <- hasattr o name ;; if has : bool then getattr o name else Ok default)
  = Ok (attr_value o name default).
Proof.
  intros Hp Hn. rewrite plain_hasattr by assumption. unfold attr_value.
  destruct (getattr o name) as [v | e]; reflexivity.
Qed.

Lemma for_each_total {A S : Type} (body : A -> S -> result S) (ok : A -> bool)
  (xs : list A) :
  (forall x acc, ok x = true -> exists acc', body x acc = Ok acc') ->
  forallb ok xs = true ->
  forall acc, exists acc', for_each xs body acc = Ok acc'.
Proof.
  intros Hbody. induction xs as [ | x xs IH]; simpl; intros Hxs acc.
  - eauto.
  - apply andb_prop in Hxs. destruct Hxs as [Hx Hxs].
    destruct (Hbody x acc Hx) as (acc' & ->). simpl. now apply IH.
Qed.

Lemma add_text_item_total (item : pyval) (text : string) :
  plain item && text_item_ok item = true ->
  exists text', add_text_item item text = Ok text'.
Proof.
  intros H. apply andb_prop in H. destruct H as [Hp Hok].
  unfold text_item_ok in Hok. apply andb_prop in Hok. destruct Hok as [Hget Htext].
  unfold add_text_item. destruct item; simpl; eauto.
  - (* a mapping *)
    unfold is_text_item in Htext. simpl in Htext.
    destruct (lookup "type" kvs) as [ty | ]; simpl; eauto.
    destruct (eq_str ty "text"); eauto.
    destruct (lookup "text" kvs) as [t | ]; simpl; eauto.
    destruct t; try discriminate. simpl. eauto.
  - (* an object *)
    simpl in Hget. destruct (lookup "get" attrs) eqn:Hg; [discriminate | ].
    assert (Hnr : forall n e, lookup n attrs <> Some (Raise e)).
    { intros n e Hl.
      pose proof (lookup_forallb
                    (fun r => match r with Ok v' => plain v' | Raise _ => false end)
                    attrs n (Raise e) Hp Hl).
      discriminate. }
    unfold is_text_item, item_field in Htext. simpl in Htext. simpl.
    destruct (lookup "type" attrs) as [[ty | e] | ] eqn:Hty; simpl; eauto.
    + destruct (eq_str ty "text"); eauto.
      destruct (lookup "text" attrs) as [[t | e] | ] eqn:Htx; simpl; eauto.
      * destruct t; try discriminate; simpl; eauto.
      * now destruct (Hnr _ _ Htx).
    + now destruct (Hnr _ _ Hty).
Qed.

Lemma add_message_output_total (o : pyval) (text : string) :
  plain o = true -> message_ok o = true -> has_type o "message.output" = true ->
  exists text', add_message_output o text = Ok text'.
Proof.
  intros Hp Hm Ht. unfold message_ok in Hm. rewrite Ht in Hm.
  unfold add_message_output.
  destruct (getattr o "content") as [content | e] eqn:Hc; [ | discriminate].
  simpl. pose proof (plain_getattr _ _ _ Hp Hc) as Hpc.
  destruct content; simpl; eauto.
  apply (for_each_total add_text_item (fun item => plain item && text_item_ok item)).
  - intros item acc. apply add_text_item_total.
  - simpl in Hpc. clear Hc. induction xs as [ | x xs IH]; simpl in *; [reflexivity | ].
    apply andb_prop in Hpc, Hm. destruct Hpc as [-> Hpc], Hm as [-> Hm].
    simpl. now apply IH.
Qed.

(** ** Pending function calls ([function_calls.py]) *)

Lemma add_tool_call_function (tool_call f raw : pyval) (fcs : list function_call) :
  plain tool_call = true ->
  getattr tool_call "function" = Ok f ->
  truthy f = true ->
  getattr f "arguments" = Ok raw ->
  add_tool_call tool_call fcs =
  Ok (fcs ++ [ {| tool_call_id := attr_value tool_call "id" (VStr "");
                  function_name := attr_value f "name" (VStr "");
                  arguments := parsed_arguments raw |} ])%list.
Proof.
  intros Hp Hf Ht Ha. pose proof (plain_getattr _ _ _ Hp Hf) as Hpf.
  unfold add_tool_call, parsed_arguments, attr_value.
  rewrite (plain_hasattr _ "function" Hp eq_refl), Hf.
  simpl.
  rewrite Ht.
  rewrite (plain_hasattr _ "id" Hp eq_refl).
  rewrite (plain_hasattr _ "name" Hpf eq_refl).
  rewrite (plain_hasattr _ "arguments" Hpf eq_refl), Ha.
  destruct (getattr tool_call "id"); destruct (getattr f "name"); simpl;
    destruct (loads raw); reflexivity.
Qed.

Lemma add_tool_call_total (tool_call : pyval) (fcs : list function_call) :
  plain tool_call = true -> exists fcs', add_tool_call tool_call fcs = Ok fcs'.
Proof.
  intros Hp. unfold add_tool_call.
  rewrite (plain_hasattr _ "function" Hp eq_refl).
  destruct (getattr tool_call "function") as [f | e] eqn:Hf; simpl; eauto.
  pose proof (plain_getattr _ _ _ Hp Hf) as Hpf.
  destruct (truthy f); eauto.
  rewrite (plain_hasattr _ "id" Hp eq_refl).
  rewrite (plain_hasattr _ "name" Hpf eq_refl).
  rewrite (plain_hasattr _ "arguments" Hpf eq_refl).
  destruct (getattr tool_call "id"); destruct (getattr f "name");
    destruct (getattr f "arguments") as [raw | e']; simpl; eauto;
    destruct (loads raw); simpl; eauto.
Qed.

Lemma plain_chars (s : string) : forallb plain (chars s) = true.
Proof. induction s as [ | c s IH]; simpl; [reflexivity | exact IH]. Qed.

Lemma plain_byte_values (s : string) : forallb plain (byte_values s) = true.
Proof. induction s as [ | c s IH]; simpl; [reflexivity | exact IH]. Qed.

Lemma plain_py_iter (v : pyval) (items : list pyval) :
  plain v = true -> py_iter v = Ok items -> forallb plain items = true.
Proof.
  destruct v; simpl; try discriminate; intros Hp H; injection H as <-.
  - apply plain_chars.
  - apply plain_byte_values.
  - exact Hp.
  - clear Hp. unfold keys. induction kvs as [ | kv kvs IH]; simpl; [reflexivity | exact IH].
Qed.

Lemma process_initial_output_total (o : pyval) (acc : string * list function_call) :
  well_formed_output o = true -> exists acc', process_initial_output o acc = Ok acc'.
Proof.
  unfold well_formed_output. intros H.
  apply andb_prop in H. destruct H as [H Hcalls].
  apply andb_prop in H. destruct H as [Hp Hm].
  destruct acc as [text fcs]. unfold process_initial_output.
  rewrite (output_type_is_plain _ _ Hp).
  destruct (has_type o "message.output") eqn:Hmsg; simpl.
  - destruct (add_message_output_total o text Hp Hm Hmsg) as (text' & ->).
    simpl. eauto.
  - rewrite (output_type_is_plain _ _ Hp).
    unfold tool_calls_ok in Hcalls.
    destruct (has_type o "tool.calls"); simpl; eauto.
    rewrite (plain_hasattr _ "tool_calls" Hp eq_refl).
    destruct (getattr o "tool_calls") as [tcs | e] eqn:Htcs; simpl; eauto.
    pose proof (plain_getattr _ _ _ Hp Htcs) as Hptcs.
    assert (Hiter : exists items, py_iter tcs = Ok items).
    { destruct tcs; try discriminate; simpl; eauto. }
    destruct Hiter as (items & Hitems). rewrite Hitems. simpl.
    destruct (for_each_total add_tool_call plain items
                (fun x acc Hx => add_tool_call_total x acc Hx)
                (plain_py_iter _ _ Hptcs Hitems) fcs) as (fcs' & ->).
    simpl. eauto.
Qed.

Lemma process_initial_response_total (r : response) :
  forallb well_formed_output (outputs r) = true ->
  exists acc, process_initial_response r = Ok acc.
Proof.
  intros H. unfold process_initial_response.
  apply (for_each_total process_initial_output well_formed_output); [ | exact H].
  intros o acc. apply process_initial_output_total.
Qed.

(** ** Tool executions and the whole orchestration response *)

Lemma add_tool_execution_total (o : pyval) (ts : list pyval) :
  plain o = true -> exists ts', add_tool_execution o ts = Ok ts'.
Proof.
  intros Hp. unfold add_tool_execution.
  rewrite (plain_hasattr _ "name" Hp eq_refl).
  rewrite (plain_hasattr _ "info" Hp eq_refl).
  destruct (getattr o "name"); destruct (getattr o "info") as [info | e'] eqn:Hi;
    simpl; eauto;
    pose proof (plain_getattr _ _ _ Hp Hi) as Hpi;
    rewrite (plain_hasattr _ "__dict__" Hpi eq_refl);
    destruct (getattr info "__dict__"); simpl; eauto.
Qed.

Lemma add_handoff_total (agent_ids : list (string * string)) (o : pyval)
  (hs : list pyval) :
  plain o = true -> exists hs', add_handoff agent_ids o hs = Ok hs'.
Proof.
  intros Hp. unfold add_handoff.
  rewrite (plain_hasattr _ "agent_id" Hp eq_refl).
  rewrite (plain_hasattr _ "inputs" Hp eq_refl).
  destruct (getattr o "agent_id"); destruct (getattr o "inputs"); simpl; eauto.
Qed.

Lemma process_orchestration_output_total (agent_ids : list (string * string))
  (o : pyval) (acc : orchestration_turn) :
  well_formed_output o = true ->
  exists acc', process_orchestration_output agent_ids o acc = Ok acc'.
Proof.
  unfold well_formed_output. intros H.
  apply andb_prop in H. destruct H as [H _].
  apply andb_prop in H. destruct H as [Hp Hm].
  unfold process_orchestration_output.
  rewrite (output_type_is_plain _ _ Hp).
  destruct (has_type o "message.output") eqn:Hmsg; simpl.
  - destruct (add_message_output_total o (primary_response acc) Hp Hm Hmsg)
      as (text' & ->).
    simpl. eauto.
  - rewrite (output_type_is_plain _ _ Hp).
    destruct (has_type o "handoff.execution"); simpl.
    + destruct (add_handoff_total agent_ids o (handoffs acc) Hp) as (hs & ->).
      simpl. eauto.
    + rewrite (output_type_is_plain _ _ Hp).
      destruct (has_type o "tool.execution"); simpl; eauto.
      destruct (add_tool_execution_total o (tool_executions acc) Hp) as (ts & ->).
      simpl. eauto.
Qed.

(** ** The loan calculator *)

(** *** Comparing a float with an integer *)

Lemma float_compare_Z_finite_0 (s : bool) (m : positive) (e : Z) :
  float_compare_Z (S754_finite s m e) 0 = Some (if s then Lt else Gt).
Proof.
  unfold float_compare_Z. f_equal. destruct (0 <=? e) eqn:E.
  - apply Z.leb_le in E. assert (H : 0 < 2 ^ e) by now apply Z.pow_pos_nonneg.
    destruct s.
    + apply Z.compare_lt_iff. nia.
    + apply Z.compare_gt_iff. nia.
  - now destruct s.
Qed.

Lemma float_eq_Z_zero (x : spec_float) : float_eq_Z x 0 = is_zero x.
Proof.
  destruct x as [s | s | | s m e]; try reflexivity.
  - now destruct s.
  - unfold float_eq_Z. rewrite float_compare_Z_finite_0. now destruct s.
Qed.

(** A float above a natural number, or equal to a positive one, is
    positive. *)
Lemma float_compare_Z_negative (m : positive) (e z : Z) :
  0 <= z -> float_compare_Z (S754_finite true m e) z = Some Lt.
Proof.
  intros Hz. unfold float_compare_Z. f_equal. destruct (0 <=? e) eqn:E.
  - apply Z.leb_le in E. assert (H : 0 < 2 ^ e) by now apply Z.pow_pos_nonneg.
    apply Z.compare_lt_iff. nia.
  - apply Z.leb_gt in E. assert (H : 0 < 2 ^ (- e)) by (apply Z.pow_pos_nonneg; lia).
    apply Z.compare_lt_iff. nia.
Qed.

Lemma float_gt_Z_positive (x : spec_float) (z : Z) :
  0 <= z -> float_gt_Z x z = true -> is_finite x = true ->
  exists m e, x = S754_finite false m e.
Proof.
  intros Hz H Hf. destruct x as [s | s | | [ | ] m e]; try discriminate.
  - unfold float_gt_Z, float_compare_Z in H.
    destruct (0 ?= z) eqn:E; try discriminate.
    apply Z.compare_gt_iff in E. lia.
  - unfold float_gt_Z in H. now rewrite float_compare_Z_negative in H.
  - eauto.
Qed.

Lemma float_eq_Z_positive (x : spec_float) (z : Z) :
  0 < z -> float_eq_Z x z = true -> exists m e, x = S754_finite false m e.
Proof.
  intros Hz H. destruct x as [s | s | | [ | ] m e]; try discriminate.
  - unfold float_eq_Z, float_compare_Z in H.
    destruct (0 ?= z) eqn:E; try discriminate.
    apply Z.compare_eq_iff in E. lia.
  - now destruct s.
  - unfold float_eq_Z in H. rewrite float_compare_Z_negative in H by lia. discriminate.
  - eauto.
Qed.

Lemma float_gt_Z_not_eq (x : spec_float) (z : Z) :
  float_gt_Z x z = true -> float_eq_Z x z = false.
Proof.
  unfold float_gt_Z, float_eq_Z. now destruct (float_compare_Z x z) as [[ | | ] | ].
Qed.

Lemma float_gt_Z_not_zero (x : spec_float) :
  float_gt_Z x 0 = true -> is_zero x = false.
Proof. intros H. rewrite <- float_eq_Z_zero. now apply float_gt_Z_not_eq. Qed.

Lemma float_gt_Z_not_nan (x : spec_float) (z : Z) :
  float_gt_Z x z = true -> is_nan x = false.
Proof. now destruct x. Qed.

(** *** The operators on numbers *)

Lemma float_of_Z_0 : float_of_Z 0 = S754_zero false.
Proof. reflexivity. Qed.

Lemma float_one_value : float_one = S754_finite false 4503599627370496 (-52).
Proof. vm_compute. reflexivity. Qed.

Lemma to_float_1 : to_float (NInt 1) = Ok float_one.
Proof. vm_compute. reflexivity. Qed.

Lemma to_float_12 : to_float (NInt 12) = Ok (float_of_Z 12).
Proof. vm_compute. reflexivity. Qed.

Lemma to_float_in_range (n : num) : in_range n = true -> to_float n = Ok (float_of n).
Proof.
  destruct n as [z | x]; [ | reflexivity]. simpl. unfold to_float.
  now destruct (is_infinite (float_of_Z z)).
Qed.

Lemma as_num_number (n : num) : as_num (number n) = Some n.
Proof. now destruct n. Qed.

Lemma num_truediv_quotient (x y : num) :
  can_divide x y = true -> is_zero (float_of y) = false ->
  num_truediv x y = Ok (VFloat (quotient x y)).
Proof.
  intros Hd Hz. destruct x as [a | fx], y as [b | fy]; simpl in *.
  - destruct (b =? 0) eqn:E.
    + apply Z.eqb_eq in E. subst b. discriminate.
    + now destruct (is_infinite (float_of_ratio a b)).
  - rewrite Hz. now destruct (is_infinite (float_of_Z a)).
  - destruct (is_infinite (float_of_Z b)); [discriminate | ]. cbn [bind]. now rewrite Hz.
  - now rewrite Hz.
Qed.

Lemma num_truediv_by_zero (x y : num) :
  in_range x = true -> (y = NInt 0 \/ exists s, y = NFloat (S754_zero s)) ->
  raises ZeroDivisionError (num_truediv x y).
Proof.
  intros Hx [-> | (s & ->)]; unfold raises.
  - destruct x as [a | fx]; simpl; [eauto | ]. eauto.
  - unfold num_truediv. rewrite (to_float_in_range x Hx). destruct x; simpl; eauto.
Qed.

Lemma num_arith_float_l (fz : Z -> Z -> Z) (ff : spec_float -> spec_float -> spec_float)
  (x : spec_float) (y : num) :
  in_range y = true ->
  num_arith fz ff (NFloat x) y = Ok (VFloat (ff x (float_of y))).
Proof. intros H. unfold num_arith. now rewrite (to_float_in_range y H). Qed.

Lemma num_arith_float_r (fz : Z -> Z -> Z) (ff : spec_float -> spec_float -> spec_float)
  (x : num) (y : spec_float) :
  in_range x = true ->
  num_arith fz ff x (NFloat y) = Ok (VFloat (ff (float_of x) y)).
Proof.
  intros H. unfold num_arith. rewrite (to_float_in_range x H). now destruct x.
Qed.

Lemma py_mul_term (term : pyval) (nt : num) :
  as_num term = Some nt -> py_mul term (VInt 12) = Ok (number (payments_of nt)).
Proof.
  intros H. unfold py_mul. rewrite H. cbn [as_num]. destruct nt as [z | x].
  - reflexivity.
  - unfold num_arith. now rewrite to_float_12.
Qed.

Lemma py_add_one (x : spec_float) :
  py_add (VInt 1) (VFloat x) = Ok (VFloat (fadd float_one x)).
Proof. unfold py_add. cbn [as_num]. unfold num_arith. now rewrite to_float_1. Qed.

Lemma py_pow_float (x : spec_float) (v : pyval) (n : num) :
  as_num v = Some n ->
  py_pow (VFloat x) v = (fy <- to_float n ;; float_pow x fy).
Proof. intros H. unfold py_pow. rewrite H. cbn [as_num]. now destruct n. Qed.

(** *** The power *)

Lemma float_pow_zero_exponent (x y : spec_float) :
  is_zero y = true -> float_pow x y = Ok (VFloat float_one).
Proof. intros H. unfold float_pow. now rewrite float_eq_Z_zero, H. Qed.

Lemma float_pow_of_one (x y : spec_float) :
  float_eq_Z x 1 = true -> float_gt_Z y 0 = true -> float_pow x y = Ok (VFloat float_one).
Proof.
  intros Hx Hy. destruct (float_eq_Z_positive x 1 ltac:(lia) Hx) as (m & e & ->).
  unfold float_pow.
  rewrite (float_gt_Z_not_eq y 0 Hy), (float_gt_Z_not_nan y 0 Hy).
  cbn [is_nan is_infinite SFabs]. rewrite Hx.
  destruct (is_infinite y); [reflexivity | ].
  rewrite float_eq_Z_zero. cbn [is_zero].
  unfold float_lt_Z. rewrite float_compare_Z_finite_0. reflexivity.
Qed.

Lemma float_pow_libm (x y : spec_float) :
  float_gt_Z x 1 = true -> is_finite x = true ->
  float_gt_Z y 0 = true -> is_finite y = true ->
  float_pow x y =
  if is_infinite (libm_pow x y)
  then Raise (overflow_error "(34, 'Numerical result out of range')")
  else Ok (VFloat (libm_pow x y)).
Proof.
  intros Hx Hfx Hy Hfy.
  destruct (float_gt_Z_positive x 1 ltac:(lia) Hx Hfx) as (m & e & ->).
  unfold float_pow.
  rewrite (float_gt_Z_not_eq y 0 Hy), (float_gt_Z_not_nan y 0 Hy).
  assert (Hiy : is_infinite y = false) by now destruct y.
  rewrite Hiy. cbn [is_nan is_infinite SFabs].
  rewrite float_eq_Z_zero. cbn [is_zero].
  unfold float_lt_Z. rewrite float_compare_Z_finite_0. cbn [andb].
  rewrite (float_gt_Z_not_eq _ 1 Hx). reflexivity.
Qed.

(** *** Rounding to 2 decimal places *)

Lemma round_half_even_nearest (n d : Z) :
  0 < d ->
  2 * Z.abs (n - round_half_even n d * d) <= d /\
  (2 * Z.abs (n - round_half_even n d * d) = d -> Z.even (round_half_even n d) = true).
Proof.
  intros Hd. unfold round_half_even.
  pose proof (Z.div_mod n d ltac:(lia)) as Hn.
  pose proof (Z.mod_pos_bound n d Hd) as Hr.
  set (q := n / d) in *. set (r := n mod d) in *.
  assert (Hq : n - q * d = r) by (rewrite Hn at 1; ring).
  assert (Hq1 : n - (q + 1) * d = r - d) by (rewrite Hn at 1; ring).
  destruct (2 * r ?= d) eqn:E.
  - apply Z.compare_eq_iff in E. destruct (Z.even q) eqn:Ev.
    + rewrite Hq. split; [lia | intros _; exact Ev].
    + rewrite Hq1. split; [lia | intros _]. replace (q + 1) with (Z.succ q) by lia.
      rewrite Z.even_succ, <- Z.negb_even, Ev. reflexivity.
  - change (2 * r < d) in E. rewrite Hq. split; [lia | intros H; lia].
  - apply Z.compare_gt_iff in E. rewrite Hq1. split; [lia | intros H; lia].
Qed.

Lemma round2_rounded (x : spec_float) : rounded_to_cents x (round2 x).
Proof.
  destruct x as [s | s | | s m e]; try reflexivity.
  unfold rounded_to_cents, round2. cbv zeta. destruct (0 <=? e) eqn:E.
  - apply Z.leb_le in E. rewrite Z.max_l, Z.max_r by lia.
    exists (Z.pos m * 100 * 2 ^ e). change (2 ^ 0) with 1.
    split; [lia | ]. split; [lia | reflexivity].
  - apply Z.leb_gt in E. rewrite Z.max_r, Z.max_l by lia.
    change (2 ^ 0) with 1. rewrite Z.mul_1_r.
    assert (Hd : 0 < 2 ^ (- e)) by (apply Z.pow_pos_nonneg; lia).
    destruct (round_half_even_nearest (Z.pos m * 100) (2 ^ (- e)) Hd) as (H1 & H2).
    exists (round_half_even (Z.pos m * 100) (2 ^ (- e))).
    split; [exact H1 | ]. split; [exact H2 | reflexivity].
Qed.

Lemma py_round2_float (x : spec_float) : py_round2 (VFloat x) = Ok (VFloat (round2 x)).
Proof. reflexivity. Qed.

(** *** The steps of the calculator *)

Lemma calculate_loan_payment_steps (principal rate term : pyval) (nr nt : num) :
  as_num rate = Some nr -> as_num term = Some nt ->
  can_divide nr (NInt 100) = true ->
  calculate_loan_payment principal rate term =
  (monthly_payment <- monthly_payment_of principal nr nt ;;
   loan_figures principal rate term nt monthly_payment).
Proof.
  intros Hr Ht Hd. unfold calculate_loan_payment, monthly_payment_of, loan_figures.
  unfold py_truediv at 1. rewrite Hr. cbn [as_num].
  rewrite (num_truediv_quotient nr (NInt 100) Hd) by (vm_compute; reflexivity).
  cbn [bind]. unfold py_truediv at 1. cbn [as_num].
  unfold num_truediv at 1. rewrite to_float_12. cbn [to_float bind].
  replace (is_zero (float_of_Z 12)) with false by (vm_compute; reflexivity).
  cbn [bind]. rewrite (py_mul_term term nt Ht). cbn [bind].
  fold (monthly_rate_of nr).
  change (py_num_eq (VFloat (monthly_rate_of nr)) (VInt 0))
    with (float_eq_Z (monthly_rate_of nr) 0).
  rewrite py_add_one. cbn [bind].
  rewrite (py_pow_float _ _ _ (as_num_number (payments_of nt))).
  reflexivity.
Qed.

Lemma loan_figures_rounded (principal rate term : pyval) (np nt : num) (mp : spec_float) :
  as_num principal = Some np -> in_range np = true ->
  in_range (payments_of nt) = true ->
  let n := float_of (payments_of nt) in
  loan_figures principal rate term nt (VFloat mp) =
  Ok (loan_record principal rate term
        (round2 mp) (round2 (fmul mp n)) (round2 (fsub (fmul mp n) (float_of np)))
        (payments_of nt)).
Proof.
  intros Hp Hnp Hn n. unfold loan_figures.
  unfold py_mul. rewrite as_num_number. cbn [as_num].
  rewrite (num_arith_float_l _ _ mp _ Hn). cbn [bind].
  unfold py_sub. rewrite Hp. cbn [as_num].
  rewrite (num_arith_float_l _ _ _ _ Hnp). cbn [bind].
  rewrite !py_round2_float. reflexivity.
Qed.

Lemma loan_payment_is_intro (principal rate term : pyval) (np nr nt : num)
  (mp : spec_float) :
  as_num principal = Some np -> as_num rate = Some nr -> as_num term = Some nt ->
  in_range np = true -> can_divide nr (NInt 100) = true ->
  in_range (payments_of nt) = true ->
  monthly_payment_of principal nr nt = Ok (VFloat mp) ->
  loan_payment_is principal rate term np nt mp.
Proof.
  intros Hp Hr Ht Hnp Hd Hn Hmp. unfold loan_payment_is. cbv zeta.
  rewrite (calculate_loan_payment_steps principal rate term nr nt Hr Ht Hd), Hmp.
  cbn [bind]. rewrite (loan_figures_rounded principal rate term np nt mp Hp Hnp Hn).
  cbv zeta. do 3 eexists. split; [reflexivity | ].
  repeat split; apply round2_rounded.
Qed.

Lemma py_mul_floats (x y : spec_float) :
  py_mul (VFloat x) (VFloat y) = Ok (VFloat (fmul x y)).
Proof. reflexivity. Qed.

Lemma py_mul_by_float (a : pyval) (x : num) (y : spec_float) :
  as_num a = Some x -> in_range x = true ->
  py_mul a (VFloat y) = Ok (VFloat (fmul (float_of x) y)).
Proof.
  intros Ha Hx. unfold py_mul. rewrite Ha. cbn [as_num].
  rewrite <- (num_arith_float_r Z.mul fmul x y Hx). now destruct x.
Qed.

Lemma py_sub_one (x : spec_float) :
  py_sub (VFloat x) (VInt 1) = Ok (VFloat (fsub x float_one)).
Proof. unfold py_sub. cbn [as_num]. unfold num_arith. now rewrite to_float_1. Qed.

Lemma py_truediv_floats (x y : spec_float) :
  py_truediv (VFloat x) (VFloat y) =
  if is_zero y then Raise (Exn ZeroDivisionError "float division by zero")
  else Ok (VFloat (fdiv x y)).
Proof. reflexivity. Qed.

(** The monthly payment at a monthly rate of zero. *)
Lemma monthly_payment_zero_rate (principal : pyval) (np nr nt : num) :
  as_num principal = Some np ->
  float_eq_Z (monthly_rate_of nr) 0 = true ->
  float_gt_Z (float_of (payments_of nt)) 0 = true ->
  can_divide np (payments_of nt) = true ->
  monthly_payment_of principal nr nt = Ok (VFloat (quotient np (payments_of nt))).
Proof.
  intros Hp Hz Hn Hd. unfold monthly_payment_of. rewrite Hz.
  unfold py_truediv. rewrite Hp, as_num_number.
  apply num_truediv_quotient; [exact Hd | now apply float_gt_Z_not_zero].
Qed.

(** The monthly payment by the annuity formula, up to the power. *)
Lemma monthly_payment_annuity (principal : pyval) (np nr nt : num) :
  as_num principal = Some np -> in_range np = true ->
  in_range (payments_of nt) = true ->
  let monthly_rate := monthly_rate_of nr in
  let n := float_of (payments_of nt) in
  let base := fadd float_one monthly_rate in
  let g := libm_pow base n in
  float_gt_Z n 0 = true -> is_finite n = true ->
  float_gt_Z base 1 = true -> is_finite base = true ->
  monthly_payment_of principal nr nt =
  if is_infinite g
  then Raise (overflow_error "(34, 'Numerical result out of range')")
  else if is_zero (fsub g float_one)
  then Raise (Exn ZeroDivisionError "float division by zero")
  else Ok (VFloat (fdiv (fmul (float_of np) (fmul monthly_rate g)) (fsub g float_one))).
Proof.
  intros Hp Hnp Hpay monthly_rate n base g Hn Hfn Hb Hfb.
  unfold monthly_payment_of. fold monthly_rate. fold base.
  assert (Hz : float_eq_Z monthly_rate 0 = false).
  { destruct (float_eq_Z monthly_rate 0) eqn:E; [ | reflexivity].
    rewrite float_eq_Z_zero in E. unfold base in Hb.
    destruct monthly_rate; try discriminate E.
    vm_compute in Hb. discriminate Hb. }
  rewrite Hz, (to_float_in_range _ Hpay). cbn [bind]. fold n.
  rewrite (float_pow_libm base n Hb Hfb Hn Hfn). fold g.
  destruct (is_infinite g); [reflexivity | ]. cbn [bind].
  rewrite py_mul_floats. cbn [bind].
  rewrite (py_mul_by_float principal np _ Hp Hnp). cbn [bind].
  rewrite py_sub_one. cbn [bind]. now rewrite py_truediv_floats.
Qed.

(** The monthly payment when the growth factor is 1: the exponent is
    zero, or the base is 1. *)
Lemma monthly_payment_flat (principal : pyval) (np nr nt : num) :
  as_num principal = Some np -> in_range np = true ->
  in_range (payments_of nt) = true ->
  float_eq_Z (monthly_rate_of nr) 0 = false ->
  float_pow (fadd float_one (monthly_rate_of nr)) (float_of (payments_of nt))
  = Ok (VFloat float_one) ->
  monthly_payment_of principal nr nt =
  Raise (Exn ZeroDivisionError "float division by zero").
Proof.
  intros Hp Hnp Hpay Hz Hpow. unfold monthly_payment_of.
  rewrite Hz, (to_float_in_range _ Hpay). cbn [bind]. rewrite Hpow. cbn [bind].
  rewrite py_mul_floats. cbn [bind].
  rewrite (py_mul_by_float principal np _ Hp Hnp). cbn [bind].
  rewrite py_sub_one. cbn [bind]. rewrite py_truediv_floats.
  replace (is_zero (fsub float_one float_one)) with true by (vm_compute; reflexivity).
  reflexivity.
Qed.

Lemma payments_of_zero (nt : num) :
  match nt with NInt z => z =? 0 | NFloat x => is_zero x end = true ->
  payments_of nt = NInt 0 \/ exists s, payments_of nt = NFloat (S754_zero s).
Proof.
  destruct nt as [z | x]; intros H.
  - apply Z.eqb_eq in H. subst z. now left.
  - right. destruct x as [s | | | ]; try discriminate.
    exists s. now destruct s.
Qed.

Lemma calculate_loan_payment_zero_term (principal rate term : pyval) :
  float_operand principal = true -> percentage rate = true -> zero_number term = true ->
  raises ZeroDivisionError (calculate_loan_payment principal rate term).
Proof.
  unfold float_operand, percentage, zero_number. intros Hp Hr Ht.
  destruct (as_num principal) as [np | ] eqn:Enp; [ | discriminate].
  destruct (as_num rate) as [nr | ] eqn:Enr; [ | discriminate].
  destruct (as_num term) as [nt | ] eqn:Ent; [ | discriminate].
  rewrite (calculate_loan_payment_steps principal rate term nr nt Enr Ent Hr).
  assert (Hzero : payments_of nt = NInt 0 \/ exists s, payments_of nt = NFloat (S754_zero s))
    by (apply payments_of_zero; exact Ht).
  assert (Hraise : raises ZeroDivisionError (monthly_payment_of principal nr nt)).
  { destruct (float_eq_Z (monthly_rate_of nr) 0) eqn:Ez.
    - unfold monthly_payment_of. rewrite Ez. unfold py_truediv.
      rewrite Enp, as_num_number. now apply num_truediv_by_zero.
    - rewrite (monthly_payment_flat principal np nr nt Enp Hp); [now eexists | | exact Ez | ].
      + destruct Hzero as [-> | (s & ->)]; reflexivity.
      + apply float_pow_zero_exponent.
        destruct Hzero as [-> | (s & ->)]; reflexivity. }
  destruct Hraise as (msg & ->). now exists msg.
Qed.


(** The dispatcher on a request for [calculate_loan_payment] whose
    arguments leave [term_years] out. *)
Lemma execute_function_without_term (args : list (string * pyval)) :
  lookup "term_years" args = None ->
  (forall v, lookup "principal" args = Some v -> float_operand v = true) ->
  (forall v, lookup "annual_interest_rate" args = Some v -> percentage v = true) ->
  raises ZeroDivisionError
    (execute_function (VStr "calculate_loan_payment") (VDict args)).
Proof.
  intros Ht Hp Hr. unfold execute_function. cbn [eq_str String.eqb Ascii.eqb Bool.eqb].
  cbn [method_get]. rewrite Ht. cbn [bind].
  assert (Hpn : exists p, (match lookup "principal" args with
                           | Some v => Ok v | None => Ok (VInt 0) end) = Ok p
                          /\ float_operand p = true).
  { destruct (lookup "principal" args) as [v | ] eqn:E; [now eauto | ].
    exists (VInt 0). split; reflexivity. }
  assert (Hrn : exists r, (match lookup "annual_interest_rate" args with
                           | Some v => Ok v | None => Ok (VInt 0) end) = Ok r
                          /\ percentage r = true).
  { destruct (lookup "annual_interest_rate" args) as [v | ] eqn:E; [now eauto | ].
    exists (VInt 0). split; reflexivity. }
  destruct Hpn as (p & -> & Hnp). destruct Hrn as (r & -> & Hnr).
  cbn [bind].
  destruct (calculate_loan_payment_zero_term p r (VInt 0) Hnp Hnr eq_refl) as (msg & ->).
  exists msg. reflexivity.
Qed.

(** ** Page runs *)

Lemma responses_of_app (xs ys : list (request * result reply)) :
  responses_of (xs ++ ys) = (responses_of xs ++ responses_of ys)%list.
Proof.
  induction xs as [ | [req [[id | | r | d] | e]] xs IH]; simpl; congruence.
Qed.

Lemma faithful_ret {A : Type} (a : A) : faithful (ret a).
Proof.
  intros st. simpl. repeat split. exists []. split.
  - now rewrite app_nil_r.
  - intros e (req & []).
Qed.

Lemma faithful_lift {A : Type} (r : result A) : faithful (lift r).
Proof.
  intros st. simpl. repeat split. exists []. split.
  - now rewrite app_nil_r.
  - intros e (req & []).
Qed.

Lemma faithful_call {A : Type} (req : request) (wrap : A -> reply)
  (op : World -> result A * World) : faithful (call req wrap op).
Proof.
  intros st. unfold call. destruct (op (world st)) as [r w]. simpl.
  repeat split. exists [(req, map_result wrap r)]. split; [reflexivity | ].
  intros e (req' & [H | []]). destruct r; simpl in H; congruence.
Qed.

Lemma faithful_bind {A B : Type} (m : M A) (k : A -> M B) :
  faithful m -> (forall a, faithful (k a)) -> faithful (bindM m k).
Proof.
  intros Hm Hk st. unfold bindM.
  destruct (Hm st) as (Hs & Hu & delta & Hc & Hf).
  destruct (m st) as [[a | e] st1]; simpl in *.
  - destruct (Hk a st1) as (Hs' & Hu' & delta' & Hc' & Hf').
    split; [congruence | ]. split; [congruence | ].
    exists (delta ++ delta')%list. split.
    + now rewrite Hc', Hc, app_assoc.
    + intros e (req & Hin). apply in_app_or in Hin. destruct Hin as [Hin | Hin].
      * assert (H : Ok a = Raise e) by (apply Hf; now exists req). discriminate.
      * apply Hf'. now exists req.
  - split; [exact Hs | ]. split; [exact Hu | ]. exists delta. split; [exact Hc | ].
    intros e' Hin. pose proof (Hf e' Hin) as H. now injection H as ->.
Qed.

Lemma faithful_for_eachM {A S : Type} (body : A -> S -> M S) (xs : list A) :
  (forall x acc, faithful (body x acc)) -> forall acc, faithful (for_eachM xs body acc).
Proof.
  intros Hbody. induction xs as [ | x xs IH]; intros acc; simpl.
  - apply faithful_ret.
  - apply faithful_bind; [apply Hbody | intros a; apply IH].
Qed.

Lemma faithful_answer_function_call (conv_id : pyval) (fc : function_call)
  (acc : list pyval * string) : faithful (answer_function_call conv_id fc acc).
Proof.
  unfold answer_function_call. destruct acc as [function_results final_response].
  apply faithful_bind; [apply faithful_lift | ].
  intros [result | ]; [ | apply faithful_ret].
  destruct (truthy result); [ | apply faithful_ret].
  apply faithful_bind; [apply faithful_lift | intros result_json].
  apply faithful_bind; [apply faithful_call | intros continue_response].
  apply faithful_bind; [apply faithful_lift | intros text]. apply faithful_ret.
Qed.

Lemma faithful_function_calls_exchange (agent user_prompt : string) :
  faithful (function_calls_exchange agent user_prompt).
Proof.
  unfold function_calls_exchange, start_conversation.
  apply faithful_bind; [apply faithful_call | intros response].
  apply faithful_bind; [apply faithful_lift | intros [current_response function_calls]].
  apply faithful_bind.
  - apply faithful_for_eachM. intros. apply faithful_answer_function_call.
  - intros [function_results final_response]. apply faithful_ret.
Qed.

Lemma faithful_web_search_exchange (agent user_prompt : string) :
  faithful (web_search_exchange agent user_prompt).
Proof.
  unfold web_search_exchange, start_conversation.
  apply faithful_bind; [apply faithful_call | intros response].
  apply faithful_bind; [apply faithful_lift | intros found]. apply faithful_ret.
Qed.

Lemma eqb_empty_false (s : string) : s <> "" -> String.eqb s "" = false.
Proof. intros H. now apply String.eqb_neq. Qed.

(** The submit handler of the function calls page, step by step. *)
Lemma function_calls_submit_run (user_prompt : string) (st : state World) :
  user_prompt <> "" ->
  function_calls_submit user_prompt st =
  match agents_create remote "mistral-medium-latest" "Function Call Agent"
          ["get_interest_rate"; "calculate_loan_payment"] (world st) with
  | (Raise e, w) =>
      (Ok true,
       shown (logged st w (create_function_call_request, Raise e))
         (StError ("Failed to create function call agent: " ++ exn_msg e)))
  | (Ok agent, w) =>
      let st1 :=
        with_session (logged st w (create_function_call_request, Ok (RAgent agent)))
          (push_function_calls (user_turn user_prompt)) in
      match function_calls_exchange agent user_prompt st1 with
      | (Ok turn, st2) => (Ok false, with_session st2 (push_function_calls turn))
      | (Raise e, st2) =>
          (Ok false,
           with_session (shown st2 (StError ("Error: " ++ exn_msg e)))
             (push_function_calls (error_turn_fc e)))
      end
  end.
Proof.
  intros Hp. unfold function_calls_submit. rewrite (eqb_empty_false _ Hp).
  unfold create_function_call_agent, create_agent, bindM, try_except, call.
  unfold with_session, logged, shown, push_function_calls, append_function_calls_history,
    modify_session, st_error, show, ret.
  unfold create_function_call_request, create_web_search_request.
  destruct (agents_create remote _ _ _ (world st)) as [[agent | e] w]; simpl.
  - match goal with
    | |- context [function_calls_exchange agent user_prompt ?s] =>
        destruct (function_calls_exchange agent user_prompt s) as [[turn | e] st2]
    end; reflexivity.
  - reflexivity.
Qed.

Lemma web_search_submit_run (user_prompt : string) (premium : bool) (st : state World) :
  user_prompt <> "" ->
  web_search_submit user_prompt premium st =
  match agents_create remote "mistral-medium-latest" "Web Search Agent"
          [if premium then "web_search_premium" else "web_search"] (world st) with
  | (Raise e, w) =>
      (Ok true,
       shown (logged st w (create_web_search_request premium, Raise e))
         (StError ("Failed to create web search agent: " ++ exn_msg e)))
  | (Ok agent, w) =>
      let st1 :=
        with_session (logged st w (create_web_search_request premium, Ok (RAgent agent)))
          (push_web_search (user_turn user_prompt)) in
      match web_search_exchange agent user_prompt st1 with
      | (Ok turn, st2) => (Ok false, with_session st2 (push_web_search turn))
      | (Raise e, st2) =>
          (Ok false,
           with_session (shown st2 (StError ("Error: " ++ exn_msg e)))
             (push_web_search (error_turn_ws e)))
      end
  end.
Proof.
  intros Hp. unfold web_search_submit. rewrite (eqb_empty_false _ Hp).
  unfold create_web_search_agent, create_agent, bindM, try_except, call.
  unfold with_session, logged, shown, push_web_search, append_web_search_history,
    modify_session, st_error, show, ret.
  unfold create_function_call_request, create_web_search_request.
  destruct (agents_create remote _ _ _ (world st)) as [[agent | e] w]; simpl.
  - match goal with
    | |- context [web_search_exchange agent user_prompt ?s] =>
        destruct (web_search_exchange agent user_prompt s) as [[turn | e] st2]
    end; reflexivity.
  - reflexivity.
Qed.

Lemma function_calls_failures_recorded (user_prompt : string) :
  user_prompt <> "" ->
  conversation_failures_recorded (function_calls_submit user_prompt)
    function_calls_history create_function_call_request
    "Failed to create function call agent: " user_prompt error_turn_fc.
Proof.
  intros Hp st. rewrite (function_calls_submit_run _ _ Hp).
  destruct (agents_create remote _ _ _ (world st)) as [[agent | e] w].
  - cbv zeta.
    match goal with
    | |- context [function_calls_exchange agent user_prompt ?s] => set (st1 := s)
    end.
    destruct (faithful_function_calls_exchange agent user_prompt st1)
      as (Hs & Hu & delta & Hc & Hf).
    destruct (function_calls_exchange agent user_prompt st1) as [[turn | e] st2];
      simpl in *; (split; [eauto | right]).
    + exists agent, delta, turn. rewrite Hc, Hs. simpl.
      rewrite <- !app_assoc. simpl. split; [reflexivity | ]. split; [reflexivity | ].
      intros e' He. specialize (Hf e' He). discriminate.
    + exists agent, delta, (error_turn_fc e). rewrite Hc, Hs, Hu. simpl.
      rewrite <- !app_assoc. simpl. split; [reflexivity | ]. split; [reflexivity | ].
      intros e' He. specialize (Hf e' He). injection Hf as ->. now split.
  - simpl. split; [eauto | left]. exists e. repeat split.
Qed.

Lemma web_search_failures_recorded (user_prompt : string) (premium : bool) :
  user_prompt <> "" ->
  conversation_failures_recorded (web_search_submit user_prompt premium)
    web_search_history (create_web_search_request premium)
    "Failed to create web search agent: " user_prompt error_turn_ws.
Proof.
  intros Hp st. rewrite (web_search_submit_run _ _ _ Hp).
  destruct (agents_create remote _ _ _ (world st)) as [[agent | e] w].
  - cbv zeta.
    match goal with
    | |- context [web_search_exchange agent user_prompt ?s] => set (st1 := s)
    end.
    destruct (faithful_web_search_exchange agent user_prompt st1)
      as (Hs & Hu & delta & Hc & Hf).
    destruct (web_search_exchange agent user_prompt st1) as [[turn | e] st2];
      simpl in *; (split; [eauto | right]).
    + exists agent, delta, turn. rewrite Hc, Hs. simpl.
      rewrite <- !app_assoc. simpl. split; [reflexivity | ]. split; [reflexivity | ].
      intros e' He. specialize (Hf e' He). discriminate.
    + exists agent, delta, (error_turn_ws e). rewrite Hc, Hs, Hu. simpl.
      rewrite <- !app_assoc. simpl. split; [reflexivity | ]. split; [reflexivity | ].
      intros e' He. specialize (Hf e' He). injection Hf as ->. now split.
  - simpl. split; [eauto | left]. exists e. repeat split.
Qed.

(** ** The content of the function calls turn *)

Lemma bindM_ok {A B : Type} (m : M A) (k : A -> M B) (st st' : state World) (b : B) :
  bindM m k st = (Ok b, st') ->
  exists a st1, m st = (Ok a, st1) /\ k a st1 = (Ok b, st').
Proof.
  unfold bindM. destruct (m st) as [[a | e] st1]; intros H; [eauto | discriminate].
Qed.

Lemma lift_ok {A : Type} (r : result A) (st st' : state World) (a : A) :
  lift r st = (Ok a, st') -> r = Ok a /\ st' = st.
Proof. unfold lift. intros H. injection H as -> <-. now split. Qed.

Lemma call_ok {A : Type} (req : request) (wrap : A -> reply)
  (op : World -> result A * World) (st st' : state World) (a : A) :
  call req wrap op st = (Ok a, st') ->
  exists w, op (world st) = (Ok a, w) /\ st' = logged st w (req, Ok (wrap a)).
Proof.
  unfold call, logged. destruct (op (world st)) as [r w]. intros H.
  injection H as -> <-. eauto.
Qed.

Ltac inv_bindM H :=
  let a := fresh "v" in
  let st := fresh "st" in
  let Ha := fresh "Hv" in
  apply bindM_ok in H; destruct H as (a & st & Ha & H).

Lemma add_continue_item_ok (item : pyval) (text text' : string) :
  add_continue_item item text = Ok text' -> text' = text ++ item_text item.
Proof.
  unfold add_continue_item, item_text, is_text_item, text_fragment.
  destruct item; simpl; try discriminate.
  - destruct (lookup "type" kvs) as [ty | ]; simpl.
    + destruct (eq_str ty "text").
      * destruct (lookup "text" kvs) as [t | ]; simpl; intros H.
        -- apply str_iadd_ok in H. destruct H as (s & -> & ->). reflexivity.
        -- injection H as <-. reflexivity.
      * intros H. injection H as <-. now rewrite append_empty_r.
    + intros H. injection H as <-. now rewrite append_empty_r.
  - destruct (lookup "get" attrs) as [[g | e] | ]; simpl; discriminate.
Qed.

Lemma for_each_continue_items_ok (items : list pyval) (text text' : string) :
  for_each items add_continue_item text = Ok text' ->
  text' = text ++ join (map item_text items).
Proof.
  revert text. induction items as [ | item items IH]; intros text H; simpl in H.
  - injection H as <-. simpl. now rewrite append_empty_r.
  - inv_bind H. apply add_continue_item_ok in Hv. apply IH in H.
    subst. simpl. now rewrite append_assoc.
Qed.

Lemma add_continue_output_ok (o : pyval) (text text' : string) :
  add_continue_output o text = Ok text' ->
  text' = text ++ (if has_type o "message.output" then join (text_fragments o) else "").
Proof.
  unfold add_continue_output, has_type, text_fragments. intros H.
  inv_bind H. rewrite Hv. destruct (eq_str v "message.output").
  - inv_bind H. rewrite Hv0.
    destruct v0; simpl in H;
      try (injection H as <-; simpl; now rewrite append_empty_r).
    apply for_each_continue_items_ok in H. now rewrite join_item_texts.
  - injection H as <-. now rewrite append_empty_r.
Qed.

Lemma for_each_continue_ok (outs : list pyval) (text text' : string) :
  for_each outs add_continue_output text = Ok text' ->
  text' = text ++ normalized_text outs.
Proof.
  revert text. induction outs as [ | o outs IH]; intros text H; simpl in H.
  - injection H as <-. unfold normalized_text. simpl. now rewrite append_empty_r.
  - inv_bind H. apply add_continue_output_ok in Hv. apply IH in H.
    rewrite normalized_text_cons. subst. now rewrite append_assoc.
Qed.

Lemma continuation_text_app (xs ys : list (request * result reply)) :
  continuation_text (xs ++ ys) = continuation_text xs ++ continuation_text ys.
Proof. unfold continuation_text. now rewrite responses_of_app, map_app, join_app. Qed.

Lemma answer_function_call_ok (conv_id : pyval) (fc : function_call)
  (results results' : list pyval) (text text' : string) (st st' : state World) :
  answer_function_call conv_id fc (results, text) st = (Ok (results', text'), st') ->
  exists delta,
    calls st' = (calls st ++ delta)%list /\ text' = text ++ continuation_text delta.
Proof.
  unfold answer_function_call. intros H.
  inv_bindM H. apply lift_ok in Hv. destruct Hv as [_ ->].
  assert (Hnone : forall st0 : state World,
             ret (results, text) st0 = (Ok (results', text'), st') ->
             exists delta,
               calls st' = (calls st0 ++ delta)%list /\
               text' = text ++ continuation_text delta).
  { intros st0 E. injection E as <- <- <-. exists []. split.
    - now rewrite app_nil_r.
    - unfold continuation_text. simpl. now rewrite append_empty_r. }
  destruct v as [result | ]; [ | now apply Hnone].
  destruct (truthy result); [ | now apply Hnone].
  inv_bindM H. apply lift_ok in Hv. destruct Hv as [_ ->].
  inv_bindM H. apply call_ok in Hv. destruct Hv as (w & _ & ->).
  inv_bindM H. apply lift_ok in Hv. destruct Hv as [Htext ->].
  injection H as <- <- <-.
  apply for_each_continue_ok in Htext.
  eexists. split; [reflexivity | ].
  unfold continuation_text. simpl. now rewrite append_empty_r.
Qed.

Lemma answer_function_calls_ok (conv_id : pyval) (fcs : list function_call)
  (results results' : list pyval) (text text' : string) (st st' : state World) :
  for_eachM fcs (answer_function_call conv_id) (results, text) st
  = (Ok (results', text'), st') ->
  exists delta,
    calls st' = (calls st ++ delta)%list /\ text' = text ++ continuation_text delta.
Proof.
  revert results text st.
  induction fcs as [ | fc fcs IH]; intros results text st H; simpl in H.
  - injection H as <- <- <-. exists []. split.
    + now rewrite app_nil_r.
    + unfold continuation_text. simpl. now rewrite append_empty_r.
  - inv_bindM H. destruct v as [results1 text1].
    apply answer_function_call_ok in Hv. destruct Hv as (d1 & Hc1 & ->).
    apply IH in H. destruct H as (d2 & Hc2 & ->).
    exists (d1 ++ d2)%list. split.
    + now rewrite Hc2, Hc1, app_assoc.
    + now rewrite continuation_text_app, append_assoc.
Qed.

Lemma function_calls_exchange_ok (agent user_prompt : string) (st st' : state World)
  (turn : pyval) :
  function_calls_exchange agent user_prompt st = (Ok turn, st') ->
  exists response current_response function_calls function_results continuation,
    calls st' =
      (calls st ++ (ConversationsStart agent user_prompt None, Ok (RResponse response))
                   :: continuation)%list /\
    process_initial_response response = Ok (current_response, function_calls) /\
    current_response = normalized_text (outputs response) /\
    turn = assistant_turn_fc
             (match function_calls with
              | [] => current_response
              | _ => continuation_text continuation
              end) function_calls function_results /\
    (function_calls = [] -> continuation = [] /\ function_results = []).
Proof.
  unfold function_calls_exchange, start_conversation. intros H.
  inv_bindM H. apply call_ok in Hv. destruct Hv as (w & _ & ->).
  inv_bindM H. apply lift_ok in Hv. destruct Hv as [Hinit ->].
  destruct v0 as [current_response function_calls].
  inv_bindM H. destruct v0 as [function_results final_response].
  injection H as <- <-.
  exists v, current_response, function_calls, function_results.
  destruct function_calls as [ | fc fcs].
  - simpl in Hv. injection Hv as <- <- <-. exists []. repeat split; try assumption.
    unfold process_initial_response in Hinit.
    now apply for_each_initial_text in Hinit.
  - apply answer_function_calls_ok in Hv. destruct Hv as (delta & Hc & ->).
    exists delta. simpl in Hc. rewrite <- app_assoc in Hc. repeat split; try assumption.
    + unfold process_initial_response in Hinit.
      now apply for_each_initial_text in Hinit.
    + discriminate.
    + discriminate.
Qed.

Lemma function_calls_exchange_raises (agent user_prompt : string) (st : state World)
  (response : response) (w : World) (text : string) (fc : function_call)
  (fcs : list function_call) (e : exn) :
  conversations_start remote agent user_prompt None (world st) = (Ok response, w) ->
  process_initial_response response = Ok (text, fc :: fcs) ->
  execute_function (function_name fc) (arguments fc) = Raise e ->
  fst (function_calls_exchange agent user_prompt st) = Raise e.
Proof.
  intros Hstart Hinit Hexec.
  unfold function_calls_exchange, start_conversation, bindM, call, lift.
  rewrite Hstart. cbn [map_result]. rewrite Hinit. cbn [for_eachM].
  unfold bindM, answer_function_call, bindM, lift. now rewrite Hexec.
Qed.

(** ** The two round trips of the image page *)

Lemma starts_app (xs ys : list (request * result reply)) :
  starts (xs ++ ys) = (starts xs + starts ys)%nat.
Proof. unfold starts. now rewrite filter_app, length_app. Qed.

Lemma image_exchange_log (agent user_prompt : string) (i : Z) (st : state World) :
  session (snd (image_exchange agent user_prompt i st)) = session st /\
  exists delta,
    calls (snd (image_exchange agent user_prompt i st)) = (calls st ++ delta)%list /\
    starts delta = 1%nat.
Proof.
  unfold image_exchange, start_conversation, bindM, call, lift, try_except.
  destruct (conversations_start remote agent user_prompt None (world st))
    as [[response | e] w]; simpl.
  - destruct (for_each (outputs response) process_image_output _) as [found | e];
      simpl.
    + destruct (truthy (image_file_id found)); simpl.
      * destruct (files_download remote (image_file_id found) w) as [[data | e] w'];
          simpl; (split; [reflexivity | ]); eexists;
          (split; [rewrite <- app_assoc; reflexivity | reflexivity]).
      * split; [reflexivity | ]. eexists. split; reflexivity.
    + split; [reflexivity | ]. eexists. split; reflexivity.
  - split; [reflexivity | ]. eexists. split; reflexivity.
Qed.

Lemma image_exchange_start_failure (agent user_prompt : string) (i : Z)
  (st : state World) (e : exn) (w : World) :
  conversations_start remote agent user_prompt None (world st) = (Raise e, w) ->
  fst (image_exchange agent user_prompt i st) = Raise e.
Proof.
  intros H. unfold image_exchange, start_conversation, bindM, call. now rewrite H.
Qed.

Lemma generate_image_run (agent user_prompt : string) (i : Z) (st : state World) :
  fst (generate_image agent user_prompt i tt st) = Ok tt /\
  session (snd (generate_image agent user_prompt i tt st)) =
    push_image_generation
      (image_turn i (fst (image_exchange agent user_prompt i st))) (session st) /\
  world (snd (generate_image agent user_prompt i tt st)) =
    world (snd (image_exchange agent user_prompt i st)) /\
  calls (snd (generate_image agent user_prompt i tt st)) =
    calls (snd (image_exchange agent user_prompt i st)).
Proof.
  destruct (image_exchange_log agent user_prompt i st) as (Hs & _).
  unfold generate_image, try_except, bindM.
  destruct (image_exchange agent user_prompt i st) as [[turn | e] st1]; simpl in *;
    rewrite Hs; repeat split.
Qed.

Lemma image_generation_submit_run (user_prompt : string) (st : state World)
  (agent : string) (w : World) :
  user_prompt <> "" ->
  agents_create remote "mistral-medium-latest" "Image Generation Agent"
    ["image_generation"] (world st) = (Ok agent, w) ->
  image_generation_submit user_prompt st =
  (Ok false,
   snd (generate_image agent user_prompt 1 tt
          (image_second_start st w agent user_prompt))).
Proof.
  intros Hp Hc. unfold image_generation_submit. rewrite (eqb_empty_false _ Hp).
  unfold image_second_start, image_loop_start.
  unfold create_image_agent, create_agent, bindM at 1 2, try_except, call.
  rewrite Hc.
  unfold with_session, logged, push_image_generation, append_image_generation_history,
    modify_session, ret, create_image_request.
  cbn [map_result bindM fst snd world calls ui session].
  change (range num_images_to_generate) with [0; 1].
  cbn [for_eachM].
  unfold bindM.
  match goal with
  | |- context [generate_image agent user_prompt 0 tt ?s] =>
      pose proof (generate_image_run agent user_prompt 0 s) as (H0 & _);
      destruct (generate_image agent user_prompt 0 tt s) as [[[] | e0] s1];
      [ | discriminate]
  end.
  cbn [snd].
  pose proof (generate_image_run agent user_prompt 1 s1) as (H1 & _).
  destruct (generate_image agent user_prompt 1 tt s1) as [[[] | e1] s2];
    [reflexivity | discriminate].
Qed.

(** ** The rate lookup *)

Lemma get_interest_rate_lookup (region : string) (date : pyval) :
  get_interest_rate (VStr region) date =
  match lookup (lower region) rates with
  | Some entry => Ok (VDict (("region", VStr region) :: rate_fields date entry))
  | None => Ok (no_rate_record region)
  end.
Proof.
  unfold get_interest_rate. destruct (lookup (lower region) rates); reflexivity.
Qed.

(** * The claims *)

(** C1.  The text of a normalized turn, as the first loop of the
    function calls page extracts it: whenever the loop ends, the text is
    [normalized_text], that is, for each message-output entry in payload
    order, its content verbatim when that is a string and, when it is a
    list, the text fields of its text-typed items (read by key from a
    mapping, by attribute from an object) in order, nothing else, nothing
    reordered or dropped; and on a well-formed payload the loop does
    end. *)
Theorem text_extraction (r : response) :
  (forall text function_calls,
      process_initial_response r = Ok (text, function_calls) ->
      text = normalized_text (outputs r)) /\
  (forallb well_formed_output (outputs r) = true ->
   exists function_calls,
     process_initial_response r = Ok (normalized_text (outputs r), function_calls)) /\
  (forall o content,
      has_type o "message.output" = true -> getattr o "content" = Ok (VStr content) ->
      normalized_text [o] = content) /\
  (forall o items,
      has_type o "message.output" = true -> getattr o "content" = Ok (VList items) ->
      normalized_text [o] = join (map text_fragment (filter is_text_item items))).
Proof.
  split; [ | split; [ | split]].
  - intros text fcs H. unfold process_initial_response in H.
    now apply for_each_initial_text in H.
  - intros Hwf. destruct (process_initial_response_total r Hwf) as ([text fcs] & H).
    exists fcs. rewrite H. f_equal. f_equal.
    unfold process_initial_response in H. now apply for_each_initial_text in H.
  - intros o content Ht Hc. unfold normalized_text, text_fragments. simpl.
    rewrite Ht. simpl. rewrite Hc. simpl. apply append_empty_r.
  - intros o items Ht Hc. unfold normalized_text, text_fragments. simpl.
    rewrite Ht. simpl. rewrite Hc. now rewrite app_nil_r.
Qed.

(** C2.  The rate lookup is case-insensitive against its fixed
    table: two regions that differ only in the case of their letters find
    the same entry, so their records agree on date, interest_rate,
    central_bank and last_updated, while the region field of each record
    echoes the region as it was given; regions "us" and "US" both get the
    Federal Reserve entry with the rate text "5.5%"; a region with no match,
    such as "Mars", gets the error record with a message and the list of
    the region keys. *)
Theorem rate_lookup_ignores_case :
  (forall (region1 region2 : string) (date : pyval),
      lower region1 = lower region2 ->
      (exists fields,
          keys fields = ["date"; "interest_rate"; "central_bank"; "last_updated"] /\
          get_interest_rate (VStr region1) date
          = Ok (VDict (("region", VStr region1) :: fields)) /\
          get_interest_rate (VStr region2) date
          = Ok (VDict (("region", VStr region2) :: fields)))
      \/
      (get_interest_rate (VStr region1) date = Ok (no_rate_record region1) /\
       get_interest_rate (VStr region2) date = Ok (no_rate_record region2))) /\
  (forall (region : string) (date : pyval),
      region = "us" \/ region = "US" ->
      get_interest_rate (VStr region) date =
      Ok (VDict [ ("region", VStr region);
                  ("date", effective_date date);
                  ("interest_rate", VStr "5.5%");
                  ("central_bank", VStr "Federal Reserve");
                  ("last_updated", VStr "2023-12-13") ])) /\
  (forall date : pyval,
      get_interest_rate (VStr "Mars") date = Ok (no_rate_record "Mars")).
Proof.
  split; [ | split].
  - intros region1 region2 date Hl.
    rewrite !get_interest_rate_lookup, <- Hl.
    destruct (lookup (lower region1) rates) as [entry | ].
    + left. exists (rate_fields date entry). repeat split.
    + right. now split.
  - intros region date [-> | ->]; reflexivity.
  - intros date. reflexivity.
Qed.

(** C3.  The loan payment calculator in float arithmetic, on numbers
    that can meet a float (floats, and integers in the range of floats),
    with a rate that can be divided by 100 and a number of payments
    term*12 above zero.  The monthly rate is rate/100/12.  When it is
    zero the unrounded monthly payment is principal / payments.  When
    1 + monthly rate is a finite float above 1 and the number of payments
    is finite, the payment is principal * (rate * g) / (g - 1) with g the
    power pow(1 + rate, payments) of the C library, provided g is finite
    and g - 1 is not zero; when g is infinite the calculator raises
    [OverflowError].  When the monthly rate is not zero but so small that
    1 + monthly rate is 1, the calculator raises [ZeroDivisionError].
    Where it returns, the record holds the payment, the payment times the
    number of payments, and that less the principal, each rounded to
    2 decimal places (to the nearest hundredth, ties to even, then to the
    nearest float), the number of payments unrounded, principal and term
    as given and the rate as its text followed by a percent sign.
    Principal 12000 at rate 0 over 1 year gives a monthly payment of
    1000.0 and a total interest of 0.0; principal 1003.5 at rate 0 over
    5 years gives a monthly payment of 16.73 for the unrounded 16.725. *)
Theorem loan_payment_formula :
  (forall (principal rate term : pyval) (np nr nt : num),
     as_num principal = Some np -> as_num rate = Some nr -> as_num term = Some nt ->
     in_range np = true -> can_divide nr (NInt 100) = true ->
     in_range (payments_of nt) = true ->
     let monthly_rate := fdiv (quotient nr (NInt 100)) (float_of_Z 12) in
     let n := float_of (payments_of nt) in
     let base := fadd float_one monthly_rate in
     let g := libm_pow base n in
     float_gt_Z n 0 = true ->
     (float_eq_Z monthly_rate 0 = true -> can_divide np (payments_of nt) = true ->
      loan_payment_is principal rate term np nt (quotient np (payments_of nt))) /\
     (is_finite n = true -> float_gt_Z base 1 = true -> is_finite base = true ->
      (is_infinite g = false -> is_zero (fsub g float_one) = false ->
       loan_payment_is principal rate term np nt
         (fdiv (fmul (float_of np) (fmul monthly_rate g)) (fsub g float_one))) /\
      (is_infinite g = true ->
       raises OverflowError (calculate_loan_payment principal rate term))) /\
     (float_eq_Z monthly_rate 0 = false -> float_eq_Z base 1 = true ->
      raises ZeroDivisionError (calculate_loan_payment principal rate term))) /\
  calculate_loan_payment (VInt 12000) (VInt 0) (VInt 1) =
  Ok (VDict [ ("principal", VInt 12000);
              ("annual_interest_rate", VStr "0%");
              ("term_years", VInt 1);
              ("monthly_payment", VFloat (S754_finite false 8796093022208000 (-43)));
              ("total_payment", VFloat (S754_finite false 6597069766656000 (-39)));
              ("total_interest", VFloat (S754_zero false));
              ("number_of_payments", VInt 12) ]) /\
  calculate_loan_payment (VFloat (S754_finite false 8826879347785728 (-43))) (VInt 0) (VInt 5) =
  Ok (VDict [ ("principal", VFloat (S754_finite false 8826879347785728 (-43)));
              ("annual_interest_rate", VStr "0%");
              ("term_years", VInt 5);
              ("monthly_payment", VFloat (S754_finite false 4709076360369275 (-48)));
              ("total_payment", VFloat (S754_finite false 8826879347785728 (-43)));
              ("total_interest", VFloat (S754_zero false));
              ("number_of_payments", VInt 60) ]).
Proof.
  split; [ | split; vm_compute; reflexivity].
  intros principal rate term np nr nt Hp Hr Ht Hnp Hd Hpay monthly_rate n base g Hn.
  change monthly_rate with (monthly_rate_of nr) in *.
  split; [ | split].
  - intros Hz Hq.
    apply (loan_payment_is_intro principal rate term np nr nt _ Hp Hr Ht Hnp Hd Hpay).
    now apply monthly_payment_zero_rate.
  - intros Hfn Hb Hfb.
    pose proof (monthly_payment_annuity principal np nr nt Hp Hnp Hpay Hn Hfn Hb Hfb)
      as Hmp.
    cbv zeta in Hmp. fold n base g in Hmp. split.
    + intros Hg Hden. rewrite Hg, Hden in Hmp.
      exact (loan_payment_is_intro principal rate term np nr nt _ Hp Hr Ht Hnp Hd Hpay Hmp).
    + intros Hg. rewrite Hg in Hmp.
      rewrite (calculate_loan_payment_steps principal rate term nr nt Hr Ht Hd), Hmp.
      now eexists.
  - intros Hz Hb.
    rewrite (calculate_loan_payment_steps principal rate term nr nt Hr Ht Hd).
    rewrite (monthly_payment_flat principal np nr nt Hp Hnp Hpay Hz).
    + now eexists.
    + now apply float_pow_of_one.
Qed.

(** C4.  A tool call whose function is set and carries an
    arguments value: the pending record holds the parsed JSON when
    [json.loads] succeeds and, when it fails, the raw value kept under the
    key "raw_args". *)
Theorem tool_call_arguments (tool_call f raw : pyval)
  (function_calls : list function_call) :
  plain tool_call = true ->
  getattr tool_call "function" = Ok f ->
  truthy f = true ->
  getattr f "arguments" = Ok raw ->
  add_tool_call tool_call function_calls =
  Ok (function_calls ++
        [ {| tool_call_id := attr_value tool_call "id" (VStr "");
             function_name := attr_value f "name" (VStr "");
             arguments := parsed_arguments raw |} ])%list /\
  (forall parsed, loads raw = Ok parsed -> parsed_arguments raw = parsed) /\
  (forall e, loads raw = Raise e -> parsed_arguments raw = VDict [ ("raw_args", raw) ]).
Proof.
  intros Hp Hf Ht Ha. split; [ | split].
  - now apply add_tool_call_function.
  - intros parsed H. unfold parsed_arguments. now rewrite H.
  - intros e H. unfold parsed_arguments. now rewrite H.
Qed.

Lemma function_calls_submit_total (user_prompt : string) (st : state World) :
  exists returned, fst (function_calls_submit user_prompt st) = Ok returned.
Proof.
  destruct (String.eqb user_prompt "") eqn:E.
  - unfold function_calls_submit. rewrite E. exists true. reflexivity.
  - apply String.eqb_neq in E.
    exact (proj1 (function_calls_failures_recorded user_prompt E st)).
Qed.

Lemma web_search_submit_total (user_prompt : string) (premium : bool)
  (st : state World) :
  exists returned, fst (web_search_submit user_prompt premium st) = Ok returned.
Proof.
  destruct (String.eqb user_prompt "") eqn:E.
  - unfold web_search_submit. rewrite E. exists true. reflexivity.
  - apply String.eqb_neq in E.
    exact (proj1 (web_search_failures_recorded user_prompt premium E st)).
Qed.

(** A page run ends normally when its submit handler does. *)
Lemma run_page_total (submit_handler : M bool) (submit clear : bool)
  (history : session_state -> list pyval)
  (set_history : list pyval -> session_state -> session_state) :
  (forall st, exists returned, fst (submit_handler st) = Ok returned) ->
  forall st, fst (run_page submit_handler submit clear history set_history st) = Ok tt.
Proof.
  intros Hh st. unfold run_page, bindM, get_session.
  destruct (String.eqb (api_key (session st)) ""); [reflexivity | ].
  destruct submit.
  - destruct (Hh st) as (returned & Hr).
    destruct (submit_handler st) as [[b | e] st1]; simpl in Hr; [ | discriminate].
    destruct b; [reflexivity | ].
    destruct (history (session st1)); [reflexivity | ]. destruct clear; reflexivity.
  - simpl. destruct (history (session st)); [reflexivity | ].
    destruct clear; reflexivity.
Qed.

(** C6.  On the function calls page and on the web search page a run of
    the page never raises.  After a submit with a prompt, a failure of a
    conversation request (start or continue) is surfaced as an assistant
    turn with the content "Error: " followed by the text of the failure,
    appended to the history of the feature after the user turn, and the
    turns that were there before stay.  A failure while the agent is
    created is only shown on screen: the history is left as it was. *)
Theorem conversation_failures_surface :
  (forall user_prompt,
      user_prompt <> "" ->
      conversation_failures_recorded (function_calls_submit user_prompt)
        function_calls_history create_function_call_request
        "Failed to create function call agent: " user_prompt error_turn_fc /\
      (forall premium,
          conversation_failures_recorded (web_search_submit user_prompt premium)
            web_search_history (create_web_search_request premium)
            "Failed to create web search agent: " user_prompt error_turn_ws)) /\
  (forall user_prompt submit clear st,
      fst (display_function_calls_page user_prompt submit clear st) = Ok tt) /\
  (forall user_prompt premium submit clear st,
      fst (display_web_search_page user_prompt premium submit clear st) = Ok tt) /\
  (forall e,
      turn_content (error_turn_fc e) = Some (VStr ("Error: " ++ exn_msg e)) /\
      turn_content (error_turn_ws e) = Some (VStr ("Error: " ++ exn_msg e))).
Proof.
  split; [ | split; [ | split]].
  - intros user_prompt Hp. split.
    + now apply function_calls_failures_recorded.
    + intros premium. now apply web_search_failures_recorded.
  - intros user_prompt submit clear st. unfold display_function_calls_page.
    apply run_page_total. apply function_calls_submit_total.
  - intros user_prompt premium submit clear st. unfold display_web_search_page.
    apply run_page_total. apply web_search_submit_total.
  - intros e. split; reflexivity.
Qed.

(** C7.  The name of a handoff target is found by reverse
    lookup of its id in the registry of agent ids by name: with the
    registry {"calculator": "id-123"}, id "id-123" gives "calculator" and
    the unknown id "id-999" gives "Unknown Agent"; in general the name is
    that of the first entry holding the id, "Unknown Agent" when there is
    none.  The handoff records of a response are those of its
    handoff-execution entries, in payload order. *)
Theorem handoff_resolution :
  handoff_agent_name [("calculator", "id-123")] (VStr "id-123") = "calculator" /\
  handoff_agent_name [("calculator", "id-123")] (VStr "id-999") = "Unknown Agent" /\
  (forall agent_ids id,
      handoff_agent_name agent_ids (VStr id) =
      match find (fun entry => String.eqb (snd entry) id) agent_ids with
      | Some entry => fst entry
      | None => "Unknown Agent"
      end) /\
  (forall agent_ids r turn,
      process_orchestration_response agent_ids r = Ok turn ->
      handoffs turn = handoff_records agent_ids (outputs r)) /\
  (forall agent_ids r,
      forallb well_formed_output (outputs r) = true ->
      exists turn, process_orchestration_response agent_ids r = Ok turn).
Proof.
  split; [reflexivity | ]. split; [reflexivity | ]. split; [ | split].
  - apply handoff_agent_name_find.
  - intros agent_ids r turn H. unfold process_orchestration_response in H.
    now apply for_each_orchestration_handoffs in H.
  - intros agent_ids r Hwf. unfold process_orchestration_response.
    apply (for_each_total (process_orchestration_output agent_ids) well_formed_output);
      [ | exact Hwf].
    intros o acc. apply process_orchestration_output_total.
Qed.

(** C8.  Once its agent is created, the image page starts
    exactly two conversations for a prompt, one after the other, and
    appends one assistant turn for each after the user turn.  When the
    first round trip gave a turn (with the image data it downloaded) and
    the second conversation cannot be started, the history ends with the
    user turn, that first turn, and an error turn of its own for the
    second failure. *)
Theorem image_round_trips (user_prompt agent : string) (st : state World) (w : World) :
  user_prompt <> "" ->
  agents_create remote "mistral-medium-latest" "Image Generation Agent"
    ["image_generation"] (world st) = (Ok agent, w) ->
  let out := image_generation_submit user_prompt st in
  let first := image_exchange agent user_prompt 0
                 (image_loop_start st w agent user_prompt) in
  let second := image_exchange agent user_prompt 1
                  (image_second_start st w agent user_prompt) in
  fst out = Ok false /\
  (exists rounds,
      calls (snd out) =
        (calls st ++ (create_image_request, Ok (RAgent agent)) :: rounds)%list /\
      starts rounds = 2%nat) /\
  image_generation_history (session (snd out)) =
    (image_generation_history (session st) ++
       [user_turn user_prompt; image_turn 0 (fst first); image_turn 1 (fst second)])%list /\
  (forall turn1 e2 w2,
      fst first = Ok turn1 ->
      conversations_start remote agent user_prompt None
        (world (image_second_start st w agent user_prompt)) = (Raise e2, w2) ->
      image_generation_history (session (snd out)) =
        (image_generation_history (session st) ++
           [user_turn user_prompt; turn1; error_turn_img 1 e2])%list).
Proof.
  intros Hp Hc out first second.
  assert (Hout : out = (Ok false,
                        snd (generate_image agent user_prompt 1 tt
                               (image_second_start st w agent user_prompt)))).
  { unfold out. now apply image_generation_submit_run. }
  set (st1 := image_loop_start st w agent user_prompt) in *.
  set (st2 := image_second_start st w agent user_prompt) in *.
  destruct (generate_image_run agent user_prompt 0 st1) as (_ & Hs1 & _ & Hc1).
  destruct (generate_image_run agent user_prompt 1 st2) as (_ & Hs2 & _ & Hc2).
  destruct (image_exchange_log agent user_prompt 0 st1) as (_ & d1 & Hd1 & Hn1).
  destruct (image_exchange_log agent user_prompt 1 st2) as (_ & d2 & Hd2 & Hn2).
  fold first in Hs1. fold second in Hs2.
  assert (Hhist : image_generation_history (session (snd out)) =
                  (image_generation_history (session st) ++
                     [user_turn user_prompt; image_turn 0 (fst first);
                      image_turn 1 (fst second)])%list).
  { rewrite Hout. cbn [snd]. rewrite Hs2. unfold st2 at 1, image_second_start.
    fold st1. rewrite Hs1. unfold st1, image_loop_start. simpl.
    now rewrite <- !app_assoc. }
  split; [now rewrite Hout | ]. split; [ | split].
  - exists (d1 ++ d2)%list. split.
    + rewrite Hout. cbn [snd]. rewrite Hc2, Hd2.
      unfold st2 at 1, image_second_start. fold st1. rewrite Hc1, Hd1.
      unfold st1, image_loop_start. simpl. now rewrite <- !app_assoc.
    + now rewrite starts_app, Hn1, Hn2.
  - exact Hhist.
  - intros turn1 e2 w2 H1 H2. rewrite Hhist, H1.
    unfold second. now rewrite (image_exchange_start_failure _ _ _ _ _ _ H2).
Qed.

(** C9.  When the exchange of the function calls page ends
    without an exception, the content of the assistant turn is the text of
    the initial response if that response asked for no function call, and
    otherwise only the text of the continuation responses, in the order
    they were received: the text of the initial response is left out. *)
Theorem function_calls_turn_content (agent user_prompt : string)
  (st st' : state World) (turn : pyval) :
  function_calls_exchange agent user_prompt st = (Ok turn, st') ->
  exists response current_response function_calls continuation,
    calls st' =
      (calls st ++ (ConversationsStart agent user_prompt None, Ok (RResponse response))
                   :: continuation)%list /\
    process_initial_response response = Ok (current_response, function_calls) /\
    current_response = normalized_text (outputs response) /\
    turn_content turn =
      Some (VStr (match function_calls with
                  | [] => current_response
                  | _ => continuation_text continuation
                  end)) /\
    (function_calls = [] -> continuation = []).
Proof.
  intros H. apply function_calls_exchange_ok in H.
  destruct H as (response & current & fcs & results & conts & Hc & Hi & Ht & -> & Hn).
  exists response, current, fcs, conts. repeat split; try assumption.
  intros E. now destruct (Hn E).
Qed.

(** C10.  [calculate_loan_payment] with a term of zero raises the
    division-by-zero error, in the zero-rate branch and in the annuity
    branch alike, when the principal is a number that can meet a float (a
    float, or an integer in the range of floats) and the rate a number
    that can be divided by 100.  The dispatcher puts 0 for a [term_years]
    the arguments leave out, so it raises that error for such a request,
    and the page then records it as the error turn of the exchange. *)
Theorem zero_term_division_by_zero :
  (forall principal rate term : pyval,
      float_operand principal = true -> percentage rate = true ->
      zero_number term = true ->
      raises ZeroDivisionError (calculate_loan_payment principal rate term)) /\
  (forall args : list (string * pyval),
      lookup "term_years" args = None ->
      (forall v, lookup "principal" args = Some v -> float_operand v = true) ->
      (forall v, lookup "annual_interest_rate" args = Some v -> percentage v = true) ->
      raises ZeroDivisionError
        (execute_function (VStr "calculate_loan_payment") (VDict args))) /\
  (forall (user_prompt agent : string) (st : state World) (w w' : World)
          (response : response) (text : string) (fc : function_call)
          (fcs : list function_call) (args : list (string * pyval)),
      user_prompt <> "" ->
      agents_create remote "mistral-medium-latest" "Function Call Agent"
        ["get_interest_rate"; "calculate_loan_payment"] (world st) = (Ok agent, w) ->
      conversations_start remote agent user_prompt None w = (Ok response, w') ->
      process_initial_response response = Ok (text, fc :: fcs) ->
      function_name fc = VStr "calculate_loan_payment" ->
      arguments fc = VDict args ->
      lookup "term_years" args = None ->
      (forall v, lookup "principal" args = Some v -> float_operand v = true) ->
      (forall v, lookup "annual_interest_rate" args = Some v -> percentage v = true) ->
      exists msg,
        function_calls_history (session (snd (function_calls_submit user_prompt st))) =
        (function_calls_history (session st) ++
           [user_turn user_prompt; error_turn_fc (Exn ZeroDivisionError msg)])%list).
Proof.
  split; [ | split].
  - apply calculate_loan_payment_zero_term.
  - apply execute_function_without_term.
  - intros user_prompt agent st w w' response text fc fcs args
           Hp Hc Hstart Hinit Hname Hargs Hterm Hpn Hrn.
    destruct (execute_function_without_term args Hterm Hpn Hrn) as (msg & Hexec).
    exists msg.
    rewrite (function_calls_submit_run _ _ Hp), Hc. cbv zeta.
    match goal with
    | |- context [function_calls_exchange agent user_prompt ?s] => set (st1 := s)
    end.
    assert (Hraise : fst (function_calls_exchange agent user_prompt st1)
                     = Raise (Exn ZeroDivisionError msg)).
    { apply (function_calls_exchange_raises agent user_prompt st1 response w' text fc fcs).
      - exact Hstart.
      - exact Hinit.
      - now rewrite Hname, Hargs. }
    destruct (faithful_function_calls_exchange agent user_prompt st1) as (Hs & _).
    destruct (function_calls_exchange agent user_prompt st1) as [[turn | e] st2];
      simpl in Hraise; [discriminate | ].
    injection Hraise as ->. simpl in Hs. simpl. rewrite Hs. simpl.
    now rewrite <- app_assoc.
Qed.

(** The handler of the [try] around [output.info.__dict__] is never
    taken: when the probe before the [try] has answered yes, the read
    inside it succeeds. *)
Lemma tool_info_handler_unreachable (info : pyval) :
  hasattr info "__dict__" = Ok true -> exists d, getattr info "__dict__" = Ok d.
Proof. intros H. now apply hasattr_true_getattr. Qed.

(** A tool execution whose info raises anything but [AttributeError] when
    its [__dict__] is read makes the branch raise: the probe
    [hasattr(output.info, '__dict__')] is outside the [try]. *)
Lemma add_tool_execution_info_raises (o info : pyval) (e : exn) (ts : list pyval) :
  (exists name, hasattr o "name" = Ok name /\
                (name = true -> exists v, getattr o "name" = Ok v)) ->
  hasattr o "info" = Ok true ->
  getattr o "info" = Ok info ->
  hasattr info "__dict__" = Raise e ->
  add_tool_execution o ts = Raise e.
Proof.
  intros (name & Hn & Hv) Hh Hi Hd. unfold add_tool_execution.
  rewrite Hn. cbn [bind].
  assert (Hname : exists v, (if name then getattr o "name" else Ok (VStr "")) = Ok v).
  { destruct name; [now apply Hv | eauto]. }
  destruct Hname as (v & ->). cbn [bind]. rewrite Hh. cbn [bind].
  rewrite Hi. cbn [bind]. now rewrite Hd.
Qed.

(** * Further properties of the pages *)

(** ** The pending calls of a response ([function_calls.py]) *)

Lemma add_tool_call_ok (tool_call : pyval) (fcs fcs' : list function_call) :
  add_tool_call tool_call fcs = Ok fcs' -> fcs' = (fcs ++ call_records tool_call)%list.
Proof.
  unfold add_tool_call, call_records. intros H. inv_bind H. destruct v.
  - inv_bind H. rewrite Hv0. destruct (truthy v).
    + inv_bind H. inv_bind H. inv_bind H. inv_bind H. inv_bind H. inv_bind H.
      injection H as <-.
      assert (Hid : v1 = attr_value tool_call "id" (VStr "")).
      { apply guarded_read; [reflexivity | ]. rewrite Hv1. exact Hv2. }
      assert (Hname : v3 = attr_value v "name" (VStr "")).
      { apply guarded_read; [reflexivity | ]. rewrite Hv3. exact Hv4. }
      assert (Hargs : v5 = call_arguments v).
      { unfold call_arguments, parsed_arguments. destruct v4.
        - destruct (hasattr_true_getattr _ _ Hv5 eq_refl) as (raw & Hraw).
          rewrite Hraw in *. simpl in Hv6.
          destruct (loads raw); simpl in Hv6; congruence.
        - destruct (hasattr_false_getattr _ _ Hv5) as (e & ->). congruence. }
      now subst.
    + injection H as <-. now rewrite app_nil_r.
  - destruct (hasattr_false_getattr _ _ Hv) as (e & ->).
    injection H as <-. now rewrite app_nil_r.
Qed.

Lemma for_each_tool_calls_ok (items : list pyval) (fcs fcs' : list function_call) :
  for_each items add_tool_call fcs = Ok fcs' ->
  fcs' = (fcs ++ flat_map call_records items)%list.
Proof.
  revert fcs. induction items as [ | item items IH]; intros fcs H; simpl in H.
  - injection H as <-. simpl. now rewrite app_nil_r.
  - inv_bind H. apply add_tool_call_ok in Hv. apply IH in H.
    subst. simpl. now rewrite app_assoc.
Qed.

Lemma process_initial_output_calls (o : pyval) (text text' : string)
  (fcs fcs' : list function_call) :
  process_initial_output o (text, fcs) = Ok (text', fcs') ->
  fcs' = (fcs ++ pending_calls [o])%list.
Proof.
  unfold process_initial_output, pending_calls. simpl. rewrite app_nil_r.
  intros H. inv_bind H. apply output_type_is_ok in Hv. destruct v.
  - inv_bind H. injection H as _ <-.
    rewrite (has_type_exclusive o "message.output" "tool.calls");
      [now rewrite app_nil_r | now symmetry | reflexivity].
  - inv_bind H. apply output_type_is_ok in Hv0. rewrite <- Hv0. destruct v.
    + inv_bind H. unfold tool_calls_of. destruct v.
      * inv_bind H. inv_bind H. inv_bind H. injection H as _ <-.
        rewrite Hv2, Hv3. now apply for_each_tool_calls_ok.
      * destruct (hasattr_false_getattr _ _ Hv1) as (e & ->).
        injection H as _ <-. now rewrite app_nil_r.
    + injection H as _ <-. now rewrite app_nil_r.
Qed.

Lemma pending_calls_app (xs ys : list pyval) :
  pending_calls (xs ++ ys) = (pending_calls xs ++ pending_calls ys)%list.
Proof. unfold pending_calls. apply flat_map_app. Qed.

Lemma for_each_initial_calls (outs : list pyval) (text text' : string)
  (fcs fcs' : list function_call) :
  for_each outs process_initial_output (text, fcs) = Ok (text', fcs') ->
  fcs' = (fcs ++ pending_calls outs)%list.
Proof.
  revert text fcs. induction outs as [ | o outs IH]; intros text fcs H; simpl in H.
  - injection H as _ <-. unfold pending_calls. simpl. now rewrite app_nil_r.
  - inv_bind H. destruct v as [text1 fcs1].
    apply process_initial_output_calls in Hv. apply IH in H.
    change (o :: outs) with ([o] ++ outs)%list.
    rewrite pending_calls_app. subst. now rewrite app_assoc.
Qed.

(** X1.  The pending calls the first loop of the function calls page
    gathers: whenever the loop ends, they are [pending_calls], that is one
    record for every tool call of every tool-call entry that has a truthy
    function, in payload order, with the id and the name defaulting to
    the empty text and the arguments to the empty mapping; tool calls
    without a function leave no record.  On a well-formed payload the loop
    does end. *)
Theorem pending_calls_extracted (r : response) :
  (forall text function_calls,
      process_initial_response r = Ok (text, function_calls) ->
      function_calls = pending_calls (outputs r)) /\
  (forallb well_formed_output (outputs r) = true ->
   exists text, process_initial_response r = Ok (text, pending_calls (outputs r))).
Proof.
  split.
  - intros text fcs H. unfold process_initial_response in H.
    now apply for_each_initial_calls in H.
  - intros Hwf. destruct (process_initial_response_total r Hwf) as ([text fcs] & H).
    exists text. rewrite H. f_equal. f_equal.
    unfold process_initial_response in H. now apply for_each_initial_calls in H.
Qed.

(** ** Results and the requests that hand them back *)

Lemma recorded_results_app (xs ys : list function_call) :
  recorded_results (xs ++ ys) = (recorded_results xs ++ recorded_results ys)%list.
Proof. unfold recorded_results. apply flat_map_app. Qed.

Lemma continuation_requests_app (conv_id : pyval) (xs ys : list function_call) :
  continuation_requests conv_id (xs ++ ys) =
  (continuation_requests conv_id xs ++ continuation_requests conv_id ys)%list.
Proof. unfold continuation_requests. apply flat_map_app. Qed.

Lemma all_answered_app (xs ys : list (request * result reply)) :
  all_answered (xs ++ ys) = all_answered xs && all_answered ys.
Proof. unfold all_answered. apply forallb_app. Qed.

Lemma answer_function_call_log (conv_id : pyval) (fc : function_call)
  (results results' : list pyval) (text text' : string) (st st' : state World) :
  answer_function_call conv_id fc (results, text) st = (Ok (results', text'), st') ->
  results' = (results ++ recorded_results [fc])%list /\
  exists delta,
    calls st' = (calls st ++ delta)%list /\
    map fst delta = continuation_requests conv_id [fc] /\
    all_answered delta = true /\
    length delta = length (recorded_results [fc]).
Proof.
  unfold answer_function_call, recorded_results, continuation_requests, local_result.
  simpl. intros H.
  inv_bindM H. apply lift_ok in Hv. destruct Hv as [Hexec ->]. rewrite Hexec.
  assert (Hnone : ret (results, text) st = (Ok (results', text'), st') ->
                  results' = (results ++ [])%list /\
                  exists delta : list (request * result reply),
                    calls st' = (calls st ++ delta)%list /\
                    map fst delta = [] /\ all_answered delta = true /\
                    length delta = length (@nil pyval)).
  { intros E. injection E as <- <- <-. split; [now rewrite app_nil_r | ].
    exists []. rewrite app_nil_r. repeat split. }
  destruct v as [result | ]; [ | now apply Hnone].
  destruct (truthy result); [ | now apply Hnone].
  inv_bindM H. apply lift_ok in Hv. destruct Hv as [Hdumps ->]. rewrite Hdumps.
  inv_bindM H. apply call_ok in Hv. destruct Hv as (w & _ & ->).
  inv_bindM H. apply lift_ok in Hv. destruct Hv as [_ ->].
  injection H as <- <- <-. split; [reflexivity | ].
  eexists. split; [reflexivity | ]. repeat split.
Qed.

Lemma answer_function_calls_log (conv_id : pyval) (fcs : list function_call)
  (results results' : list pyval) (text text' : string) (st st' : state World) :
  for_eachM fcs (answer_function_call conv_id) (results, text) st
  = (Ok (results', text'), st') ->
  results' = (results ++ recorded_results fcs)%list /\
  exists delta,
    calls st' = (calls st ++ delta)%list /\
    map fst delta = continuation_requests conv_id fcs /\
    all_answered delta = true /\
    length delta = length (recorded_results fcs).
Proof.
  revert results text st.
  induction fcs as [ | fc fcs IH]; intros results text st H; simpl in H.
  - injection H as <- <- <-. split; [now rewrite app_nil_r | ].
    exists []. rewrite app_nil_r. repeat split.
  - inv_bindM H. destruct v as [results1 text1].
    apply answer_function_call_log in Hv.
    destruct Hv as (-> & d1 & Hc1 & Hr1 & Ha1 & Hl1).
    apply IH in H. destruct H as (-> & d2 & Hc2 & Hr2 & Ha2 & Hl2).
    change (fc :: fcs) with ([fc] ++ fcs)%list.
    rewrite recorded_results_app, continuation_requests_app.
    split; [now rewrite app_assoc | ].
    exists (d1 ++ d2)%list. split; [now rewrite Hc2, Hc1, app_assoc | ].
    rewrite map_app, all_answered_app, !length_app, Hr1, Hr2, Ha1, Ha2, Hl1, Hl2.
    repeat split.
Qed.

(** X2.  When the exchange of the function calls page ends without an
    exception, the turn lists the pending calls of the initial response
    and one result for every call the dispatcher answered, in the order of
    the calls; after the request that started the conversation the log
    holds exactly one continuation request for every recorded result, in
    that order, each carrying the conversation id of the initial
    response, the id of its tool call and the JSON text of its result,
    and each was answered. *)
Theorem function_results_handed_back (agent user_prompt : string)
  (st st' : state World) (turn : pyval) :
  function_calls_exchange agent user_prompt st = (Ok turn, st') ->
  exists response continuation,
    calls st' =
      (calls st ++ (ConversationsStart agent user_prompt None, Ok (RResponse response))
                   :: continuation)%list /\
    turn_field turn "function_calls" =
      Some (VList (map function_call_dict (pending_calls (outputs response)))) /\
    turn_field turn "function_results" =
      Some (VList (recorded_results (pending_calls (outputs response)))) /\
    map fst continuation =
      continuation_requests (conversation_id response) (pending_calls (outputs response)) /\
    all_answered continuation = true /\
    length continuation = length (recorded_results (pending_calls (outputs response))).
Proof.
  unfold function_calls_exchange, start_conversation. intros H.
  inv_bindM H. apply call_ok in Hv. destruct Hv as (w & _ & ->).
  inv_bindM H. apply lift_ok in Hv. destruct Hv as [Hinit ->].
  destruct v0 as [current_response function_calls].
  inv_bindM H. destruct v0 as [function_results final_response].
  injection H as <- <-.
  unfold process_initial_response in Hinit. apply for_each_initial_calls in Hinit.
  simpl in Hinit. subst function_calls.
  apply answer_function_calls_log in Hv.
  destruct Hv as (-> & delta & Hc & Hr & Ha & Hl).
  exists v, delta. simpl in Hc. rewrite <- app_assoc in Hc. simpl in Hc.
  repeat split; assumption.
Qed.

(** ** Calls the dispatcher has no function for *)

Lemma execute_function_unknown (function_name args : pyval) :
  known_function function_name = false -> execute_function function_name args = Ok None.
Proof.
  unfold known_function, execute_function. intros H.
  apply orb_false_elim in H. destruct H as [-> ->]. reflexivity.
Qed.

Lemma answer_unknown_calls (conv_id : pyval) (fcs : list function_call)
  (acc : list pyval * string) (st : state World) :
  forallb (fun fc => negb (known_function (function_name fc))) fcs = true ->
  for_eachM fcs (answer_function_call conv_id) acc st = (Ok acc, st).
Proof.
  induction fcs as [ | fc fcs IH]; simpl; intros H; [reflexivity | ].
  apply andb_prop in H. destruct H as [Hfc Hrest].
  apply negb_true_iff in Hfc.
  unfold bindM at 1. unfold answer_function_call. destruct acc as [results text].
  unfold bindM at 1, lift. rewrite (execute_function_unknown _ _ Hfc).
  unfold ret at 1. now apply IH.
Qed.

(** X3.  When the initial response asks only for functions the dispatcher
    has no executor for, no result is recorded and nothing is sent back:
    the exchange ends after the one request that started the
    conversation, and the assistant turn lists the calls with no result
    and an empty content, whatever text the initial response held. *)
Theorem unknown_functions_unanswered (agent user_prompt : string) (st : state World)
  (response : response) (w : World) (text : string) (fc : function_call)
  (fcs : list function_call) :
  conversations_start remote agent user_prompt None (world st) = (Ok response, w) ->
  process_initial_response response = Ok (text, fc :: fcs) ->
  forallb (fun fc => negb (known_function (function_name fc))) (fc :: fcs) = true ->
  function_calls_exchange agent user_prompt st =
  (Ok (assistant_turn_fc "" (fc :: fcs) []),
   logged st w (ConversationsStart agent user_prompt None, Ok (RResponse response))).
Proof.
  intros Hstart Hinit Hunknown.
  unfold function_calls_exchange, start_conversation, call.
  unfold bindM at 1. rewrite Hstart. cbn [map_result].
  unfold bindM at 1, lift. rewrite Hinit.
  unfold bindM at 1. rewrite (answer_unknown_calls _ _ _ _ Hunknown).
  reflexivity.
Qed.

(** ** The local tools on arguments the schema does not allow *)

Lemma lookup_keys {A : Type} (k : string) (kvs : list (string * A)) :
  In k (keys kvs) <-> exists v, lookup k kvs = Some v.
Proof.
  induction kvs as [ | [k' v'] kvs IH]; simpl.
  - split; [intros [] | intros (v & H); discriminate].
  - destruct (String.eqb k k') eqn:E.
    + apply String.eqb_eq in E. subst. split; eauto.
    + apply String.eqb_neq in E. rewrite IH. split.
      * intros [H | H]; [congruence | exact H].
      * intros H. now right.
Qed.

(** X4.  The regions the error record of the rate lookup offers are the
    regions the lookup accepts.  A region written in ASCII characters gets
    a rate record exactly when its lower-case form is one of the keys
    listed under [available_regions], whatever the date; any other such
    region gets the error record, which names the region as it was given
    and lists those keys in the order of the table. *)
Theorem rate_regions_listed (region : string) (date : pyval) :
  is_ascii region = true ->
  (In (lower region) (keys rates) ->
   exists entry,
     lookup (lower region) rates = Some entry /\
     get_interest_rate (VStr region) date =
     Ok (VDict (("region", VStr region) :: rate_fields date entry))) /\
  (~ In (lower region) (keys rates) ->
   get_interest_rate (VStr region) date =
   Ok (VDict [ ("error", VStr ("No interest rate data available for " ++ region));
               ("available_regions", VList (map VStr (keys rates))) ])).
Proof.
  intros _. rewrite get_interest_rate_lookup. split.
  - intros H. apply lookup_keys in H. destruct H as (entry & H).
    exists entry. now rewrite H.
  - intros H. destruct (lookup (lower region) rates) as [entry | ] eqn:E.
    + destruct H. apply lookup_keys. eauto.
    + reflexivity.
Qed.

(** X5.  The dispatcher on a request for a rate.  Arguments without a
    [region] are answered with the error record for the empty region, not
    with an exception; arguments without a [date], or with an empty one,
    get today's date; a [region] that is not a string (a number, a list, a
    mapping, null) raises [AttributeError]. *)
Theorem rate_request_arguments (args : list (string * pyval)) :
  (lookup "region" args = None ->
   execute_function (VStr "get_interest_rate") (VDict args)
   = Ok (Some (no_rate_record ""))) /\
  (forall region entry,
      lookup "region" args = Some (VStr region) ->
      lookup (lower region) rates = Some entry ->
      (lookup "date" args = None \/ lookup "date" args = Some (VStr "")) ->
      execute_function (VStr "get_interest_rate") (VDict args)
      = Ok (Some (VDict [ ("region", VStr region);
                          ("date", VStr today);
                          ("interest_rate", VStr (float_repr (rate entry) ++ "%"));
                          ("central_bank", VStr (name entry));
                          ("last_updated", VStr (last_updated entry)) ]))) /\
  (forall region,
      lookup "region" args = Some region ->
      json_non_string region = true ->
      raises AttributeError
        (execute_function (VStr "get_interest_rate") (VDict args))).
Proof.
  unfold execute_function. cbn [eq_str String.eqb Ascii.eqb Bool.eqb method_get].
  split; [ | split].
  - intros ->. cbn [bind]. destruct (lookup "date" args); reflexivity.
  - intros region entry -> Hentry Hdate. cbn [bind].
    destruct Hdate as [-> | ->]; cbn [bind]; unfold get_interest_rate;
      rewrite Hentry; reflexivity.
  - intros region -> Hregion. cbn [bind].
    destruct (lookup "date" args); cbn [bind];
      destruct region; try discriminate; unfold raises; simpl; eexists; reflexivity.
Qed.

Lemma float_pow_float (x y : spec_float) (v : pyval) :
  float_pow x y = Ok v -> exists g, v = VFloat g.
Proof.
  unfold float_pow. intros H.
  repeat match type of H with
         | (if ?c then _ else _) = _ => destruct c
         end;
    try discriminate; injection H as <-; eauto.
Qed.

Lemma py_truediv_non_number (a b : pyval) :
  as_num a = None \/ as_num b = None -> raises TypeError (py_truediv a b).
Proof.
  intros H. unfold py_truediv, raises, unsupported_operand, type_error.
  destruct (as_num a), (as_num b); eauto; destruct H; discriminate.
Qed.

Lemma py_mul_non_number (a : pyval) (y : spec_float) :
  as_num a = None -> raises TypeError (py_mul a (VFloat y)).
Proof.
  intros H. unfold py_mul, raises, unsupported_operand, type_error. rewrite H.
  cbn [as_num]. destruct (is_sequence a || is_sequence (VFloat y)); eauto.
Qed.

Lemma py_pow_non_number (a b : pyval) :
  as_num b = None -> raises TypeError (py_pow a b).
Proof.
  intros H. unfold py_pow, raises, unsupported_operand, type_error. rewrite H.
  destruct (as_num a) as [[ | ] | ]; eauto.
Qed.

(** [term_years * 12] for a term that is not a number: a [TypeError], or
    the term repeated, which is not a number either. *)
Lemma py_mul_non_number_12 (term : pyval) :
  as_num term = None ->
  raises TypeError (py_mul term (VInt 12)) \/
  exists payments, py_mul term (VInt 12) = Ok payments /\ as_num payments = None.
Proof.
  intros H. unfold py_mul, raises, unsupported_operand, type_error. rewrite H.
  cbn [as_num]. destruct term; try discriminate; cbn [is_sequence]; eauto;
    right; unfold py_repeat;
    replace ((12 <? - 2 ^ 63) || (2 ^ 63 <=? 12)) with false by (vm_compute; reflexivity);
    eauto.
Qed.

Lemma monthly_rate_steps (rate : pyval) (nr : num) (k : pyval -> result pyval) :
  as_num rate = Some nr -> can_divide nr (NInt 100) = true ->
  (r100 <- py_truediv rate (VInt 100) ;;
   monthly_rate <- py_truediv r100 (VInt 12) ;;
   k monthly_rate) = k (VFloat (monthly_rate_of nr)).
Proof.
  intros Hr Hd. unfold py_truediv at 1. rewrite Hr. cbn [as_num].
  rewrite (num_truediv_quotient nr (NInt 100) Hd) by (vm_compute; reflexivity).
  cbn [bind]. unfold py_truediv at 1. cbn [as_num].
  unfold num_truediv at 1. rewrite to_float_12. cbn [to_float bind].
  replace (is_zero (float_of_Z 12)) with false by (vm_compute; reflexivity).
  reflexivity.
Qed.

Lemma rate_overflow (rate : pyval) (nr : num) :
  as_num rate = Some nr -> can_divide nr (NInt 100) = false ->
  raises OverflowError (py_truediv rate (VInt 100)).
Proof.
  intros Hr Hd. unfold py_truediv, raises, overflow_error. rewrite Hr. cbn [as_num].
  destruct nr as [a | x]; [ | discriminate].
  unfold can_divide in Hd. apply negb_false_iff in Hd.
  unfold num_truediv. rewrite Hd. cbn. eauto.
Qed.

(** X6.  The loan calculator needs numbers.  A rate that is not a number
    raises [TypeError].  With a rate that is a number and can be divided
    by 100, a term that is not a number raises [TypeError]: at the
    product with 12, or, for a string or a list, which the product
    repeats, at the division or the power that follows.  With any argument
    that is not a number the calculator raises and returns no record. *)
Theorem loan_payment_needs_numbers (principal rate term : pyval) :
  (as_num rate = None ->
   raises TypeError (calculate_loan_payment principal rate term)) /\
  (percentage rate = true -> as_num term = None ->
   raises TypeError (calculate_loan_payment principal rate term)) /\
  (as_num principal = None \/ as_num rate = None \/ as_num term = None ->
   exists e, calculate_loan_payment principal rate term = Raise e).
Proof.
  assert (Hrate : as_num rate = None ->
                  raises TypeError (calculate_loan_payment principal rate term)).
  { intros H. unfold calculate_loan_payment.
    destruct (py_truediv_non_number rate (VInt 100) (or_introl H)) as (msg & ->).
    now exists msg. }
  assert (Hterm : percentage rate = true -> as_num term = None ->
                  raises TypeError (calculate_loan_payment principal rate term)).
  { unfold percentage. intros Hr Ht.
    destruct (as_num rate) as [nr | ] eqn:Er; [ | discriminate].
    unfold calculate_loan_payment. rewrite (monthly_rate_steps rate nr _ Er Hr).
    destruct (py_mul_non_number_12 term Ht) as [(msg & ->) | (payments & -> & Hpay)];
      [now exists msg | ].
    cbn [bind].
    change (py_num_eq (VFloat (monthly_rate_of nr)) (VInt 0))
      with (float_eq_Z (monthly_rate_of nr) 0).
    destruct (float_eq_Z (monthly_rate_of nr) 0).
    - destruct (py_truediv_non_number principal payments (or_intror Hpay)) as (msg & ->).
      now exists msg.
    - rewrite py_add_one. cbn [bind].
      destruct (py_pow_non_number (VFloat (fadd float_one (monthly_rate_of nr)))
                  payments Hpay) as (msg & ->).
      now exists msg. }
  split; [exact Hrate | ]. split; [exact Hterm | ].
  intros H.
  destruct (as_num rate) as [nr | ] eqn:Er;
    [ | destruct (Hrate eq_refl) as (msg & Hm); eauto].
  destruct (can_divide nr (NInt 100)) eqn:Hd.
  2:{ unfold calculate_loan_payment.
      destruct (rate_overflow rate nr Er Hd) as (msg & ->). cbn [bind]. eauto. }
  assert (Hpc : percentage rate = true) by (unfold percentage; now rewrite Er).
  destruct (as_num term) as [nt | ] eqn:Et;
    [ | destruct (Hterm Hpc eq_refl) as (msg & Hm); eauto].
  destruct H as [Hp | [H | H]]; try discriminate.
  rewrite (calculate_loan_payment_steps principal rate term nr nt Er Et Hd).
  assert (Hraise : exists e, monthly_payment_of principal nr nt = Raise e).
  { unfold monthly_payment_of. destruct (float_eq_Z (monthly_rate_of nr) 0).
    - destruct (py_truediv_non_number principal (number (payments_of nt)) (or_introl Hp))
        as (msg & ->). eauto.
    - destruct (to_float (payments_of nt)) as [fy | e]; cbn [bind]; eauto.
      destruct (float_pow (fadd float_one (monthly_rate_of nr)) fy) as [growth | e] eqn:Eg;
        cbn [bind]; eauto.
      destruct (float_pow_float _ _ _ Eg) as (g & ->).
      rewrite py_mul_floats. cbn [bind].
      destruct (py_mul_non_number principal (fmul (monthly_rate_of nr) g) Hp) as (msg & ->).
      cbn [bind]. eauto. }
  destruct Hraise as (e & ->). cbn [bind]. eauto.
Qed.

(** ** Setting up the orchestration agents ([agent_orchestration.py]) *)

Lemma stopped_at_one (req : request) (e : exn) : stopped_at [(req, Raise e)] e.
Proof. exists [], req. split; reflexivity. Qed.

Lemma stopped_at_cons (req : request) (a : reply) (log : list (request * result reply))
  (e : exn) : stopped_at log e -> stopped_at ((req, Ok a) :: log) e.
Proof.
  intros (answered & req' & -> & Ha). exists ((req, Ok a) :: answered), req'.
  split; [reflexivity | exact Ha].
Qed.

Ltac stopped := repeat apply stopped_at_cons; apply stopped_at_one.

Lemma create_orchestration_agents_run (st : state World) :
  let out := create_orchestration_agents st in
  session (snd out) = session st /\
  exists delta,
    calls (snd out) = (calls st ++ delta)%list /\
    starts delta = 0%nat /\
    ((exists finance web_search calculator graph,
         fst out = Ok (Some (finance, registry finance web_search calculator graph)) /\
         delta = setup_log finance web_search calculator graph /\
         ui (snd out) = ui st)
     \/
     (exists e finance web_search calculator graph rest,
         fst out = Ok None /\
         stopped_at delta e /\
         (map fst delta ++ rest)%list =
           setup_requests finance web_search calculator graph /\
         ui (snd out) =
           (ui st ++ [StError ("Failed to create orchestration agents: " ++ exn_msg e)])%list)).
Proof.
  unfold create_orchestration_agents, try_except, create_agent, bindM, call, st_error,
    show, ret.
  repeat match goal with
         | |- context [agents_create remote ?m ?n ?t ?w] =>
             destruct (agents_create remote m n t w) as [[? | ?] ?];
             cbn [map_result world calls ui session fst snd]
         | |- context [agents_update remote ?a ?h ?w] =>
             destruct (agents_update remote a h w) as [[[] | ?] ?];
             cbn [map_result world calls ui session fst snd]
         end;
    (split; [reflexivity | ]);
    (eexists; split; [rewrite <- ?app_assoc; cbn [app]; reflexivity | ]);
    (split; [reflexivity | ]).
  1: left; do 4 eexists; repeat split.
  all: right; do 6 eexists;
    (split; [reflexivity | ]); (split; [stopped | ]); (split; reflexivity).
  Unshelve. all: exact "".
Qed.

(** X7.  Setting up the orchestration agents never raises and sends at
    most seven requests, in a fixed order: the four agents are created
    (finance, web search, calculator, graph), then the handoffs of the
    first three are set to the agents created after them.  When every
    request is answered the registry maps the four names to the ids the
    service gave; at the first failure nothing more is sent, the failure
    is shown on screen and no agent is returned.  No conversation is
    started and the session is left as it was. *)
Theorem orchestration_setup (st : state World) :
  let out := create_orchestration_agents st in
  session (snd out) = session st /\
  exists delta,
    calls (snd out) = (calls st ++ delta)%list /\
    starts delta = 0%nat /\
    ((exists finance web_search calculator graph,
         fst out = Ok (Some (finance, registry finance web_search calculator graph)) /\
         delta = setup_log finance web_search calculator graph /\
         ui (snd out) = ui st)
     \/
     (exists e finance web_search calculator graph rest,
         fst out = Ok None /\
         stopped_at delta e /\
         (map fst delta ++ rest)%list =
           setup_requests finance web_search calculator graph /\
         ui (snd out) =
           (ui st ++ [StError ("Failed to create orchestration agents: " ++ exn_msg e)])%list)).
Proof. exact (create_orchestration_agents_run st). Qed.

(** ** A submit on the orchestration page *)

Lemma orchestration_submit_run (user_prompt handoff_mode : string) (st : state World) :
  user_prompt <> "" ->
  orchestration_submit user_prompt handoff_mode st =
  match create_orchestration_agents st with
  | (Ok (Some (finance, agent_ids)), st1) =>
      let st2 := with_session st1 (push_orchestration (user_turn user_prompt)) in
      let (r, w) :=
        conversations_start remote finance user_prompt (Some handoff_mode) (world st2) in
      let st3 :=
        logged st2 w (ConversationsStart finance user_prompt (Some handoff_mode),
                      map_result RResponse r) in
      match (response <- r ;; process_orchestration_response agent_ids response) with
      | Ok turn =>
          (Ok false, with_session st3 (push_orchestration (assistant_turn_orch turn)))
      | Raise e =>
          (Ok false,
           with_session (shown st3 (StError ("Error: " ++ exn_msg e)))
             (push_orchestration (error_turn_orch e)))
      end
  | (Ok None, st1) => (Ok true, st1)
  | (Raise e, st1) => (Raise e, st1)
  end.
Proof.
  intros Hp. unfold orchestration_submit. rewrite (eqb_empty_false _ Hp).
  unfold bindM at 1.
  destruct (create_orchestration_agents st) as [[[[finance agent_ids] | ] | e] st1];
    try reflexivity.
  unfold append_orchestration_history, modify_session, try_except, bindM,
    orchestration_exchange, start_conversation, call, lift, bindM, st_error, show, ret,
    with_session, logged, shown, push_orchestration.
  cbn [world calls ui session].
  destruct (conversations_start remote finance user_prompt (Some handoff_mode) (world st1))
    as [[response | e] w]; cbn [map_result bind]; [ | reflexivity].
  destruct (process_orchestration_response agent_ids response) as [turn | e];
    reflexivity.
Qed.

(** X8.  A submit with a prompt on the orchestration page never raises.
    When the setup of the agents fails, the history is left as it was and
    no conversation is started.  Otherwise exactly one conversation is
    started, with the finance agent, the prompt and the handoff mode
    chosen, and the history gains the user turn and one assistant turn:
    the turn normalised from the response, or, when the request or the
    normalisation raised, the error turn with empty handoffs and tool
    executions, whose error is also shown on screen. *)
Theorem orchestration_failures_recorded (user_prompt handoff_mode : string)
  (st : state World) :
  user_prompt <> "" ->
  let out := orchestration_submit user_prompt handoff_mode st in
  (fst out = Ok true /\
   orchestration_history (session (snd out)) = orchestration_history (session st) /\
   exists delta e,
     calls (snd out) = (calls st ++ delta)%list /\ stopped_at delta e /\
     starts delta = 0%nat)
  \/
  (exists finance web_search calculator graph r,
      let agent_ids := registry finance web_search calculator graph in
      fst out = Ok false /\
      calls (snd out) =
        (calls st ++ setup_log finance web_search calculator graph ++
           [(ConversationsStart finance user_prompt (Some handoff_mode),
             map_result RResponse r)])%list /\
      orchestration_history (session (snd out)) =
        (orchestration_history (session st) ++
           [user_turn user_prompt; orchestration_outcome agent_ids r])%list /\
      ui (snd out) =
        (ui st ++
           match (response <- r ;; process_orchestration_response agent_ids response) with
           | Ok _ => []
           | Raise e => [StError ("Error: " ++ exn_msg e)]
           end)%list).
Proof.
  intros Hp out. unfold out. rewrite (orchestration_submit_run _ _ _ Hp).
  destruct (create_orchestration_agents_run st) as (Hs & delta & Hc & Hn & Hcases).
  destruct (create_orchestration_agents st) as [[created | e0] st1];
    cbn [fst snd] in *.
  - destruct Hcases as [(f & w & c & g & Hout & -> & Hu)
                       | (e & f & w & c & g & rest & Hout & Hstop & _ & Hu)];
      injection Hout as ->.
    + right. exists f, w, c, g. cbv zeta.
      unfold with_session, logged, shown. cbn [world calls ui session].
      destruct (conversations_start remote f user_prompt (Some handoff_mode) (world st1))
        as [r w'].
      exists r. unfold orchestration_outcome.
      destruct (response <- r ;; process_orchestration_response (registry f w c g) response)
        as [turn | e]; cbn [fst snd session calls ui push_orchestration
                            set_orchestration_history orchestration_history].
      all: rewrite Hs, Hc, Hu, <- !app_assoc.
      all: repeat split.
      now rewrite app_nil_r.
    + left. cbn [fst snd]. split; [reflexivity | ]. split; [now rewrite Hs | ].
      now exists delta, e.
  - destruct Hcases as [(f & w & c & g & Hout & _) | (e & f & w & c & g & rest & Hout & _)];
      discriminate.
Qed.

(** ** Text and tool executions of an orchestration response *)

Lemma add_tool_execution_ok (o : pyval) (ts ts' : list pyval) :
  add_tool_execution o ts = Ok ts' -> ts' = (ts ++ [tool_record o])%list.
Proof.
  unfold add_tool_execution, tool_record. intros H.
  inv_bind H. inv_bind H. inv_bind H. inv_bind H. injection H as <-.
  assert (Hname : v0 = attr_value o "name" (VStr "")).
  { apply guarded_read; [reflexivity | ]. rewrite Hv. exact Hv0. }
  subst v0. do 2 f_equal. f_equal. destruct v1.
  - inv_bind Hv2. rewrite Hv3 in *. inv_bind Hv2. destruct v1.
    + destruct (hasattr_true_getattr _ _ Hv4 eq_refl) as (d & Hd).
      cbn [bind] in Hv2. rewrite Hd in *. congruence.
    + destruct (hasattr_false_getattr _ _ Hv4) as (e & ->). congruence.
  - destruct (hasattr_false_getattr _ _ Hv1) as (e & ->). congruence.
Qed.

Lemma process_orchestration_output_fields (agent_ids : list (string * string))
  (o : pyval) (acc acc' : orchestration_turn) :
  process_orchestration_output agent_ids o acc = Ok acc' ->
  primary_response acc' =
    primary_response acc ++
    (if has_type o "message.output" then join (text_fragments o) else "") /\
  tool_executions acc' = (tool_executions acc ++ tool_records [o])%list.
Proof.
  unfold process_orchestration_output, tool_records. simpl.
  intros H. inv_bind H. apply output_type_is_ok in Hv. rewrite <- Hv. destruct v.
  - inv_bind H. injection H as <-. simpl.
    rewrite (has_type_exclusive o "message.output" "tool.execution");
      [ | now symmetry | reflexivity].
    split; [now apply add_message_output_ok | now rewrite app_nil_r].
  - rewrite append_empty_r. inv_bind H. apply output_type_is_ok in Hv0. destruct v.
    + inv_bind H. injection H as <-. simpl.
      rewrite (has_type_exclusive o "handoff.execution" "tool.execution");
        [ | now symmetry | reflexivity].
      split; [reflexivity | now rewrite app_nil_r].
    + inv_bind H. apply output_type_is_ok in Hv1. rewrite <- Hv1. destruct v.
      * inv_bind H. injection H as <-. simpl. split; [reflexivity | ].
        now apply add_tool_execution_ok.
      * injection H as <-. split; [reflexivity | now rewrite app_nil_r].
Qed.

Lemma tool_records_app (xs ys : list pyval) :
  tool_records (xs ++ ys) = (tool_records xs ++ tool_records ys)%list.
Proof. unfold tool_records. apply flat_map_app. Qed.

Lemma for_each_orchestration_fields (agent_ids : list (string * string))
  (outs : list pyval) (acc t : orchestration_turn) :
  for_each outs (process_orchestration_output agent_ids) acc = Ok t ->
  primary_response t = primary_response acc ++ normalized_text outs /\
  tool_executions t = (tool_executions acc ++ tool_records outs)%list.
Proof.
  revert acc. induction outs as [ | o outs IH]; intros acc H; simpl in H.
  - injection H as <-. unfold normalized_text, tool_records. simpl.
    now rewrite append_empty_r, app_nil_r.
  - inv_bind H. apply process_orchestration_output_fields in Hv.
    destruct Hv as [Ht Hx]. apply IH in H. destruct H as [-> ->].
    rewrite Ht, Hx, normalized_text_cons, append_assoc.
    change (o :: outs) with ([o] ++ outs)%list.
    now rewrite tool_records_app, app_assoc.
Qed.

(** X9.  What the orchestration page makes of a response, besides the
    handoffs: whenever the loop ends, the content is the text of the
    message-output entries, in payload order, and the tool executions are
    one record for every tool-execution entry, in payload order, holding
    the name of the tool (the empty text when there is none) and its
    info: the instance dictionary of an info object, the info itself when
    it has no such dictionary (as a mapping has not), the empty mapping
    when the entry has no info.  On a well-formed payload the loop does
    end. *)
Theorem orchestration_turn_extracted (agent_ids : list (string * string))
  (r : response) :
  (forall turn,
      process_orchestration_response agent_ids r = Ok turn ->
      primary_response turn = normalized_text (outputs r) /\
      tool_executions turn = tool_records (outputs r)) /\
  (forallb well_formed_output (outputs r) = true ->
   exists turn,
     process_orchestration_response agent_ids r = Ok turn /\
     primary_response turn = normalized_text (outputs r) /\
     tool_executions turn = tool_records (outputs r)).
Proof.
  assert (H : forall turn,
             process_orchestration_response agent_ids r = Ok turn ->
             primary_response turn = normalized_text (outputs r) /\
             tool_executions turn = tool_records (outputs r)).
  { intros turn H. unfold process_orchestration_response in H.
    now apply for_each_orchestration_fields in H. }
  split; [exact H | ].
  intros Hwf.
  destruct (for_each_total (process_orchestration_output agent_ids) well_formed_output
              (outputs r)
              (fun o acc => process_orchestration_output_total agent_ids o acc) Hwf
              {| primary_response := ""; handoffs := []; tool_executions := [] |})
    as (turn & Hturn).
  exists turn. split; [exact Hturn | now apply H].
Qed.

(** ** Text and sources of a web search response ([web_search.py]) *)

Lemma eq_str_other (v : pyval) (s s' : string) :
  eq_str v s = true -> String.eqb s s' = false -> eq_str v s' = false.
Proof. intros H Hne. apply eq_str_true in H. subst. exact Hne. Qed.

Lemma add_search_item_ok (item : pyval) (text text' : string)
  (sources sources' : list pyval) :
  add_search_item item (text, sources) = Ok (text', sources') ->
  text' = text ++ item_text item /\
  sources' = (sources ++ if is_source_item item then [source_record item] else [])%list.
Proof.
  unfold add_search_item, item_text, is_text_item, text_fragment, is_source_item,
    source_record, field_or_empty.
  intros H. inv_bind H. destruct v.
  - (* key/value access *)
    destruct item; simpl in Hv; try discriminate.
    + simpl in H. simpl.
      destruct (lookup "type" kvs) as [ty | ]; simpl in H.
      * destruct (eq_str ty "text") eqn:Ety.
        -- rewrite (eq_str_other _ _ "tool_reference" Ety eq_refl).
           assert (Hs : sources' = (sources ++ [])%list /\
                        text' = text ++ match lookup "text" kvs with
                                        | Some (VStr s) => s
                                        | _ => ""
                                        end).
           { destruct (lookup "text" kvs) as [t | ]; simpl in H.
             - inv_bind H. apply str_iadd_ok in Hv0. destruct Hv0 as (s & -> & ->).
               injection H as <- <-. now rewrite app_nil_r.
             - injection H as <- <-. now rewrite app_nil_r. }
           destruct Hs as [-> ->]. destruct (lookup "tool" kvs); now split.
        -- rewrite append_empty_r. destruct (eq_str ty "tool_reference").
           ++ destruct (lookup "tool" kvs) as [tool | ]; simpl in H.
              ** destruct (is_web_search_tool tool).
                 --- destruct (lookup "title" kvs), (lookup "url" kvs),
                       (lookup "source" kvs); simpl in H; injection H as <- <-;
                       now split.
                 --- injection H as <- <-. now rewrite app_nil_r.
              ** injection H as <- <-. now rewrite app_nil_r.
           ++ injection H as <- <-.
              destruct (lookup "tool" kvs); simpl; now rewrite app_nil_r.
      * injection H as <- <-. now rewrite append_empty_r, app_nil_r.
    + unfold method_get in H.
      destruct (getattr (VObj attrs) "get") as [g | e] eqn:Hg; simpl in H.
      * discriminate.
      * simpl in Hg, Hv. rewrite Hg in Hv.
        destruct (exn_class_eqb (exn_cls e) AttributeError); discriminate.
  - (* attribute access *)
    rewrite (hasattr_get_false_not_dict _ Hv).
    inv_bind H. destruct v.
    + inv_bind H. rewrite Hv1. inv_bind H. destruct v0.
      * (* a text with its text *)
        destruct (eq_str v "text") eqn:Ety; [ | discriminate].
        rewrite (eq_str_other _ _ "tool_reference" Ety eq_refl).
        inv_bind H. rewrite Hv3. inv_bind H. apply str_iadd_ok in Hv4.
        destruct Hv4 as (s & -> & ->). injection H as <- <-.
        destruct (getattr item "tool"); simpl; now rewrite app_nil_r.
      * assert (Htext : (if eq_str v "text"
                         then match match getattr item "text" with
                                    | Ok v' => Some v'
                                    | Raise _ => None
                                    end with
                              | Some (VStr s) => s
                              | _ => ""
                              end
                         else "") = "").
        { destruct (eq_str v "text"); [ | reflexivity].
          destruct (hasattr_false_getattr _ _ Hv2) as (e & ->). reflexivity. }
        rewrite Htext, append_empty_r. clear Htext Hv2.
        inv_bind H. rewrite Hv1 in Hv2. injection Hv2 as <-.
        inv_bind H. destruct v0.
        -- destruct (eq_str v "tool_reference"); [ | discriminate].
           inv_bind H. rewrite Hv2 in Hv3. injection Hv3 as <-.
           destruct (hasattr_true_getattr _ _ Hv2 eq_refl) as (tool & Htool).
           rewrite Htool in *. cbn [bind andb] in *.
           destruct (is_web_search_tool tool).
           ++ inv_bind H. inv_bind H. inv_bind H. injection H as <- <-.
              unfold attr_or_empty in Hv3, Hv4, Hv5.
              apply (guarded_read _ "title" _ _ eq_refl) in Hv3.
              apply (guarded_read _ "url" _ _ eq_refl) in Hv4.
              apply (guarded_read _ "source" _ _ eq_refl) in Hv5.
              unfold attr_value in Hv3, Hv4, Hv5. subst.
              split; [reflexivity | ]. do 2 f_equal.
              destruct (getattr item "title"), (getattr item "url"),
                (getattr item "source"); reflexivity.
           ++ injection H as <- <-. now rewrite app_nil_r.
        -- injection H as <- <-. split; [reflexivity | ].
           destruct (eq_str v "tool_reference").
           ++ destruct (hasattr_false_getattr _ _ Hv2) as (e & ->).
              simpl. now rewrite app_nil_r.
           ++ destruct (getattr item "tool"); simpl; now rewrite app_nil_r.
    + destruct (hasattr_false_getattr _ _ Hv0) as (e & ->).
      injection H as <- <-. now rewrite append_empty_r, app_nil_r.
Qed.

Lemma for_each_search_items_ok (items : list pyval) (text text' : string)
  (sources sources' : list pyval) :
  for_each items add_search_item (text, sources) = Ok (text', sources') ->
  text' = text ++ join (map item_text items) /\
  sources' = (sources ++ map source_record (filter is_source_item items))%list.
Proof.
  revert text sources.
  induction items as [ | item items IH]; intros text sources H; simpl in H.
  - injection H as <- <-. simpl. now rewrite append_empty_r, app_nil_r.
  - inv_bind H. destruct v as [text1 sources1].
    apply add_search_item_ok in Hv. destruct Hv as [-> ->].
    apply IH in H. destruct H as [-> ->]. simpl.
    rewrite append_assoc, <- app_assoc. split; [reflexivity | ].
    now destruct (is_source_item item).
Qed.

Lemma process_search_output_ok (o : pyval) (text text' : string)
  (sources sources' : list pyval) :
  process_search_output o (text, sources) = Ok (text', sources') ->
  text' = text ++ (if has_type o "message.output" then join (text_fragments o) else "") /\
  sources' = (sources ++ map source_record (filter is_source_item (content_items o)))%list.
Proof.
  unfold process_search_output, content_items, text_fragments. intros H.
  inv_bind H. apply output_type_is_ok in Hv. rewrite <- Hv. destruct v.
  - inv_bind H. rewrite Hv0. cbn [fst snd] in H.
    destruct v; simpl in H;
      try (injection H as <- <-; simpl; now rewrite append_empty_r, app_nil_r).
    apply for_each_search_items_ok in H. now rewrite join_item_texts.
  - injection H as <- <-. simpl. now rewrite append_empty_r, app_nil_r.
Qed.

Lemma source_records_cons (o : pyval) (outs : list pyval) :
  source_records (o :: outs) =
  (map source_record (filter is_source_item (content_items o)) ++ source_records outs)%list.
Proof. unfold source_records. simpl. now rewrite filter_app, map_app. Qed.

Lemma for_each_search_ok (outs : list pyval) (text text' : string)
  (sources sources' : list pyval) :
  for_each outs process_search_output (text, sources) = Ok (text', sources') ->
  text' = text ++ normalized_text outs /\
  sources' = (sources ++ source_records outs)%list.
Proof.
  revert text sources.
  induction outs as [ | o outs IH]; intros text sources H; simpl in H.
  - injection H as <- <-. unfold normalized_text, source_records. simpl.
    now rewrite append_empty_r, app_nil_r.
  - inv_bind H. destruct v as [text1 sources1].
    apply process_search_output_ok in Hv. destruct Hv as [-> ->].
    apply IH in H. destruct H as [-> ->].
    now rewrite normalized_text_cons, source_records_cons, append_assoc, app_assoc.
Qed.

Lemma add_search_item_total (item : pyval) (acc : string * list pyval) :
  plain item && text_item_ok item = true ->
  exists acc', add_search_item item acc = Ok acc'.
Proof.
  intros H. apply andb_prop in H. destruct H as [Hp Hok].
  unfold text_item_ok in Hok. apply andb_prop in Hok. destruct Hok as [Hget Htext].
  unfold add_search_item. destruct acc as [text sources]. destruct item; simpl; eauto.
  - (* a mapping *)
    unfold is_text_item in Htext. simpl in Htext.
    destruct (lookup "type" kvs) as [ty | ]; simpl; eauto.
    destruct (eq_str ty "text").
    + destruct (lookup "text" kvs) as [t | ]; simpl; eauto.
      destruct t; try discriminate. simpl. eauto.
    + destruct (eq_str ty "tool_reference"); eauto.
      destruct (lookup "tool" kvs) as [tool | ]; simpl; eauto.
      destruct (is_web_search_tool tool); eauto.
      destruct (lookup "title" kvs), (lookup "url" kvs), (lookup "source" kvs);
        simpl; eauto.
  - (* an object *)
    simpl in Hget. destruct (lookup "get" attrs) eqn:Hg; [discriminate | ].
    assert (Hnr : forall n e, lookup n attrs <> Some (Raise e)).
    { intros n e Hl.
      pose proof (lookup_forallb
                    (fun r => match r with Ok v' => plain v' | Raise _ => false end)
                    attrs n (Raise e) Hp Hl).
      discriminate. }
    unfold is_text_item, item_field in Htext. simpl in Htext.
    unfold attr_or_empty. simpl.
    destruct (lookup "type" attrs) as [[ty | e] | ] eqn:Hty; simpl; eauto;
      [ | now destruct (Hnr _ _ Hty)].
    destruct (eq_str ty "text").
    + destruct (lookup "text" attrs) as [[t | e] | ] eqn:Htx; simpl; eauto.
      * destruct t; try discriminate; simpl; eauto.
      * now destruct (Hnr _ _ Htx).
      * destruct (eq_str ty "tool_reference"); simpl; eauto.
        destruct (lookup "tool" attrs) as [[tool | e] | ] eqn:Htl; simpl; eauto;
          [ | now destruct (Hnr _ _ Htl)].
        destruct (is_web_search_tool tool); eauto.
        destruct (lookup "title" attrs) as [[? | ?] | ] eqn:H1;
          destruct (lookup "url" attrs) as [[? | ?] | ] eqn:H2;
          destruct (lookup "source" attrs) as [[? | ?] | ] eqn:H3;
          simpl; eauto;
          solve [ now destruct (Hnr _ _ H1) | now destruct (Hnr _ _ H2)
                | now destruct (Hnr _ _ H3) ].
    + simpl. destruct (eq_str ty "tool_reference"); simpl; eauto.
      destruct (lookup "tool" attrs) as [[tool | e] | ] eqn:Htl; simpl; eauto;
        [ | now destruct (Hnr _ _ Htl)].
      destruct (is_web_search_tool tool); eauto.
      destruct (lookup "title" attrs) as [[? | ?] | ] eqn:H1;
        destruct (lookup "url" attrs) as [[? | ?] | ] eqn:H2;
        destruct (lookup "source" attrs) as [[? | ?] | ] eqn:H3;
        simpl; eauto;
        solve [ now destruct (Hnr _ _ H1) | now destruct (Hnr _ _ H2)
              | now destruct (Hnr _ _ H3) ].
Qed.

Lemma forallb_items_ok (items : list pyval) :
  forallb plain items = true -> forallb text_item_ok items = true ->
  forallb (fun item => plain item && text_item_ok item) items = true.
Proof.
  induction items as [ | x xs IH]; simpl; [reflexivity | ].
  intros Hp Ht. apply andb_prop in Hp, Ht. destruct Hp as [-> Hp], Ht as [-> Ht].
  simpl. now apply IH.
Qed.

Lemma process_search_output_total (o : pyval) (acc : string * list pyval) :
  well_formed_output o = true -> exists acc', process_search_output o acc = Ok acc'.
Proof.
  unfold well_formed_output. intros H.
  apply andb_prop in H. destruct H as [H _].
  apply andb_prop in H. destruct H as [Hp Hm].
  unfold process_search_output. rewrite (output_type_is_plain _ _ Hp).
  unfold message_ok in Hm.
  destruct (has_type o "message.output"); simpl; eauto.
  destruct (getattr o "content") as [content | e] eqn:Hc; [ | discriminate].
  simpl. pose proof (plain_getattr _ _ _ Hp Hc) as Hpc.
  destruct content; simpl; eauto.
  apply (for_each_total add_search_item (fun item => plain item && text_item_ok item)).
  - intros item acc'. apply add_search_item_total.
  - now apply forallb_items_ok.
Qed.

(** X10.  What the web search page makes of a response: whenever the
    loop ends, the content is the text of the message-output entries and
    the sources are one record for every item of their content lists that
    is a tool reference of the tool [web_search] or [web_search_premium],
    in payload order, with the empty text for a title, a url or a source
    the item does not have; references of other tools and items of other
    types leave no source.  On a well-formed response the exchange ends
    with that turn after the one request that started the conversation. *)
Theorem web_search_turn_extracted :
  (forall outs text sources,
      for_each outs process_search_output ("", []) = Ok (text, sources) ->
      text = normalized_text outs /\ sources = source_records outs) /\
  (forall agent user_prompt st response w,
      conversations_start remote agent user_prompt None (world st) = (Ok response, w) ->
      forallb well_formed_output (outputs response) = true ->
      web_search_exchange agent user_prompt st =
      (Ok (assistant_turn_ws (normalized_text (outputs response))
             (source_records (outputs response))),
       logged st w (ConversationsStart agent user_prompt None, Ok (RResponse response)))).
Proof.
  split.
  - intros outs text sources H. now apply for_each_search_ok in H.
  - intros agent user_prompt st response w Hstart Hwf.
    unfold web_search_exchange, start_conversation, call, bindM, lift.
    rewrite Hstart. cbn [map_result].
    destruct (for_each_total process_search_output well_formed_output (outputs response)
                process_search_output_total Hwf ("", [])) as ([text sources] & H).
    rewrite H. apply for_each_search_ok in H. destruct H as [-> ->]. reflexivity.
Qed.

(** ** Text and image file of an image response ([image_generation.py]) *)

Lemma with_text_same (r : image_result) : with_text (response_text r) r = r.
Proof. now destruct r. Qed.

Lemma with_text_empty (r : image_result) : with_text (response_text r ++ "") r = r.
Proof. rewrite append_empty_r. apply with_text_same. Qed.

Lemma add_image_item_ok (item : pyval) (acc acc' : image_result) :
  add_image_item item acc = Ok acc' ->
  response_text acc' = response_text acc ++ item_text item /\
  (is_image_file item = false ->
   acc' = with_text (response_text acc ++ item_text item) acc).
Proof.
  unfold add_image_item, item_text, is_text_item, text_fragment, is_image_file.
  intros H. inv_bind H. destruct v.
  - (* key/value access *)
    destruct item; simpl in Hv; try discriminate.
    + simpl in H. simpl.
      destruct (lookup "type" kvs) as [ty | ]; simpl in H.
      * destruct (eq_str ty "text") eqn:Ety.
        -- destruct (lookup "text" kvs) as [t | ]; simpl in H.
           ++ inv_bind H. apply str_iadd_ok in Hv0. destruct Hv0 as (s & -> & ->).
              injection H as <-. now split.
           ++ injection H as <-. now split.
        -- destruct (eq_str ty "tool_file").
           ++ destruct (lookup "tool" kvs) as [tool | ]; simpl in H.
              ** destruct (eq_str tool "image_generation").
                 --- destruct (lookup "file_id" kvs), (lookup "file_name" kvs),
                       (lookup "file_type" kvs); simpl in H; injection H as <-;
                       simpl; rewrite append_empty_r; (split; [reflexivity | discriminate]).
                 --- injection H as <-. now rewrite with_text_empty, append_empty_r.
              ** injection H as <-. now rewrite with_text_empty, append_empty_r.
           ++ injection H as <-. now rewrite with_text_empty, append_empty_r.
      * injection H as <-. now rewrite with_text_empty, append_empty_r.
    + unfold method_get in H.
      destruct (getattr (VObj attrs) "get") as [g | e] eqn:Hg; simpl in H.
      * discriminate.
      * simpl in Hg, Hv. rewrite Hg in Hv.
        destruct (exn_class_eqb (exn_cls e) AttributeError); discriminate.
  - (* attribute access *)
    rewrite (hasattr_get_false_not_dict _ Hv).
    inv_bind H. destruct v.
    + inv_bind H. rewrite Hv1. inv_bind H. destruct v0.
      * destruct (eq_str v "text") eqn:Ety; [ | discriminate].
        inv_bind H. rewrite Hv3. inv_bind H. apply str_iadd_ok in Hv4.
        destruct Hv4 as (s & -> & ->). injection H as <-. now split.
      * assert (Htext : (if eq_str v "text"
                         then match match getattr item "text" with
                                    | Ok v' => Some v'
                                    | Raise _ => None
                                    end with
                              | Some (VStr s) => s
                              | _ => ""
                              end
                         else "") = "").
        { destruct (eq_str v "text"); [ | reflexivity].
          destruct (hasattr_false_getattr _ _ Hv2) as (e & ->). reflexivity. }
        rewrite Htext, with_text_empty, append_empty_r. clear Htext Hv2.
        inv_bind H. rewrite Hv1 in Hv2. injection Hv2 as <-.
        inv_bind H. destruct v0.
        -- destruct (eq_str v "tool_file"); [ | discriminate].
           inv_bind H. rewrite Hv3. cbn [andb].
           destruct (eq_str v0 "image_generation").
           ++ inv_bind H. inv_bind H. inv_bind H. injection H as <-.
              split; [reflexivity | discriminate].
           ++ injection H as <-. now split.
        -- injection H as <-. now split.
    + destruct (hasattr_false_getattr _ _ Hv0) as (e & ->).
      injection H as <-. now rewrite with_text_empty, append_empty_r.
Qed.

Lemma with_text_twice (t t' : string) (r : image_result) :
  with_text t' (with_text t r) = with_text t' r.
Proof. reflexivity. Qed.

Lemma for_each_image_items_ok (items : list pyval) (acc acc' : image_result) :
  for_each items add_image_item acc = Ok acc' ->
  response_text acc' = response_text acc ++ join (map item_text items) /\
  (existsb is_image_file items = false -> acc' = with_text (response_text acc') acc).
Proof.
  revert acc. induction items as [ | item items IH]; intros acc H; simpl in H.
  - injection H as <-. simpl. rewrite append_empty_r. split; [reflexivity | ].
    intros _. now rewrite with_text_same.
  - inv_bind H. apply add_image_item_ok in Hv. destruct Hv as [Ht Hf].
    apply IH in H. destruct H as [Ht' Hf']. simpl. split.
    + now rewrite Ht', Ht, append_assoc.
    + intros Hno. apply orb_false_elim in Hno. destruct Hno as [Hitem Hitems].
      rewrite (Hf' Hitems) at 1. rewrite (Hf Hitem). apply with_text_twice.
Qed.

Lemma process_image_output_ok (o : pyval) (acc acc' : image_result) :
  process_image_output o acc = Ok acc' ->
  response_text acc' =
    response_text acc ++
    (if has_type o "message.output" then join (text_fragments o) else "") /\
  (existsb is_image_file (content_items o) = false ->
   acc' = with_text (response_text acc') acc).
Proof.
  unfold process_image_output, content_items, text_fragments. intros H.
  inv_bind H. apply output_type_is_ok in Hv. rewrite <- Hv. destruct v.
  - inv_bind H. rewrite Hv0.
    destruct v; simpl in H;
      try (injection H as <-; simpl; rewrite append_empty_r;
           split; [reflexivity | intros _; now rewrite with_text_same]).
    + injection H as <-. simpl. now rewrite append_empty_r.
    + apply for_each_image_items_ok in H. now rewrite join_item_texts.
  - injection H as <-. rewrite append_empty_r. split; [reflexivity | ].
    intros _. now rewrite with_text_same.
Qed.

Lemma for_each_image_ok (outs : list pyval) (acc acc' : image_result) :
  for_each outs process_image_output acc = Ok acc' ->
  response_text acc' = response_text acc ++ normalized_text outs /\
  (existsb is_image_file (flat_map content_items outs) = false ->
   acc' = with_text (response_text acc') acc).
Proof.
  revert acc. induction outs as [ | o outs IH]; intros acc H; simpl in H.
  - injection H as <-. unfold normalized_text. simpl. rewrite append_empty_r.
    split; [reflexivity | ]. intros _. now rewrite with_text_same.
  - inv_bind H. apply process_image_output_ok in Hv. destruct Hv as [Ht Hf].
    apply IH in H. destruct H as [Ht' Hf']. split.
    + now rewrite Ht', Ht, normalized_text_cons, append_assoc.
    + simpl. rewrite existsb_app. intros Hno.
      apply orb_false_elim in Hno. destruct Hno as [Ho Houts].
      rewrite (Hf' Houts) at 1. rewrite (Hf Ho). apply with_text_twice.
Qed.

(** X11.  What the image page makes of a response: whenever the loop
    ends, the text is the text of the message-output entries, and when no
    item of their content lists is a tool file of the tool
    [image_generation], the file id, the file name and the file type are
    still [None], so that nothing is downloaded. *)
Theorem image_response_extracted (outs : list pyval) (found : image_result) :
  for_each outs process_image_output no_image = Ok found ->
  response_text found = normalized_text outs /\
  (existsb is_image_file (flat_map content_items outs) = false ->
   found = with_text (normalized_text outs) no_image /\
   truthy (image_file_id found) = false).
Proof.
  intros H. apply for_each_image_ok in H. destruct H as [Ht Hf].
  simpl in Ht. split; [exact Ht | ].
  intros Hno. rewrite <- Ht. rewrite (Hf Hno). split; reflexivity.
Qed.

(** X12.  One round trip of the image page, once the conversation has
    started and the loop has ended with [found].  Without a file id nothing
    is downloaded and the turn carries no image.  With a file id exactly
    one download is requested; when it fails the exchange does not fail:
    the failure is shown on screen and the turn is the normal turn, with
    its text, file name and file type, whose image is [None]. *)
Theorem image_download (agent user_prompt : string) (i : Z) (st : state World)
  (response : response) (w : World) (found : image_result) :
  conversations_start remote agent user_prompt None (world st) = (Ok response, w) ->
  for_each (outputs response) process_image_output no_image = Ok found ->
  let st1 :=
    logged st w (ConversationsStart agent user_prompt None, Ok (RResponse response)) in
  (truthy (image_file_id found) = false ->
   image_exchange agent user_prompt i st = (Ok (assistant_turn_img i found VNone), st1)) /\
  (truthy (image_file_id found) = true ->
   forall r w',
     files_download remote (image_file_id found) w = (r, w') ->
     let st2 := logged st1 w' (FilesDownload (image_file_id found), map_result RFile r) in
     image_exchange agent user_prompt i st =
     match r with
     | Ok data => (Ok (assistant_turn_img i found (VBytes data)), st2)
     | Raise e =>
         (Ok (assistant_turn_img i found VNone),
          shown st2
            (StError ("Failed to download image " ++ image_number i ++ "/2: " ++
                      exn_msg e)))
     end).
Proof.
  intros Hstart Hfound st1.
  assert (Hrun : image_exchange agent user_prompt i st =
                 bindM
                   (if truthy (image_file_id found) then
                      try_except
                        (bindM
                           (call (FilesDownload (image_file_id found)) RFile
                              (files_download remote (image_file_id found)))
                           (fun data => ret (VBytes data)))
                        (fun e =>
                           bindM
                             (st_error ("Failed to download image " ++ image_number i ++
                                        "/2: " ++ exn_msg e))
                             (fun _ => ret VNone))
                    else ret VNone)
                   (fun image_data => ret (assistant_turn_img i found image_data)) st1).
  { unfold image_exchange, start_conversation, call.
    unfold bindM at 1. rewrite Hstart. cbn [map_result].
    unfold bindM at 1, lift. fold no_image. now rewrite Hfound. }
  rewrite Hrun. split.
  - intros ->. reflexivity.
  - intros -> r w' Hdown st2. unfold bindM, try_except, call. cbn [world st1 logged].
    rewrite Hdown. destruct r as [data | e]; reflexivity.
Qed.

(** ** Text and code blocks of a code interpreter response
    ([code_interpreter.py]) *)

Lemma add_code_text_item_ok (item : pyval) (text text' : string) :
  add_code_text_item item text = Ok text' -> text' = text ++ item_text item.
Proof.
  unfold add_code_text_item, item_text, is_text_item, text_fragment.
  intros H. inv_bind H. destruct v.
  - (* key/value access *)
    destruct item; simpl in Hv; try discriminate.
    + simpl in H. simpl.
      destruct (lookup "type" kvs) as [ty | ]; simpl in H.
      * destruct (eq_str ty "text").
        -- destruct (lookup "text" kvs) as [t | ]; simpl in H.
           ++ apply str_iadd_ok in H. destruct H as (s & -> & ->). reflexivity.
           ++ injection H as <-. reflexivity.
        -- injection H as <-. now rewrite append_empty_r.
      * injection H as <-. now rewrite append_empty_r.
    + unfold method_get in H.
      destruct (getattr (VObj attrs) "get") as [g | e] eqn:Hg; simpl in H.
      * discriminate.
      * simpl in Hg, Hv. rewrite Hg in Hv.
        destruct (exn_class_eqb (exn_cls e) AttributeError); discriminate.
  - (* attribute access *)
    rewrite (hasattr_get_false_not_dict _ Hv).
    inv_bind H. apply output_type_is_ok in Hv0. unfold has_type in Hv0.
    destruct (getattr item "type") as [ty | e].
    + rewrite <- Hv0. destruct v.
      * inv_bind H. destruct v.
        -- inv_bind H. rewrite Hv2. apply str_iadd_ok in H.
           destruct H as (s & -> & ->). reflexivity.
        -- destruct (hasattr_false_getattr _ _ Hv1) as (e & ->).
           injection H as <-. now rewrite append_empty_r.
      * injection H as <-. now rewrite append_empty_r.
    + subst v. injection H as <-. now rewrite append_empty_r.
Qed.

Lemma for_each_code_text_items_ok (items : list pyval) (text text' : string) :
  for_each items add_code_text_item text = Ok text' ->
  text' = text ++ join (map item_text items).
Proof.
  revert text. induction items as [ | item items IH]; intros text H; simpl in H.
  - injection H as <-. simpl. now rewrite append_empty_r.
  - inv_bind H. apply add_code_text_item_ok in Hv. apply IH in H.
    subst. simpl. now rewrite append_assoc.
Qed.

Lemma info_field_ok (info : pyval) (name : string) (v : pyval) :
  String.eqb name "get" = false ->
  info_field info name = Ok v -> v = code_field info name.
Proof.
  unfold info_field, code_field, attr_value. intros Hn H. inv_bind H. destruct v0.
  - destruct info; simpl in Hv; try congruence; now rewrite H.
  - inv_bind H. destruct v0.
    + destruct info; simpl in Hv0; try discriminate.
      * simpl in H. destruct (lookup name kvs) as [x | ]; simpl in H.
        -- destruct (truthy x); congruence.
        -- congruence.
      * unfold method_get in H.
        destruct (getattr (VObj attrs) "get") as [g | e] eqn:Hg; simpl in H.
        -- discriminate.
        -- simpl in Hg, Hv0. rewrite Hg in Hv0.
           destruct (exn_class_eqb (exn_cls e) AttributeError); discriminate.
    + destruct (hasattr_false_getattr _ _ Hv) as (e & He). rewrite He.
      destruct info; simpl in Hv0; try discriminate; congruence.
Qed.

Lemma add_code_block_ok (o : pyval) (blocks blocks' : list pyval) :
  has_type o "tool.execution" = true ->
  add_code_block o blocks = Ok blocks' -> blocks' = (blocks ++ code_records o)%list.
Proof.
  unfold add_code_block, code_records. intros -> H.
  inv_bind H. inv_bind H.
  assert (Hname : v0 = match getattr o "name" with
                       | Ok name => eq_str name "code_interpreter"
                       | Raise _ => false
                       end).
  { destruct v.
    - inv_bind Hv0. rewrite Hv1. congruence.
    - destruct (hasattr_false_getattr _ _ Hv) as (e & ->). congruence. }
  clear Hv Hv0 v. destruct (getattr o "name") as [name | e]; subst v0.
  - destruct (eq_str name "code_interpreter").
    + inv_bind H. destruct v.
      * inv_bind H. rewrite Hv0. inv_bind H. inv_bind H. injection H as <-.
        apply (info_field_ok _ "code" _ eq_refl) in Hv1.
        apply (info_field_ok _ "code_output" _ eq_refl) in Hv2. now subst.
      * destruct (hasattr_false_getattr _ _ Hv) as (e & ->).
        injection H as <-. now rewrite app_nil_r.
    + injection H as <-. destruct (getattr o "info"); now rewrite app_nil_r.
  - injection H as <-. now rewrite app_nil_r.
Qed.

Lemma process_code_output_ok (o : pyval) (text text' : string)
  (blocks blocks' : list pyval) :
  process_code_output o (text, blocks) = Ok (text', blocks') ->
  text' = text ++ (if has_type o "message.output" then join (text_fragments o) else "") /\
  blocks' = (blocks ++ code_records o)%list.
Proof.
  unfold process_code_output, text_fragments. intros H.
  inv_bind H. apply output_type_is_ok in Hv. rewrite <- Hv. destruct v.
  - assert (Hno : code_records o = []).
    { unfold code_records.
      now rewrite (has_type_exclusive o "message.output" "tool.execution"). }
    rewrite Hno, app_nil_r. inv_bind H. rewrite Hv0.
    destruct v; simpl in H;
      try (injection H as <- <-; simpl; now rewrite append_empty_r).
    inv_bind H. injection H as <- <-.
    apply for_each_code_text_items_ok in Hv1. now rewrite join_item_texts.
  - rewrite append_empty_r. inv_bind H. apply output_type_is_ok in Hv0. destruct v.
    + inv_bind H. injection H as <- <-. split; [reflexivity | ].
      now apply add_code_block_ok.
    + injection H as <- <-. unfold code_records. rewrite <- Hv0.
      now rewrite app_nil_r.
Qed.

Lemma for_each_code_ok (outs : list pyval) (text text' : string)
  (blocks blocks' : list pyval) :
  for_each outs process_code_output (text, blocks) = Ok (text', blocks') ->
  text' = text ++ normalized_text outs /\
  blocks' = (blocks ++ flat_map code_records outs)%list.
Proof.
  revert text blocks.
  induction outs as [ | o outs IH]; intros text blocks H; simpl in H.
  - injection H as <- <-. unfold normalized_text. simpl.
    now rewrite append_empty_r, app_nil_r.
  - inv_bind H. destruct v as [text1 blocks1].
    apply process_code_output_ok in Hv. destruct Hv as [-> ->].
    apply IH in H. destruct H as [-> ->]. simpl.
    now rewrite normalized_text_cons, append_assoc, <- app_assoc.
Qed.

(** X13.  What the code interpreter page makes of a response: when the
    exchange ends without an exception, one conversation was started and
    the turn holds the text of the message-output entries and one code
    block for every tool-execution entry of the tool [code_interpreter]
    that carries an info, in payload order; executions of other tools
    leave no block.  The code and the output of a block are read from the
    attributes of an info object or from the entries of an info mapping,
    and are the empty text when the info has none or, for a mapping, a
    falsy one. *)
Theorem code_turn_extracted (agent user_prompt : string) (st st' : state World)
  (turn : pyval) :
  code_interpreter_exchange agent user_prompt st = (Ok turn, st') ->
  exists response w,
    conversations_start remote agent user_prompt None (world st) = (Ok response, w) /\
    st' = logged st w (ConversationsStart agent user_prompt None, Ok (RResponse response)) /\
    turn = assistant_turn_code (normalized_text (outputs response))
             (flat_map code_records (outputs response)).
Proof.
  unfold code_interpreter_exchange, start_conversation. intros H.
  inv_bindM H. apply call_ok in Hv. destruct Hv as (w & Hstart & ->).
  inv_bindM H. apply lift_ok in Hv. destruct Hv as [Hfound ->].
  injection H as <- <-. destruct v0 as [text blocks].
  apply for_each_code_ok in Hfound. destruct Hfound as [-> ->].
  now exists v, w.
Qed.

(** ** Page runs and the session *)

Lemma history_of_set (f : feature) (h : list pyval) (s : session_state) :
  history_of f (set_history_of f h s) = h.
Proof. now destruct f. Qed.

Lemma untouched_set (f : feature) (h : list pyval) (s : session_state) :
  untouched_elsewhere f s (set_history_of f h s).
Proof.
  split; [now destruct f | ].
  intros g Hg. destruct f, g; try reflexivity; now destruct Hg.
Qed.

Lemma untouched_refl (f : feature) (s : session_state) : untouched_elsewhere f s s.
Proof. now split. Qed.

Lemma untouched_trans (f : feature) (s1 s2 s3 : session_state) :
  untouched_elsewhere f s1 s2 -> untouched_elsewhere f s2 s3 ->
  untouched_elsewhere f s1 s3.
Proof.
  intros [Hk1 Hh1] [Hk2 Hh2]. split; [congruence | ].
  intros g Hg. now rewrite (Hh2 g Hg), (Hh1 g Hg).
Qed.

Lemma push_turns_history (f : feature) (turns : list pyval) (s : session_state) :
  history_of f (push_turns f turns s) = (history_of f s ++ turns)%list.
Proof.
  unfold push_turns. revert s. induction turns as [ | turn turns IH]; intros s; simpl.
  - now rewrite app_nil_r.
  - rewrite IH, history_of_set. now rewrite <- app_assoc.
Qed.

Lemma push_turns_elsewhere (f : feature) (turns : list pyval) (s : session_state) :
  untouched_elsewhere f s (push_turns f turns s).
Proof.
  unfold push_turns. revert s. induction turns as [ | turn turns IH]; intros s; simpl.
  - apply untouched_refl.
  - eapply untouched_trans; [apply untouched_set | apply IH].
Qed.

Lemma faithful_orchestration_exchange (finance : string)
  (agent_ids : list (string * string)) (user_prompt handoff_mode : string) :
  faithful (orchestration_exchange finance agent_ids user_prompt handoff_mode).
Proof.
  unfold orchestration_exchange, start_conversation.
  apply faithful_bind; [apply faithful_call | intros response].
  apply faithful_bind; [apply faithful_lift | intros turn]. apply faithful_ret.
Qed.

(** What a submit does to the session: it appends turns to the history
    of its feature. *)
Lemma submit_run_session (f : feature) (user_prompt : string) (choice : bool)
  (st : state World) :
  exists turns,
    session (snd (submit_run f user_prompt choice st)) = push_turns f turns (session st).
Proof.
  destruct (String.eqb user_prompt "") eqn:E.
  { exists []. destruct f; simpl;
      [unfold function_calls_submit | unfold web_search_submit
      | unfold orchestration_submit | unfold image_generation_submit];
      rewrite E; reflexivity. }
  apply String.eqb_neq in E. destruct f; simpl.
  - rewrite (function_calls_submit_run _ _ E).
    destruct (agents_create remote _ _ _ (world st)) as [[agent | e] w];
      [ | now exists []].
    cbv zeta.
    match goal with
    | |- context [function_calls_exchange agent user_prompt ?s] => set (st1 := s)
    end.
    destruct (faithful_function_calls_exchange agent user_prompt st1) as (Hs & _).
    destruct (function_calls_exchange agent user_prompt st1) as [[turn | e] st2];
      simpl in Hs |- *; rewrite Hs.
    + now exists [user_turn user_prompt; turn].
    + now exists [user_turn user_prompt; error_turn_fc e].
  - rewrite (web_search_submit_run _ _ _ E).
    destruct (agents_create remote _ _ _ (world st)) as [[agent | e] w];
      [ | now exists []].
    cbv zeta.
    match goal with
    | |- context [web_search_exchange agent user_prompt ?s] => set (st1 := s)
    end.
    destruct (faithful_web_search_exchange agent user_prompt st1) as (Hs & _).
    destruct (web_search_exchange agent user_prompt st1) as [[turn | e] st2];
      simpl in Hs |- *; rewrite Hs.
    + now exists [user_turn user_prompt; turn].
    + now exists [user_turn user_prompt; error_turn_ws e].
  - rewrite (orchestration_submit_run _ _ _ E).
    destruct (create_orchestration_agents_run st) as (Hs & _).
    destruct (create_orchestration_agents st) as [[[[finance agent_ids] | ] | e] st1];
      simpl in Hs; try (exists []; simpl; now rewrite Hs).
    cbv zeta. unfold with_session at 1. cbn [world].
    destruct (conversations_start remote finance user_prompt
                (Some (handoff_mode_of choice)) (world st1)) as [r w].
    destruct (response <- r ;; process_orchestration_response agent_ids response)
      as [turn | e]; simpl; rewrite Hs.
    + now exists [user_turn user_prompt; assistant_turn_orch turn].
    + now exists [user_turn user_prompt; error_turn_orch e].
  - destruct (agents_create remote "mistral-medium-latest" "Image Generation Agent"
                ["image_generation"] (world st)) as [[agent | e] w] eqn:Hc.
    + rewrite (image_generation_submit_run _ _ _ _ E Hc). cbn [snd].
      destruct (generate_image_run agent user_prompt 1
                  (image_second_start st w agent user_prompt)) as (_ & -> & _).
      unfold image_second_start at 2.
      destruct (generate_image_run agent user_prompt 0
                  (image_loop_start st w agent user_prompt)) as (_ & -> & _).
      eexists [user_turn user_prompt; _; _]. reflexivity.
    + exists []. unfold image_generation_submit. rewrite (eqb_empty_false _ E).
      unfold create_image_agent, create_agent, bindM, try_except, call.
      rewrite Hc. reflexivity.
Qed.

Lemma submit_run_total (f : feature) (user_prompt : string) (choice : bool)
  (st : state World) :
  exists returned, fst (submit_run f user_prompt choice st) = Ok returned.
Proof.
  destruct f; simpl.
  - apply function_calls_submit_total.
  - apply web_search_submit_total.
  - destruct (String.eqb user_prompt "") eqn:E.
    + unfold orchestration_submit. rewrite E. now exists true.
    + apply String.eqb_neq in E. rewrite (orchestration_submit_run _ _ _ E).
      destruct (create_orchestration_agents_run st) as (_ & delta & _ & _ & Hcases).
      destruct (create_orchestration_agents st) as [[[[finance agent_ids] | ] | e] st1];
        simpl in Hcases.
      * cbv zeta.
        destruct (conversations_start remote finance user_prompt _ _) as [r w].
        destruct (response <- r ;; process_orchestration_response agent_ids response);
          now exists false.
      * now exists true.
      * destruct Hcases as [(? & ? & ? & ? & H & _) | (? & ? & ? & ? & ? & ? & H & _)];
          discriminate.
  - destruct (String.eqb user_prompt "") eqn:E.
    + unfold image_generation_submit. rewrite E. now exists true.
    + apply String.eqb_neq in E.
      destruct (agents_create remote "mistral-medium-latest" "Image Generation Agent"
                  ["image_generation"] (world st)) as [[agent | e] w] eqn:Hc.
      * rewrite (image_generation_submit_run _ _ _ _ E Hc). now exists false.
      * exists true. unfold image_generation_submit. rewrite (eqb_empty_false _ E).
        unfold create_image_agent, create_agent, bindM, try_except, call.
        rewrite Hc. reflexivity.
Qed.

Lemma page_run_unfold (f : feature) (user_prompt : string) (choice submit clear : bool) :
  page_run f user_prompt choice submit clear =
  run_page (submit_run f user_prompt choice) submit clear
    (history_of f) (set_history_of f).
Proof. destruct f; reflexivity. Qed.

(** X14.  No submit handler lets an exception escape: whatever the
    service answers or refuses, and whatever a response holds, the code
    under the submit button of the function calls, web search,
    orchestration or image page ends normally, with or without an early
    [return]. *)
Theorem submit_handlers_never_raise (f : feature) (user_prompt : string)
  (choice : bool) (st : state World) :
  exists returned, fst (submit_run f user_prompt choice st) = Ok returned.
Proof. apply submit_run_total. Qed.

(** X15.  A run of the page of a feature leaves the key and the
    histories of the other features as they were, and either empties the
    history of its own feature (which takes the clear button) or only adds
    turns at its end: turns recorded before are never changed or
    dropped by a submit. *)
Theorem page_isolation (f : feature) (user_prompt : string)
  (choice submit clear : bool) (st : state World) :
  let s' := session (snd (page_run f user_prompt choice submit clear st)) in
  untouched_elsewhere f (session st) s' /\
  ((clear = true /\ history_of f s' = []) \/
   exists added, history_of f s' = (history_of f (session st) ++ added)%list).
Proof.
  rewrite page_run_unfold. unfold run_page, bindM, get_session.
  assert (Hnone : forall st0 : state World,
             session st0 = session st ->
             untouched_elsewhere f (session st) (session st0) /\
             ((clear = true /\ history_of f (session st0) = []) \/
              exists added,
                history_of f (session st0) = (history_of f (session st) ++ added)%list)).
  { intros st0 ->. split; [apply untouched_refl | ]. right. exists [].
    now rewrite app_nil_r. }
  destruct (String.eqb (api_key (session st)) ""); [now apply Hnone | ].
  assert (Hafter : forall (st1 : state World) (turns : list pyval),
             session st1 = push_turns f turns (session st) ->
             let s' :=
               session
                 (snd (match history_of f (session st1) with
                       | [] => ret tt
                       | _ :: _ =>
                           if clear then modify_session (set_history_of f []) else ret tt
                       end st1)) in
             untouched_elsewhere f (session st) s' /\
             ((clear = true /\ history_of f s' = []) \/
              exists added, history_of f s' = (history_of f (session st) ++ added)%list)).
  { intros st1 turns Hs.
    assert (Hkeep : untouched_elsewhere f (session st) (session st1) /\
                    exists added,
                      history_of f (session st1) = (history_of f (session st) ++ added)%list).
    { rewrite Hs. split; [apply push_turns_elsewhere | ].
      exists turns. apply push_turns_history. }
    destruct Hkeep as [Hu (added & Hadd)]. cbv zeta.
    destruct (history_of f (session st1)) as [ | turn history] eqn:Eh.
    - simpl. rewrite Eh. split; [exact Hu | right; now exists added].
    - destruct clear; simpl.
      + split.
        * eapply untouched_trans; [exact Hu | apply untouched_set].
        * left. split; [reflexivity | apply history_of_set].
      + rewrite Eh. split; [exact Hu | right; now exists added]. }
  destruct submit.
  - destruct (submit_run_total f user_prompt choice st) as (returned & Hr).
    destruct (submit_run_session f user_prompt choice st) as (turns & Hs).
    destruct (submit_run f user_prompt choice st) as [[b | e] st1];
      simpl in Hr, Hs; [ | discriminate].
    destruct b.
    + simpl. rewrite Hs. split; [apply push_turns_elsewhere | ].
      right. exists turns. apply push_turns_history.
    + now apply (Hafter st1 turns).
  - apply (Hafter st []). reflexivity.
Qed.

(** X16.  A page sends nothing to the service unless the key is set, the
    submit button was pressed and the prompt is not empty: in every other
    run the log of requests and the service are left as they were. *)
Theorem requests_need_key_and_prompt (f : feature) (user_prompt : string)
  (choice submit clear : bool) (st : state World) :
  api_key (session st) = "" \/ submit = false \/ user_prompt = "" ->
  calls (snd (page_run f user_prompt choice submit clear st)) = calls st /\
  world (snd (page_run f user_prompt choice submit clear st)) = world st.
Proof.
  intros H. rewrite page_run_unfold. unfold run_page, bindM, get_session.
  destruct (String.eqb (api_key (session st)) "") eqn:Ek; [now split | ].
  destruct H as [H | H]; [rewrite H in Ek; discriminate | ].
  assert (Hclear : forall st0 : state World,
             calls st0 = calls st -> world st0 = world st ->
             let out := match history_of f (session st0) with
                        | [] => ret tt
                        | _ :: _ =>
                            if clear then modify_session (set_history_of f []) else ret tt
                        end st0 in
             calls (snd out) = calls st /\ world (snd out) = world st).
  { intros st0 Hc Hw. destruct (history_of f (session st0)); [now split | ].
    destruct clear; now split. }
  destruct submit.
  - destruct H as [H | ->]; [discriminate | ].
    destruct f; now split.
  - now apply Hclear.
Qed.

(** ** The continuation loop reads without probing ([function_calls.py]) *)

Lemma hasattr_false_class (o : pyval) (name : string) :
  hasattr o name = Ok false -> raises AttributeError (getattr o name).
Proof.
  unfold raises. destruct o; simpl; intros H;
    try (eexists; reflexivity); try discriminate.
  destruct (lookup name attrs) as [[v | [cls msg]] | ]; try discriminate.
  - destruct cls; simpl in H; try discriminate. eauto.
  - destruct (String.eqb name "__dict__"); [discriminate | ]. eexists. reflexivity.
Qed.

Lemma method_get_without_get (o : pyval) (key : string) (default : pyval) :
  hasattr o "get" = Ok false -> raises AttributeError (method_get o key default).
Proof.
  intros H. destruct (hasattr_false_class _ _ H) as (msg & Hg).
  unfold method_get. destruct o; try discriminate; now rewrite Hg; exists msg.
Qed.

(** X17.  The loop over a continuation response reads its entries
    without the probes of the first loop.  An entry that has no [type]
    raises [AttributeError], and so does a message-output entry whose
    content list holds, after items that were read, an item without a
    [get] method (an object rather than a mapping); the first loop leaves
    such an entry alone and reads the text of such an item by attribute. *)
Theorem continuation_needs_mappings (o : pyval) (text : string) :
  (hasattr o "type" = Ok false ->
   raises AttributeError (add_continue_output o text) /\
   forall acc, process_initial_output o acc = Ok acc) /\
  (forall before item after text1,
      getattr o "type" = Ok (VStr "message.output") ->
      getattr o "content" = Ok (VList (before ++ item :: after)) ->
      for_each before add_continue_item text = Ok text1 ->
      hasattr item "get" = Ok false ->
      raises AttributeError (add_continue_output o text) /\
      forall t,
        getattr item "type" = Ok (VStr "text") -> getattr item "text" = Ok (VStr t) ->
        add_text_item item text1 = Ok (text1 ++ t)).
Proof.
  split.
  - intros H. split.
    + destruct (hasattr_false_class _ _ H) as (msg & Hg).
      unfold add_continue_output. rewrite Hg. now exists msg.
    + intros [current_response function_calls].
      unfold process_initial_output, output_type_is. now rewrite H.
  - intros before item after text1 Hty Hcontent Hbefore Hget. split.
    + unfold add_continue_output. rewrite Hty. cbn [bind eq_str].
      rewrite String.eqb_refl, Hcontent. cbn [bind].
      rewrite for_each_app, Hbefore. cbn [bind for_each].
      unfold add_continue_item.
      destruct (method_get_without_get item "type" VNone Hget) as (msg & ->).
      now exists msg.
    + intros t Hitem Htext. unfold add_text_item. rewrite Hget. cbn [bind].
      assert (Hprobe : forall name v, String.eqb name "get" = false ->
                         getattr item name = Ok v -> hasattr item name = Ok true).
      { intros name v Hn Hv. destruct item; simpl in *; try discriminate.
        now rewrite Hv. }
      rewrite (Hprobe "type" _ eq_refl Hitem). cbn [bind]. rewrite Hitem.
      cbn [bind eq_str]. rewrite String.eqb_refl.
      rewrite (Hprobe "text" _ eq_refl Htext). cbn [bind]. rewrite Htext.
      reflexivity.
Qed.

(** ** Results of the dispatcher *)



(** ** The defaults of the session ([utils.py]) *)

Lemma lookup_app_one {A : Type} (k k' : string) (v : A) (kvs : list (string * A)) :
  lookup k (kvs ++ [(k', v)]) =
  match lookup k kvs with
  | Some x => Some x
  | None => if String.eqb k k' then Some v else None
  end.
Proof.
  induction kvs as [ | [k0 v0] kvs IH]; simpl; [reflexivity | ].
  destruct (String.eqb k k0); [reflexivity | exact IH].
Qed.

Lemma lookup_set_if_missing (k k' : string) (d : pyval) (s : list (string * pyval)) :
  lookup k (set_if_missing k' d s) =
  match lookup k s with
  | Some x => Some x
  | None => if String.eqb k k' then Some d else None
  end.
Proof.
  unfold set_if_missing. destruct (lookup k' s) as [x | ] eqn:E.
  - destruct (lookup k s) eqn:Ek; [reflexivity | ].
    destruct (String.eqb k k') eqn:Ekk; [ | reflexivity].
    apply String.eqb_eq in Ekk. subst. congruence.
  - apply lookup_app_one.
Qed.

Lemma lookup_set_missing (k : string) (defaults s : list (string * pyval)) :
  lookup k (set_missing defaults s) =
  match lookup k s with
  | Some x => Some x
  | None => lookup k defaults
  end.
Proof.
  unfold set_missing. revert s.
  induction defaults as [ | [k' d] defaults IH]; intros s; simpl.
  - now destruct (lookup k s).
  - rewrite IH, lookup_set_if_missing. destruct (lookup k s); [reflexivity | ].
    now destruct (String.eqb k k').
Qed.

Lemma set_missing_present (defaults s : list (string * pyval)) :
  (forall k, In k (keys defaults) -> lookup k s <> None) ->
  set_missing defaults s = s.
Proof.
  unfold set_missing. induction defaults as [ | [k d] defaults IH]; simpl; intros H.
  - reflexivity.
  - assert (Hk : set_if_missing k d s = s).
    { unfold set_if_missing. destruct (lookup k s) eqn:E; [reflexivity | ].
      destruct (H k); [now left | exact E]. }
    rewrite Hk. apply IH. intros k' Hin. apply H. now right.
Qed.

Lemma init_session_state_defaults (getenv_api_key : result string)
  (s : list (string * pyval)) :
  init_session_state getenv_api_key s = set_missing (session_defaults getenv_api_key) s.
Proof.
  unfold init_session_state, set_missing, session_defaults. cbn [fold_left fst snd].
  cbv zeta. set (s7 := set_if_missing "function_calls_history" _ _).
  unfold set_if_missing, environment_key.
  destruct (lookup "api_key" s7); [reflexivity | ].
  now destruct getenv_api_key.
Qed.

(** X19.  [init_session_state] only fills in what is missing.  Every
    key the session already holds keeps its value, so the histories and a
    key typed by the user survive every rerun of the script; afterwards
    each of the eight keys is set; a key that was missing holds its
    default: the empty list for the histories, "Home" for the tab, and for
    the API key the one of the environment, the empty text when loading it
    fails.  Running it again changes nothing, whatever the environment
    holds by then. *)
Theorem session_defaults_kept (getenv_api_key : result string)
  (s : list (string * pyval)) :
  let s' := init_session_state getenv_api_key s in
  (forall k v, lookup k s = Some v -> lookup k s' = Some v) /\
  (forall k, lookup k s = None ->
             lookup k s' = lookup k (session_defaults getenv_api_key)) /\
  (forall k, In k (keys (session_defaults getenv_api_key)) -> lookup k s' <> None) /\
  (forall getenv_api_key', init_session_state getenv_api_key' s' = s').
Proof.
  cbv zeta. rewrite init_session_state_defaults.
  assert (Hset : forall k,
             In k (keys (session_defaults getenv_api_key)) ->
             lookup k (set_missing (session_defaults getenv_api_key) s) <> None).
  { intros k Hin. rewrite lookup_set_missing.
    destruct (lookup k s); [discriminate | ].
    apply lookup_keys in Hin. destruct Hin as (v & ->). discriminate. }
  split; [ | split; [ | split]].
  - intros k v H. now rewrite lookup_set_missing, H.
  - intros k H. now rewrite lookup_set_missing, H.
  - exact Hset.
  - intros env'. rewrite init_session_state_defaults.
    apply set_missing_present. intros k Hin. apply Hset. exact Hin.
Qed.

End Properties.

(** * The claims on concrete exchanges *)

Lemma text_extraction_witness :
  exists function_calls,
    process_initial_response (platform := sample_platform) mixed_response
    = Ok ("Hello AB", function_calls).
Proof.
  exact (proj1 (proj2 (text_extraction (platform := sample_platform) mixed_response))
           eq_refl).
Defined.

(** The records for "us" and "US" are not the same record (C2): their
    region fields differ. *)
Lemma rate_records_differ_in_region :
  get_interest_rate (platform := sample_platform) (VStr "us") VNone <>
  get_interest_rate (platform := sample_platform) (VStr "US") VNone.
Proof. vm_compute. discriminate. Qed.

Lemma rate_lookup_ignores_case_witness :
  lower "us" = lower "US" /\
  ((exists fields,
       keys fields = ["date"; "interest_rate"; "central_bank"; "last_updated"] /\
       get_interest_rate (platform := sample_platform) (VStr "us") VNone
       = Ok (VDict (("region", VStr "us") :: fields)) /\
       get_interest_rate (platform := sample_platform) (VStr "US") VNone
       = Ok (VDict (("region", VStr "US") :: fields)))
   \/
   (get_interest_rate (platform := sample_platform) (VStr "us") VNone
    = Ok (no_rate_record "us") /\
    get_interest_rate (platform := sample_platform) (VStr "US") VNone
    = Ok (no_rate_record "US"))).
Proof.
  split; [reflexivity | ].
  exact (proj1 (rate_lookup_ignores_case (platform := sample_platform))
           "us" "US" VNone eq_refl).
Defined.

(** Inside the domain of C3 (principal >= 0, rate >= 0, term > 0) the
    calculator does not always return: at a rate of 1e-14 per cent the
    monthly rate is not zero but 1 + rate is 1, and it divides by zero; at
    1200 per cent over 100 years the power overflows. *)
Lemma loan_payment_not_total :
  raises ZeroDivisionError
    (calculate_loan_payment (platform := sample_platform)
       (VInt 1000) (VFloat float_1e_14) (VInt 1)) /\
  raises OverflowError
    (calculate_loan_payment (platform := sample_platform)
       (VInt 1000) (VInt 1200) (VInt 100)).
Proof. split; vm_compute; eexists; reflexivity. Qed.

(** 300000 at 5.5 per cent over 30 years: 1703.37 a month, 613212.12 in
    all, 313212.12 of it interest. *)
Lemma loan_payment_formula_witness :
  loan_payment_is (platform := sample_platform)
    (VInt 300000) (VFloat float_5_5) (VInt 30) (NInt 300000) (NInt 30)
    (S754_finite false 7491487309252214 (-42)) /\
  calculate_loan_payment (platform := sample_platform)
    (VInt 300000) (VFloat float_5_5) (VInt 30) =
  Ok (VDict [ ("principal", VInt 300000);
              ("annual_interest_rate", VStr "5.5%");
              ("term_years", VInt 30);
              ("monthly_payment", VFloat (S754_finite false 7491500485619220 (-42)));
              ("total_payment", VFloat (S754_finite false 5267452001821655 (-33)));
              ("total_interest", VFloat (S754_finite false 5380943248443310 (-34)));
              ("number_of_payments", VInt 360) ]).
Proof.
  split; [ | vm_compute; reflexivity].
  destruct (proj1 (loan_payment_formula (platform := sample_platform))
              (VInt 300000) (VFloat float_5_5) (VInt 30)
              (NInt 300000) (NFloat float_5_5) (NInt 30)
              eq_refl eq_refl eq_refl eq_refl eq_refl eq_refl eq_refl)
    as (_ & Hannuity & _).
  destruct (Hannuity eq_refl eq_refl eq_refl) as (H & _).
  exact (H eq_refl eq_refl).
Defined.

Lemma tool_call_arguments_witness :
  add_tool_call (platform := sample_platform)
    (tool_call "call-7" "get_interest_rate" (VStr "region=US")) [] =
  Ok [ {| tool_call_id := VStr "call-7";
          function_name := VStr "get_interest_rate";
          arguments := VDict [ ("raw_args", VStr "region=US") ] |} ].
Proof.
  exact (proj1 (tool_call_arguments (platform := sample_platform)
                  (tool_call "call-7" "get_interest_rate" (VStr "region=US"))
                  (VObj [ ("name", Ok (VStr "get_interest_rate"));
                          ("arguments", Ok (VStr "region=US")) ])
                  (VStr "region=US") [] eq_refl eq_refl eq_refl eq_refl)).
Defined.

(** C5.  The code does not do what the spec says of a tool execution
    whose info fails to be read.  On a payload with a well-formed tool
    execution followed by one whose info raises when its [__dict__] is
    read, normalization is aborted by that exception: the turn recorded is
    the error turn with no tool execution at all, and the well-formed
    record is lost.  When the info raises [AttributeError] instead, the
    record holds the info object itself, not an empty mapping.  Only an
    entry whose [info] attribute itself is missing gets the empty
    mapping. *)
Theorem malformed_tool_info_aborts :
  process_orchestration_response sample_registry malformed_info_response
  = Raise info_unavailable /\
  orchestration_history (session (snd (orchestration_run malformed_info_response)))
  = [ user_turn "Compare the rates"; error_turn_orch info_unavailable ] /\
  process_orchestration_response sample_registry
    (respond [ tool_execution "web_search"
                 (raising_info (Exn AttributeError "no __dict__")) ])
  = Ok {| primary_response := "";
          handoffs := [];
          tool_executions :=
            [ tool_execution_dict (VStr "web_search")
                (raising_info (Exn AttributeError "no __dict__")) ] |} /\
  process_orchestration_response sample_registry
    (respond [ VObj [ ("type", Ok (VStr "tool.execution"));
                      ("name", Ok (VStr "web_search")) ] ])
  = Ok {| primary_response := "";
          handoffs := [];
          tool_executions := [ tool_execution_dict (VStr "web_search") (VDict []) ] |}.
Proof. repeat split. Qed.

(** The well-formed record of that payload is extracted when it comes
    alone. *)
Lemma well_formed_tool_info_extracted :
  process_orchestration_response sample_registry
    (respond [ tool_execution "code_interpreter"
                 (VDict [ ("code", VStr "print(1)"); ("code_output", VStr "1") ]) ])
  = Ok {| primary_response := "";
          handoffs := [];
          tool_executions :=
            [ tool_execution_dict (VStr "code_interpreter")
                (VDict [ ("code", VStr "print(1)"); ("code_output", VStr "1") ]) ] |}.
Proof. reflexivity. Qed.

(** Not every failure of the service reaches the history (C6): when the
    service refuses the key while the agent is created, the failure is
    logged and shown, and no turn at all is appended. *)
Lemma creation_failure_not_in_history :
  failed (calls (snd (function_calls_run [Raise unauthorized]))) unauthorized /\
  ui (snd (function_calls_run [Raise unauthorized]))
  = [ StError "Failed to create function call agent: 401 Unauthorized" ] /\
  ~ (exists turn,
        In turn (function_calls_history
                   (session (snd (function_calls_run [Raise unauthorized])))) /\
        turn_content turn = Some (VStr ("Error: " ++ exn_msg unauthorized))).
Proof.
  split; [ | split].
  - exists create_function_call_request. left. reflexivity.
  - reflexivity.
  - intros (turn & Hin & _). exact Hin.
Qed.

Lemma conversation_failures_surface_witness :
  conversation_failures_recorded (platform := sample_platform)
    (function_calls_submit "What is the rate in the US?")
    function_calls_history create_function_call_request
    "Failed to create function call agent: " "What is the rate in the US?"
    error_turn_fc.
Proof.
  exact (proj1 (proj1 (conversation_failures_surface (platform := sample_platform))
                  "What is the rate in the US?" ltac:(discriminate))).
Defined.

Lemma handoff_resolution_witness :
  exists turn,
    process_orchestration_response sample_registry handoff_response = Ok turn /\
    handoffs turn =
    [ VDict [ ("agent_name", VStr "calculator"); ("agent_id", VStr "ag-c");
              ("inputs", VStr "compute the payment") ];
      VDict [ ("agent_name", VStr "Unknown Agent"); ("agent_id", VStr "ag-x");
              ("inputs", VStr "plot it") ] ].
Proof.
  destruct (proj2 (proj2 (proj2 (proj2 handoff_resolution)))
              sample_registry handoff_response eq_refl) as (turn & H).
  exists turn. split; [exact H | ].
  exact (proj1 (proj2 (proj2 (proj2 handoff_resolution)))
           sample_registry handoff_response turn H).
Defined.

Lemma image_round_trips_witness :
  image_generation_history
    (session (snd (image_generation_submit (platform := sample_platform) "A red cat"
                     (start_state image_script (fresh_session "key"))))) =
  [ user_turn "A red cat";
    VDict [ ("role", VStr "assistant");
            ("content", VStr "Here is generated image 1");
            ("image_data", VBytes "PNG...");
            ("image_file_name", VStr "image");
            ("image_file_type", VStr "png") ];
    VDict [ ("role", VStr "assistant");
            ("content", VStr "Error generating image 2: 503 Service Unavailable");
            ("image_data", VNone) ] ].
Proof.
  exact (proj2 (proj2 (proj2
           (image_round_trips (platform := sample_platform) "A red cat" "ag-i"
              (start_state image_script (fresh_session "key")) (tl image_script)
              ltac:(discriminate) eq_refl)))
           _ unavailable [] eq_refl eq_refl).
Defined.

Lemma function_calls_turn_content_witness :
  turn_content exchange_turn = Some (VStr "The rate is 5.5%.") /\
  exists response current_response function_calls continuation,
    calls (snd exchange_run) =
      (ConversationsStart "ag-1" "What is the rate in the US?" None,
       Ok (RResponse response)) :: continuation /\
    process_initial_response (platform := sample_platform) response
    = Ok (current_response, function_calls) /\
    current_response = normalized_text (outputs response) /\
    turn_content exchange_turn =
      Some (VStr (match function_calls with
                  | [] => current_response
                  | _ => continuation_text continuation
                  end)) /\
    (function_calls = [] -> continuation = []).
Proof.
  split; [reflexivity | ].
  exact (function_calls_turn_content (platform := sample_platform)
           "ag-1" "What is the rate in the US?"
           exchange_start (snd exchange_run) exchange_turn
           ltac:(vm_compute; reflexivity)).
Defined.

(** A principal beyond the range of floats with a term of zero (C10): the
    calculator raises [OverflowError], not the division-by-zero error. *)
Lemma huge_principal_overflows :
  raises OverflowError
    (calculate_loan_payment (platform := sample_platform)
       (VInt (10 ^ 400)) (VInt 5) (VInt 0)) /\
  ~ raises ZeroDivisionError
      (calculate_loan_payment (platform := sample_platform)
         (VInt (10 ^ 400)) (VInt 5) (VInt 0)).
Proof.
  split; [vm_compute; eexists; reflexivity | ].
  intros (msg & H). vm_compute in H. discriminate H.
Qed.

Lemma zero_term_division_by_zero_witness :
  raises ZeroDivisionError
    (calculate_loan_payment (platform := sample_platform)
       (VInt 300000) (VFloat float_5_5) (VInt 0)) /\
  raises ZeroDivisionError
    (execute_function (platform := sample_platform) (VStr "calculate_loan_payment")
       (VDict [ ("principal", VInt 1000); ("annual_interest_rate", VInt 5) ])) /\
  exists msg,
    function_calls_history (session (snd loan_request_run)) =
    [ user_turn "Monthly payment?"; error_turn_fc (Exn ZeroDivisionError msg) ].
Proof.
  split; [ | split].
  - exact (proj1 (zero_term_division_by_zero (platform := sample_platform))
             (VInt 300000) (VFloat float_5_5) (VInt 0) eq_refl eq_refl eq_refl).
  - refine (proj1 (proj2 (zero_term_division_by_zero (platform := sample_platform)))
              [ ("principal", VInt 1000); ("annual_interest_rate", VInt 5) ]
              eq_refl _ _);
      intros v H; vm_compute in H; injection H as <-; reflexivity.
  - refine (proj2 (proj2 (zero_term_division_by_zero (platform := sample_platform)))
              "Monthly payment?" "ag-1"
              (start_state [ Ok (RAgent "ag-1"); Ok (RResponse loan_request_response) ]
                 (fresh_session "key"))
              [ Ok (RResponse loan_request_response) ] []
              loan_request_response ""
              {| tool_call_id := VStr "call-1";
                 function_name := VStr "calculate_loan_payment";
                 arguments := VDict [ ("principal", VInt 1000);
                                      ("annual_interest_rate", VInt 5) ] |}
              [] [ ("principal", VInt 1000); ("annual_interest_rate", VInt 5) ]
              ltac:(discriminate) eq_refl eq_refl eq_refl eq_refl eq_refl eq_refl _ _);
      intros v H; vm_compute in H; injection H as <-; reflexivity.
Defined.

(** The turn that request leaves in the history. *)
Lemma loan_request_error_turn :
  function_calls_history (session (snd loan_request_run)) =
  [ user_turn "Monthly payment?";
    VDict [ ("role", VStr "assistant");
            ("content", VStr "Error: float division by zero");
            ("function_calls", VList []);
            ("function_results", VList []) ] ].
Proof. reflexivity. Qed.

(** * The further properties on concrete exchanges *)

Lemma pending_calls_extracted_witness :
  exists text,
    process_initial_response (platform := sample_platform) rate_request_response =
    Ok (text, [ {| tool_call_id := VStr "call-1";
                   function_name := VStr "get_interest_rate";
                   arguments := VDict [ ("region", VStr "US") ] |} ]).
Proof.
  exact (proj2 (pending_calls_extracted (platform := sample_platform)
                  rate_request_response) eq_refl).
Defined.

Lemma function_results_handed_back_witness :
  exists response continuation,
    calls (snd exchange_run) =
      (calls exchange_start ++
         (ConversationsStart "ag-1" "What is the rate in the US?" None,
          Ok (RResponse response)) :: continuation)%list /\
    turn_field exchange_turn "function_calls" =
      Some (VList (map function_call_dict
                     (pending_calls (platform := sample_platform) (outputs response)))) /\
    turn_field exchange_turn "function_results" =
      Some (VList (recorded_results (platform := sample_platform)
                     (pending_calls (platform := sample_platform) (outputs response)))) /\
    map fst continuation =
      continuation_requests (platform := sample_platform) (conversation_id response)
        (pending_calls (platform := sample_platform) (outputs response)) /\
    all_answered continuation = true /\
    length continuation =
      length (recorded_results (platform := sample_platform)
                (pending_calls (platform := sample_platform) (outputs response))).
Proof.
  exact (function_results_handed_back (platform := sample_platform)
           "ag-1" "What is the rate in the US?"
           exchange_start (snd exchange_run) exchange_turn
           ltac:(vm_compute; reflexivity)).
Defined.

(** The requests of that exchange: the start and one continuation, for
    the call [call-1]. *)
Lemma rate_request_handed_back :
  map fst (calls (snd exchange_run)) =
  [ ConversationsStart "ag-1" "What is the rate in the US?" None;
    ConversationsContinued (VStr "conv-1") (VStr "call-1") "{...}" ].
Proof. reflexivity. Qed.

Lemma unknown_functions_unanswered_witness :
  function_calls_exchange (platform := sample_platform) "ag-1" "Will it rain?"
    weather_start =
  (Ok (assistant_turn_fc "" [weather_call] []),
   logged (platform := sample_platform) weather_start []
     (ConversationsStart "ag-1" "Will it rain?" None,
      Ok (RResponse weather_request_response))).
Proof.
  exact (unknown_functions_unanswered (platform := sample_platform)
           "ag-1" "Will it rain?" weather_start weather_request_response []
           "Let me check." weather_call [] eq_refl eq_refl eq_refl).
Defined.

Lemma rate_regions_listed_witness :
  (exists entry,
      lookup "ecb" rates = Some entry /\
      get_interest_rate (platform := sample_platform) (VStr "ECB") VNone =
      Ok (VDict (("region", VStr "ECB") ::
                 rate_fields (platform := sample_platform) VNone entry))) /\
  get_interest_rate (platform := sample_platform) (VStr "Mars") VNone =
  Ok (VDict [ ("error", VStr "No interest rate data available for Mars");
              ("available_regions",
               VList [ VStr "us"; VStr "ecb"; VStr "uk"; VStr "japan";
                       VStr "australia"; VStr "canada" ]) ]).
Proof.
  split.
  - apply (proj1 (rate_regions_listed (platform := sample_platform) "ECB" VNone
                    eq_refl)).
    simpl. tauto.
  - apply (proj2 (rate_regions_listed (platform := sample_platform) "Mars" VNone
                    eq_refl)).
    simpl. intros H. repeat (destruct H as [H | H]; [discriminate | ]). exact H.
Defined.

Lemma rate_request_arguments_witness :
  execute_function (platform := sample_platform) (VStr "get_interest_rate")
    (VDict [ ("date", VStr "2024-05-01") ])
  = Ok (Some (no_rate_record "")) /\
  raises AttributeError
    (execute_function (platform := sample_platform) (VStr "get_interest_rate")
       (VDict [ ("region", VInt 5) ])).
Proof.
  split.
  - exact (proj1 (rate_request_arguments (platform := sample_platform)
                    [ ("date", VStr "2024-05-01") ]) eq_refl).
  - exact (proj2 (proj2 (rate_request_arguments (platform := sample_platform)
                           [ ("region", VInt 5) ]))
             (VInt 5) eq_refl eq_refl).
Defined.

Lemma loan_payment_needs_numbers_witness :
  raises TypeError
    (calculate_loan_payment (platform := sample_platform)
       (VInt 300000) (VStr "5.5") (VInt 30)) /\
  raises TypeError
    (calculate_loan_payment (platform := sample_platform)
       (VInt 300000) (VFloat float_5_5) (VStr "30")) /\
  exists e,
    calculate_loan_payment (platform := sample_platform)
      (VStr "300000") (VFloat float_5_5) (VInt 30) = Raise e.
Proof.
  split; [ | split].
  - exact (proj1 (loan_payment_needs_numbers (platform := sample_platform)
                    (VInt 300000) (VStr "5.5") (VInt 30)) eq_refl).
  - exact (proj1 (proj2 (loan_payment_needs_numbers (platform := sample_platform)
                           (VInt 300000) (VFloat float_5_5) (VStr "30")))
             eq_refl eq_refl).
  - exact (proj2 (proj2 (loan_payment_needs_numbers (platform := sample_platform)
                           (VStr "300000") (VFloat float_5_5) (VInt 30)))
             (or_introl eq_refl)).
Defined.

Lemma orchestration_failures_recorded_witness :
  let st := start_state (orchestration_script handoff_response) (fresh_session "key") in
  let out :=
    orchestration_submit (platform := sample_platform) "Compare the rates" "server" st in
  (fst out = Ok true /\
   orchestration_history (session (snd out)) = orchestration_history (session st) /\
   exists delta e,
     calls (snd out) = (calls st ++ delta)%list /\ stopped_at delta e /\
     starts delta = 0%nat)
  \/
  (exists finance web_search calculator graph r,
      let agent_ids := registry finance web_search calculator graph in
      fst out = Ok false /\
      calls (snd out) =
        (calls st ++ setup_log finance web_search calculator graph ++
           [(ConversationsStart finance "Compare the rates" (Some "server"),
             map_result RResponse r)])%list /\
      orchestration_history (session (snd out)) =
        (orchestration_history (session st) ++
           [user_turn "Compare the rates"; orchestration_outcome agent_ids r])%list /\
      ui (snd out) =
        (ui st ++
           match
             bind r (fun response => process_orchestration_response agent_ids response)
           with
           | Ok _ => []
           | Raise e => [StError ("Error: " ++ exn_msg e)]
           end)%list).
Proof.
  exact (orchestration_failures_recorded (platform := sample_platform)
           "Compare the rates" "server"
           (start_state (orchestration_script handoff_response) (fresh_session "key"))
           ltac:(discriminate)).
Defined.

(** The run of that exchange: the seven requests of the setup, then the
    one conversation. *)
Lemma orchestration_requests_sent :
  map fst (calls (snd (orchestration_run handoff_response))) =
  (setup_requests "ag-f" "ag-w" "ag-c" "ag-g" ++
     [ConversationsStart "ag-f" "Compare the rates" (Some "server")])%list.
Proof. reflexivity. Qed.

Lemma orchestration_turn_extracted_witness :
  exists turn,
    process_orchestration_response sample_registry mixed_response = Ok turn /\
    primary_response turn = "Hello AB" /\
    tool_executions turn =
    [ tool_execution_dict (VStr "web_search") (VDict [ ("query", VStr "rates") ]) ].
Proof.
  exact (proj2 (orchestration_turn_extracted sample_registry mixed_response) eq_refl).
Defined.

Lemma web_search_turn_extracted_witness :
  web_search_exchange (platform := sample_platform) "ag-w" "What are the rates?"
    (start_state [ Ok (RResponse mixed_response) ] (fresh_session "key")) =
  (Ok (assistant_turn_ws "Hello AB"
         [ source_dict (VStr "Rates") (VStr "https://example.org/rates") (VStr "") ]),
   logged (platform := sample_platform)
     (start_state [ Ok (RResponse mixed_response) ] (fresh_session "key")) []
     (ConversationsStart "ag-w" "What are the rates?" None,
      Ok (RResponse mixed_response))).
Proof.
  exact (proj2 (web_search_turn_extracted (platform := sample_platform))
           "ag-w" "What are the rates?"
           (start_state [ Ok (RResponse mixed_response) ] (fresh_session "key"))
           mixed_response [] eq_refl eq_refl).
Defined.

Lemma image_response_extracted_witness :
  let outs := [ message_output (VStr "No image "); message_output (VStr "today.") ] in
  let found := with_text "No image today." no_image in
  for_each outs process_image_output no_image = Ok found /\
  response_text found = normalized_text outs /\
  found = with_text (normalized_text outs) no_image /\
  truthy (image_file_id found) = false.
Proof.
  cbv zeta. split; [reflexivity | ].
  destruct (image_response_extracted
              [ message_output (VStr "No image "); message_output (VStr "today.") ]
              (with_text "No image today." no_image) eq_refl) as [Htext Hfile].
  split; [exact Htext | exact (Hfile eq_refl)].
Defined.

Lemma image_download_witness :
  image_exchange (platform := sample_platform) "ag-i" "A red cat" 0
    download_failure_start =
  (Ok (VDict [ ("role", VStr "assistant");
               ("content", VStr "A red cat.");
               ("image_data", VNone);
               ("image_file_name", VStr "image");
               ("image_file_type", VStr "png") ]),
   {| world := [];
      calls := [ (ConversationsStart "ag-i" "A red cat" None,
                  Ok (RResponse image_file_response));
                 (FilesDownload (VStr "file-1"), Raise unavailable) ];
      ui := [ StError "Failed to download image 1/2: 503 Service Unavailable" ];
      session := fresh_session "key" |}).
Proof.
  exact (proj2 (image_download (platform := sample_platform) "ag-i" "A red cat" 0
                  download_failure_start image_file_response [ Raise unavailable ]
                  image_file_found eq_refl eq_refl)
           eq_refl (Raise unavailable) [] eq_refl).
Defined.

Lemma code_turn_extracted_witness :
  code_exchange_turn =
  assistant_turn_code "Here you go."
    [ code_block_dict (VStr "print(1)") (VStr "1");
      code_block_dict (VStr "x = 2") (VStr "") ] /\
  exists response w,
    conversations_start scripted "ag-c" "Print one" None (world code_exchange_start)
    = (Ok response, w) /\
    snd code_exchange_run =
      logged (platform := sample_platform) code_exchange_start w
        (ConversationsStart "ag-c" "Print one" None, Ok (RResponse response)) /\
    code_exchange_turn =
      assistant_turn_code (normalized_text (outputs response))
        (flat_map code_records (outputs response)).
Proof.
  split; [reflexivity | ].
  exact (code_turn_extracted (platform := sample_platform) "ag-c" "Print one"
           code_exchange_start (snd code_exchange_run) code_exchange_turn
           ltac:(vm_compute; reflexivity)).
Defined.

Lemma requests_need_key_and_prompt_witness :
  calls (snd (page_run (platform := sample_platform) ImageGeneration "A red cat"
                false true false (start_state image_script (fresh_session "")))) = [] /\
  world (snd (page_run (platform := sample_platform) ImageGeneration "A red cat"
                false true false (start_state image_script (fresh_session ""))))
  = image_script.
Proof.
  exact (requests_need_key_and_prompt (platform := sample_platform) ImageGeneration
           "A red cat" false true false (start_state image_script (fresh_session ""))
           (or_introl eq_refl)).
Defined.

Lemma continuation_needs_mappings_witness :
  raises AttributeError
    (add_continue_output
       (message_output (VList [ text_mapping "A"; text_object "B" ])) "") /\
  add_text_item (text_object "B") "A" = Ok "AB".
Proof.
  destruct (proj2 (continuation_needs_mappings (platform := sample_platform)
                     (message_output (VList [ text_mapping "A"; text_object "B" ])) "")
              [ text_mapping "A" ] (text_object "B") [] "A"
              eq_refl eq_refl eq_refl eq_refl) as [Hraise Hfirst].
  split; [exact Hraise | exact (Hfirst "B" eq_refl eq_refl)].
Defined.


Lemma session_defaults_kept_witness :
  lookup "api_key"
    (init_session_state (Ok "sk-from-env") typed_session) = Some (VStr "sk-typed") /\
  lookup "function_calls_history"
    (init_session_state (Ok "sk-from-env") typed_session) =
  Some (VList [ user_turn "What is the rate in the US?" ]).
Proof.
  split.
  - exact (proj1 (session_defaults_kept (Ok "sk-from-env") typed_session)
             "api_key" (VStr "sk-typed") eq_refl).
  - exact (proj1 (session_defaults_kept (Ok "sk-from-env") typed_session)
             "function_calls_history" _ eq_refl).
Defined.
